(** * HDFC Investright broker adapter: a shallow embedding and its properties

    The development follows the layout of the Python package
    [broker/hdfc_investright]:

    - [mapping/transform_data.py]  ->  [Module TransformData]
    - [api/order_api.py]           ->  [Module OrderApi]
    - [api/data_api.py]            ->  [Module DataApi]
    - [api/auth_api.py]            ->  [Module AuthApi]

    Python values are embedded as the inductive type [value] (the JSON
    fragment of Python objects), exceptions as the error side of the
    [result] monad, and [try: ... except Exception as e: ...] as
    [try_except].  The collaborators that live outside the package (the
    symbol resolver of [database.token_db], the pooled HTTP client of
    [utils.httpx_client], [json.dumps], [os.getenv] and the string parsers
    behind [int()] and [float()]) are section variables: every statement
    holds for all of their behaviours, and the examples instantiate them.
    Calls to the logger do not influence any returned value and are left
    out. *)

From Stdlib Require Import String Ascii List ZArith Bool Lia.
From Stdlib Require Import Floats.SpecFloat.
Import ListNotations.

Local Open Scope string_scope.
Local Open Scope Z_scope.

(** ** Exceptions and the error monad *)

(** The subclasses of [Exception] that the modelled code can meet; each
    carries the text that [str(e)] returns. *)
Inductive exn : Type :=
| TypeError (msg : string)
| AttributeError (msg : string)
| ValueError (msg : string)
| KeyError (msg : string)
| OverflowError (msg : string)
| TransportError (msg : string)
| RuntimeError (msg : string).

Definition str_of_exn (e : exn) : string :=
  match e with
  | TypeError m | AttributeError m | ValueError m | KeyError m
  | OverflowError m | TransportError m | RuntimeError m => m
  end.

Inductive result (A : Type) : Type :=
| Ok (a : A)
| Raise (e : exn).

Arguments Ok {A} a.
Arguments Raise {A} e.

Definition bind {A B : Type} (c : result A) (k : A -> result B) : result B :=
  match c with
  | Ok a => k a
  | Raise e => Raise e
  end.

Declare Scope py_scope.
Delimit Scope py_scope with py.
Notation "x <- c ;; k" := (bind c (fun x => k))
  (at level 61, c at next level, right associativity) : py_scope.
Local Open Scope py_scope.

(** [try: body  except Exception as e: handler e]. *)
Definition try_except {A : Type} (body : result A) (handler : exn -> result A)
  : result A :=
  match body with
  | Ok a => Ok a
  | Raise e => handler e
  end.

Definition returns {A : Type} (c : result A) : Prop := exists a, c = Ok a.

Definition raises {A : Type} (c : result A) : Prop := exists e, c = Raise e.

(** ** Python values *)

#[local] Set Warnings "-register-all".

Inductive value : Type :=
| VNone
| VBool (b : bool)
| VInt (n : Z)
| VFloat (f : spec_float)
| VStr (s : string)
| VList (l : list value)
| VDict (d : list (string * value)).

(** Dictionaries keep their insertion order, as Python's do; keys are
    strings, as in every record of this package. *)
Definition dict : Type := list (string * value).

Fixpoint assoc_get {A : Type} (k : string) (d : list (string * A)) : option A :=
  match d with
  | [] => None
  | (k', v) :: d' => if String.eqb k k' then Some v else assoc_get k d'
  end.

(** [d[k] = v]: overwrite in place, or append a new key at the end. *)
Fixpoint assoc_set {A : Type} (k : string) (v : A) (d : list (string * A))
  : list (string * A) :=
  match d with
  | [] => [(k, v)]
  | (k', v') :: d' =>
      if String.eqb k k' then (k', v) :: d' else (k', v') :: assoc_set k v d'
  end.

Definition type_name (v : value) : string :=
  match v with
  | VNone => "NoneType"
  | VBool _ => "bool"
  | VInt _ => "int"
  | VFloat _ => "float"
  | VStr _ => "str"
  | VList _ => "list"
  | VDict _ => "dict"
  end.

(** Truth value testing ([if x], [not x]). *)
Definition py_truthy (v : value) : bool :=
  match v with
  | VNone => false
  | VBool b => b
  | VInt n => negb (n =? 0)
  | VFloat (S754_zero _) => false
  | VFloat _ => true
  | VStr s => negb (String.eqb s "")
  | VList l => match l with [] => false | _ => true end
  | VDict d => match d with [] => false | _ => true end
  end.

(** [obj.get(key, default)]: only dictionaries have the method. *)
Definition py_get (obj : value) (key : string) (default : value) : result value :=
  match obj with
  | VDict d =>
      Ok (match assoc_get key d with Some v => v | None => default end)
  | _ =>
      Raise (AttributeError
               ("'" ++ type_name obj ++ "' object has no attribute 'get'"))
  end.

(** [obj[key]] for a string key. *)
Definition py_subscript (obj : value) (key : string) : result value :=
  match obj with
  | VDict d =>
      match assoc_get key d with
      | Some v => Ok v
      | None => Raise (KeyError ("'" ++ key ++ "'"))
      end
  | _ => Raise (TypeError ("'" ++ type_name obj ++ "' object is not subscriptable"))
  end.

(** Lists and dictionaries cannot be used as dictionary keys. *)
Definition hashable (v : value) : bool :=
  match v with
  | VList _ | VDict _ => false
  | _ => true
  end.

(** [TABLE.get(key, default)] on one of the fixed string-to-string tables:
    the key is hashed first, so an unhashable key raises; a hashable key
    that is not a string is never equal to a key of the table. *)
Definition table_get (tbl : list (string * string)) (key : value)
  (default : string) : result value :=
  match key with
  | VList _ | VDict _ =>
      Raise (TypeError ("unhashable type: '" ++ type_name key ++ "'"))
  | VStr s =>
      Ok (VStr (match assoc_get s tbl with Some b => b | None => default end))
  | _ => Ok (VStr default)
  end.

(** [{v: k for k, v in tbl.items()}]. *)
Definition invert_table (tbl : list (string * string)) : list (string * string) :=
  fold_left (fun acc kv => assoc_set (snd kv) (fst kv) acc) tbl [].

Fixpoint chars_of (s : string) : list value :=
  match s with
  | EmptyString => []
  | String c s' => VStr (String c EmptyString) :: chars_of s'
  end.

(** What a [for] loop or a comprehension iterates over. *)
Definition py_iter (v : value) : result (list value) :=
  match v with
  | VList l => Ok l
  | VStr s => Ok (chars_of s)
  | VDict d => Ok (map (fun kv => VStr (fst kv)) d)
  | _ => Raise (TypeError ("'" ++ type_name v ++ "' object is not iterable"))
  end.

(** *** Equality [a == b] *)

Definition binary64_prec : Z := 53.
Definition binary64_emax : Z := 1024.

(** An integer and a float are compared exactly. *)
Definition int_eq_float (n : Z) (f : spec_float) : bool :=
  match f with
  | S754_zero _ => n =? 0
  | S754_finite s m e =>
      let mz := cond_Zopp s (Zpos m) in
      if 0 <=? e then n =? mz * 2 ^ e else n * 2 ^ (- e) =? mz
  | _ => false
  end.

Definition Z_of_bool (b : bool) : Z := if b then 1 else 0.

(** Equality of two values.  Booleans are integers; dictionaries are equal
    when they hold equal values under the same keys, in any order (keys are
    unique in a Python dictionary).  Object identity is not modelled. *)
Fixpoint py_eq (a b : value) {struct a} : bool :=
  match a, b with
  | VNone, VNone => true
  | VBool x, VBool y => Bool.eqb x y
  | VBool x, VInt n => Z_of_bool x =? n
  | VBool x, VFloat f => int_eq_float (Z_of_bool x) f
  | VInt n, VBool y => n =? Z_of_bool y
  | VInt n, VInt m => n =? m
  | VInt n, VFloat f => int_eq_float n f
  | VFloat f, VBool y => int_eq_float (Z_of_bool y) f
  | VFloat f, VInt m => int_eq_float m f
  | VFloat f, VFloat g => SFeqb f g
  | VStr s, VStr t => String.eqb s t
  | VList l, VList m =>
      (fix go (l m : list value) {struct l} : bool :=
         match l, m with
         | [], [] => true
         | x :: l', y :: m' => py_eq x y && go l' m'
         | _, _ => false
         end) l m
  | VDict d, VDict e =>
      Nat.eqb (length d) (length e) &&
      (fix all (d : list (string * value)) : bool :=
         match d with
         | [] => true
         | (k, v) :: d' =>
             match assoc_get k e with
             | Some w => py_eq v w
             | None => false
             end && all d'
         end) d
  | _, _ => false
  end.

(** *** [repr()] of a string *)

(** The quote around the text: a double quote when the string holds a
    single quote and no double quote, a single quote otherwise. *)
Definition repr_quote (s : string) : ascii :=
  let cs := list_ascii_of_string s in
  if existsb (Ascii.eqb "'"%char) cs && negb (existsb (Ascii.eqb "034"%char) cs)
  then "034"%char else "'"%char.

Definition hex_digit (n : nat) : ascii :=
  nth n (list_ascii_of_string "0123456789abcdef") "0"%char.

(** One character of the text: the quote and the backslash are escaped,
    tab, newline and carriage return have their letters, the other control
    characters are written [\xNN]; characters beyond ASCII are taken to be
    printable and stand for themselves. *)
Definition repr_char (quote c : ascii) : string :=
  let n := nat_of_ascii c in
  if Ascii.eqb c quote || Ascii.eqb c "\"%char then String "\"%char (String c "")
  else if Ascii.eqb c "009"%char then "\t"
  else if Ascii.eqb c "010"%char then "\n"
  else if Ascii.eqb c "013"%char then "\r"
  else if (n <? 32)%nat || (n =? 127)%nat
       then String "\"%char
              (String "x"%char
                 (String (hex_digit (n / 16)) (String (hex_digit (n mod 16)) "")))
  else String c "".

Definition py_repr (s : string) : string :=
  let quote := repr_quote s in
  String quote
    (String.concat "" (map (repr_char quote) (list_ascii_of_string s))
     ++ String quote "").

(** *** The builtins [int()] and [float()] *)

Section Builtins.

(** The parsers behind [int(str)] and [float(str)]; [None] stands for a
    string that is not a numeral. *)
Variable int_of_str : string -> option Z.
Variable float_of_str : string -> option spec_float.

Definition py_int (v : value) : result value :=
  match v with
  | VInt n => Ok (VInt n)
  | VBool b => Ok (VInt (Z_of_bool b))
  | VFloat (S754_zero _) => Ok (VInt 0)
  | VFloat (S754_finite s m e) =>
      Ok (VInt (cond_Zopp s (if 0 <=? e then Zpos m * 2 ^ e
                             else Zpos m / 2 ^ (- e))))
  | VFloat (S754_infinity _) =>
      Raise (OverflowError "cannot convert float infinity to integer")
  | VFloat S754_nan =>
      Raise (ValueError "cannot convert float NaN to integer")
  | VStr s =>
      match int_of_str s with
      | Some n => Ok (VInt n)
      | None =>
          Raise (ValueError
                   ("invalid literal for int() with base 10: " ++ py_repr s))
      end
  | _ =>
      Raise (TypeError
               ("int() argument must be a string, a bytes-like object or "
                ++ "a real number, not '" ++ type_name v ++ "'"))
  end.

Definition float_of_Z (n : Z) : result value :=
  match binary_normalize binary64_prec binary64_emax n 0 false with
  | S754_infinity _ => Raise (OverflowError "int too large to convert to float")
  | f => Ok (VFloat f)
  end.

Definition py_float (v : value) : result value :=
  match v with
  | VFloat f => Ok (VFloat f)
  | VInt n => float_of_Z n
  | VBool b => float_of_Z (Z_of_bool b)
  | VStr s =>
      match float_of_str s with
      | Some f => Ok (VFloat f)
      | None =>
          Raise (ValueError ("could not convert string to float: " ++ py_repr s))
      end
  | _ =>
      Raise (TypeError
               ("float() argument must be a string or a real number, not '"
                ++ type_name v ++ "'"))
  end.

End Builtins.

(** ** [mapping/transform_data.py] *)

Module TransformData.

Definition ORDER_TYPE_MAP : list (string * string) :=
  [ ("MARKET", "MKT");
    ("LIMIT", "LMT");
    ("STOP_LOSS", "SL");
    ("STOP_LOSS_LIMIT", "SLL") ].

Definition ORDER_TYPE_REVERSE_MAP : list (string * string) :=
  invert_table ORDER_TYPE_MAP.

Definition PRODUCT_MAP : list (string * string) :=
  [ ("MIS", "MIS");
    ("INTRADAY", "MIS");
    ("CNC", "CNC");
    ("DELIVERY", "CNC");
    ("NRML", "NRML");
    ("MARGIN", "NRML") ].

Definition PRODUCT_REVERSE_MAP : list (string * string) :=
  [ ("MIS", "MIS");
    ("CNC", "CNC");
    ("NRML", "NRML") ].

Definition SIDE_MAP : list (string * string) :=
  [ ("BUY", "BUY");
    ("SELL", "SELL") ].

Definition VALIDITY_MAP : list (string * string) :=
  [ ("DAY", "DAY");
    ("IOC", "IOC");
    ("GTC", "GTC") ].

Section Mapper.

Variable int_of_str : string -> option Z.
Variable float_of_str : string -> option spec_float.

(** The symbol resolver of [database.token_db]: a lookup that yields the
    translated symbol, or an empty value when it knows none, or fails. *)
Variable get_br_symbol : value -> value -> result value.
Variable get_oa_symbol : value -> value -> result value.

(** [if order.get(key): hdfc_order[key] = conv(order[key])]. *)
Definition copy_if_truthy (order : value) (key : string)
  (conv : value -> result value) (hdfc_order : dict) : result dict :=
  present <- py_get order key VNone ;;
  if py_truthy present then
    raw <- py_subscript order key ;;
    converted <- conv raw ;;
    Ok (assoc_set key converted hdfc_order)
  else Ok hdfc_order.

Definition map_order_to_hdfc_body (order : value) : result value :=
  symbol <- py_get order "symbol" (VStr "") ;;
  exchange <- py_get order "exchange" (VStr "") ;;
  br_symbol <- get_br_symbol symbol exchange ;;
  let br_symbol := if py_truthy br_symbol then br_symbol else symbol in
  side_in <- py_get order "side" (VStr "BUY") ;;
  side <- table_get SIDE_MAP side_in "BUY" ;;
  quantity_in <- py_get order "quantity" (VInt 0) ;;
  quantity <- py_int int_of_str quantity_in ;;
  order_type_in <- py_get order "order_type" (VStr "MARKET") ;;
  order_type <- table_get ORDER_TYPE_MAP order_type_in "MKT" ;;
  product_in <- py_get order "product" (VStr "MIS") ;;
  product <- table_get PRODUCT_MAP product_in "MIS" ;;
  validity_in <- py_get order "validity" (VStr "DAY") ;;
  validity <- table_get VALIDITY_MAP validity_in "DAY" ;;
  let hdfc_order : dict :=
    [ ("symbol", br_symbol);
      ("exchange", exchange);
      ("side", side);
      ("quantity", quantity);
      ("order_type", order_type);
      ("product", product);
      ("validity", validity) ] in
  hdfc_order <- copy_if_truthy order "price" (py_float float_of_str) hdfc_order ;;
  hdfc_order <- copy_if_truthy order "stop_price" (py_float float_of_str) hdfc_order ;;
  hdfc_order <- copy_if_truthy order "disclosed_quantity" (py_int int_of_str) hdfc_order ;;
  Ok (VDict hdfc_order).

(** The handler logs and re-raises. *)
Definition map_order_to_hdfc (order : value) : result value :=
  try_except (map_order_to_hdfc_body order) (fun e => Raise e).

(** [oa_symbol = get_oa_symbol(br_symbol, exchange)], falling back to the
    broker symbol when the resolver returns an empty value. *)
Definition resolve_oa_symbol (br_symbol exchange : value) : result value :=
  oa_symbol <- get_oa_symbol br_symbol exchange ;;
  Ok (if py_truthy oa_symbol then oa_symbol else br_symbol).

Definition map_hdfc_order_response_body (hdfc_order : value) : result value :=
  exchange <- py_get hdfc_order "exchange" (VStr "") ;;
  br_symbol <- py_get hdfc_order "symbol" (VStr "") ;;
  oa_symbol <- resolve_oa_symbol br_symbol exchange ;;
  order_id <- py_get hdfc_order "order_id" (VStr "") ;;
  side <- py_get hdfc_order "side" (VStr "") ;;
  quantity <- py_get hdfc_order "quantity" (VInt 0) ;;
  price <- py_get hdfc_order "price" (VInt 0) ;;
  order_type_in <- py_get hdfc_order "order_type" (VStr "MKT") ;;
  order_type <- table_get ORDER_TYPE_REVERSE_MAP order_type_in "MARKET" ;;
  product_in <- py_get hdfc_order "product" (VStr "MIS") ;;
  product <- table_get PRODUCT_REVERSE_MAP product_in "MIS" ;;
  order_status <- py_get hdfc_order "status" (VStr "") ;;
  filled_quantity <- py_get hdfc_order "filled_quantity" (VInt 0) ;;
  pending_quantity <- py_get hdfc_order "pending_quantity" (VInt 0) ;;
  average_price <- py_get hdfc_order "average_price" (VInt 0) ;;
  timestamp <- py_get hdfc_order "created_at" (VStr "") ;;
  Ok (VDict
        [ ("order_id", order_id);
          ("symbol", oa_symbol);
          ("exchange", exchange);
          ("side", side);
          ("quantity", quantity);
          ("price", price);
          ("order_type", order_type);
          ("product", product);
          ("order_status", order_status);
          ("filled_quantity", filled_quantity);
          ("pending_quantity", pending_quantity);
          ("average_price", average_price);
          ("timestamp", timestamp) ]).

(** The handler logs and returns its argument. *)
Definition map_hdfc_order_response (hdfc_order : value) : result value :=
  try_except (map_hdfc_order_response_body hdfc_order)
             (fun _ => Ok hdfc_order).

Definition map_hdfc_trade_response_body (hdfc_trade : value) : result value :=
  exchange <- py_get hdfc_trade "exchange" (VStr "") ;;
  br_symbol <- py_get hdfc_trade "symbol" (VStr "") ;;
  oa_symbol <- resolve_oa_symbol br_symbol exchange ;;
  trade_id <- py_get hdfc_trade "trade_id" (VStr "") ;;
  order_id <- py_get hdfc_trade "order_id" (VStr "") ;;
  side <- py_get hdfc_trade "side" (VStr "") ;;
  quantity <- py_get hdfc_trade "quantity" (VInt 0) ;;
  price <- py_get hdfc_trade "price" (VInt 0) ;;
  timestamp <- py_get hdfc_trade "executed_at" (VStr "") ;;
  Ok (VDict
        [ ("trade_id", trade_id);
          ("order_id", order_id);
          ("symbol", oa_symbol);
          ("exchange", exchange);
          ("side", side);
          ("quantity", quantity);
          ("price", price);
          ("timestamp", timestamp) ]).

Definition map_hdfc_trade_response (hdfc_trade : value) : result value :=
  try_except (map_hdfc_trade_response_body hdfc_trade)
             (fun _ => Ok hdfc_trade).

Definition map_hdfc_position_body (hdfc_pos : value) : result value :=
  exchange <- py_get hdfc_pos "exchange" (VStr "") ;;
  br_symbol <- py_get hdfc_pos "symbol" (VStr "") ;;
  oa_symbol <- resolve_oa_symbol br_symbol exchange ;;
  quantity <- py_get hdfc_pos "quantity" (VInt 0) ;;
  product_in <- py_get hdfc_pos "product" (VStr "MIS") ;;
  product <- table_get PRODUCT_REVERSE_MAP product_in "MIS" ;;
  price <- py_get hdfc_pos "average_price" (VInt 0) ;;
  pnl <- py_get hdfc_pos "pnl" (VInt 0) ;;
  pnl_percentage <- py_get hdfc_pos "pnl_percentage" (VInt 0) ;;
  Ok (VDict
        [ ("symbol", oa_symbol);
          ("exchange", exchange);
          ("quantity", quantity);
          ("product", product);
          ("price", price);
          ("pnl", pnl);
          ("pnl_percentage", pnl_percentage) ]).

Definition map_hdfc_position (hdfc_pos : value) : result value :=
  try_except (map_hdfc_position_body hdfc_pos) (fun _ => Ok hdfc_pos).

Definition map_hdfc_holding_body (hdfc_holding : value) : result value :=
  exchange <- py_get hdfc_holding "exchange" (VStr "") ;;
  br_symbol <- py_get hdfc_holding "symbol" (VStr "") ;;
  oa_symbol <- resolve_oa_symbol br_symbol exchange ;;
  quantity <- py_get hdfc_holding "quantity" (VInt 0) ;;
  price <- py_get hdfc_holding "average_price" (VInt 0) ;;
  value_ <- py_get hdfc_holding "value" (VInt 0) ;;
  pnl <- py_get hdfc_holding "pnl" (VInt 0) ;;
  Ok (VDict
        [ ("symbol", oa_symbol);
          ("exchange", exchange);
          ("quantity", quantity);
          ("price", price);
          ("value", value_);
          ("pnl", pnl) ]).

Definition map_hdfc_holding (hdfc_holding : value) : result value :=
  try_except (map_hdfc_holding_body hdfc_holding) (fun _ => Ok hdfc_holding).

End Mapper.

End TransformData.

(** ** The HTTP client of [utils.httpx_client] *)

(** One outbound request: the verb, the URL and the keyword arguments that
    the package passes to the client. *)
Record request : Type := mk_request {
  req_method : string;
  req_url : string;
  req_headers : list (string * string);
  req_content : option string;
  req_params : option (list (string * string));
  req_data : option (list (string * string));
  req_auth : option (string * string);
  req_timeout : option spec_float
}.

(** What the package reads off a response object: [status_code], [text] and
    the outcome of calling [json()]. *)
Record response : Type := mk_response {
  status_code : Z;
  text : string;
  json : result value
}.

(** A client answers a request with a response, or raises (connection
    refused, timeout, ...). *)
Definition http_client : Type := request -> result response.

Fixpoint mapM {A B : Type} (f : A -> result B) (l : list A) : result (list B) :=
  match l with
  | [] => Ok []
  | x :: l' =>
      y <- f x ;;
      ys <- mapM f l' ;;
      Ok (y :: ys)
  end.

(** ** [api/baseurl.py] *)

Module BaseUrl.

Definition BASE_URL : string := "https://developer.hdfcsec.com/oapi/v1".
Definition AUTH_BASE_URL : string := "https://developer.hdfcsec.com".

Definition get_url (endpoint : string) : string := BASE_URL ++ endpoint.

End BaseUrl.

(** ** [api/order_api.py] *)

Module OrderApi.

Import TransformData.

Definition status_success : value := VDict [("status", VStr "success")].

Definition error_with_message (e : exn) : value :=
  VDict [("status", VStr "error"); ("message", VStr (str_of_exn e))].

Definition error_envelope (key : string) : value :=
  VDict [("status", VStr "error"); (key, VList [])].

Definition success_envelope (key : string) (items : list value) : value :=
  VDict [("status", VStr "success"); (key, VList items)].

Section Gateway.

Variable int_of_str : string -> option Z.
Variable float_of_str : string -> option spec_float.
Variable get_br_symbol : value -> value -> result value.
Variable get_oa_symbol : value -> value -> result value.

(** [json.dumps]. *)
Variable json_dumps : value -> result string.

(** [get_httpx_client()]: hands out the shared client, or fails. *)
Variable get_httpx_client : result http_client.

Definition request_headers (auth : string) : list (string * string) :=
  [ ("Authorization", "Bearer " ++ auth);
    ("Content-Type", "application/json");
    ("Accept", "application/json") ].

Definition send (client : http_client) (method url : string)
  (headers : list (string * string)) (content : option string)
  : result response :=
  client (mk_request method url headers content None None None None).

Definition get_api_response (endpoint auth method payload : string)
  : result value :=
  client <- get_httpx_client ;;
  let headers := request_headers auth in
  let url := BaseUrl.get_url endpoint in
  try_except
    (response <-
       (if String.eqb method "GET" then send client "GET" url headers None
        else if String.eqb method "POST" then
          send client "POST" url headers (Some payload)
        else if String.eqb method "PUT" then
          send client "PUT" url headers (Some payload)
        else if String.eqb method "DELETE" then
          send client "DELETE" url headers None
        else Raise (ValueError ("Unsupported method: " ++ method))) ;;
     if (status_code response =? 200) || (status_code response =? 201) then
       if py_truthy (VStr (text response)) then json response
       else Ok status_success
     else
       error_response <-
         (if py_truthy (VStr (text response)) then json response
          else Ok (VDict [])) ;;
       Ok error_response)
    (fun e => Ok (error_with_message e)).

Definition place_order (order : value) (auth : string) : result value :=
  try_except
    (hdfc_order <- map_order_to_hdfc int_of_str float_of_str get_br_symbol order ;;
     payload <- json_dumps hdfc_order ;;
     response <- get_api_response "/orders" auth "POST" payload ;;
     map_hdfc_order_response get_oa_symbol response)
    (fun e => Ok (error_with_message e)).

Definition modify_order (order_id : string) (order : value) (auth : string)
  : result value :=
  try_except
    (hdfc_order <- map_order_to_hdfc int_of_str float_of_str get_br_symbol order ;;
     payload <- json_dumps hdfc_order ;;
     response <- get_api_response ("/orders/" ++ order_id) auth "PUT" payload ;;
     map_hdfc_order_response get_oa_symbol response)
    (fun e => Ok (error_with_message e)).

Definition cancel_order (order_id auth : string) : result value :=
  try_except
    (response <- get_api_response ("/orders/" ++ order_id) auth "DELETE" "" ;;
     Ok response)
    (fun e => Ok (error_with_message e)).

Definition get_order (order_id auth : string) : result value :=
  try_except
    (response <- get_api_response ("/orders/" ++ order_id) auth "GET" "" ;;
     map_hdfc_order_response get_oa_symbol response)
    (fun e => Ok (error_with_message e)).

(** The common shape of the four listings: fetch, give up on an error
    envelope, otherwise map every element of the list under [key]. *)
Definition list_resource (endpoint key : string)
  (transform : value -> result value) (auth : string) : result value :=
  try_except
    (response <- get_api_response endpoint auth "GET" "" ;;
     status <- py_get response "status" VNone ;;
     if py_eq status (VStr "error") then Ok (error_envelope key)
     else
       items <- py_get response key (VList []) ;;
       elements <- py_iter items ;;
       transformed <- mapM transform elements ;;
       Ok (success_envelope key transformed))
    (fun _ => Ok (error_envelope key)).

Definition get_order_book (auth : string) : result value :=
  list_resource "/orders" "orders" (map_hdfc_order_response get_oa_symbol) auth.

Definition get_trade_book (auth : string) : result value :=
  list_resource "/trades/book" "trades" (map_hdfc_trade_response get_oa_symbol) auth.

Definition get_positions (auth : string) : result value :=
  list_resource "/positions" "positions" (map_hdfc_position get_oa_symbol) auth.

Definition get_holdings (auth : string) : result value :=
  list_resource "/holdings" "holdings" (map_hdfc_holding get_oa_symbol) auth.

(** The [for] loop of [get_open_position]: the first position whose
    ["tradingsymbol"] and ["exchange"] entries equal the arguments, or
    the empty record when the loop runs out. *)
Fixpoint scan_positions (br_symbol : value) (exchange : string)
  (positions : list value) : result value :=
  match positions with
  | [] => Ok (VDict [])
  | position :: rest =>
      symbol_here <- py_get position "tradingsymbol" VNone ;;
      if py_eq symbol_here br_symbol then
        exchange_here <- py_get position "exchange" VNone ;;
        if py_eq exchange_here (VStr exchange) then Ok position
        else scan_positions br_symbol exchange rest
      else scan_positions br_symbol exchange rest
  end.

Definition get_open_position (tradingsymbol exchange producttype auth : string)
  : result value :=
  try_except
    (positions_response <- get_positions auth ;;
     positions <- py_get positions_response "positions" (VList []) ;;
     br_symbol <- get_br_symbol (VStr tradingsymbol) (VStr exchange) ;;
     elements <- py_iter positions ;;
     scan_positions br_symbol exchange elements)
    (fun _ => Ok (VDict [])).

End Gateway.

End OrderApi.

(** ** [api/data_api.py] *)

Module DataApi.

Section Gateway.

Variable get_httpx_client : result http_client.

Definition request_headers (auth : string) : list (string * string) :=
  [ ("Authorization", "Bearer " ++ auth);
    ("Content-Type", "application/json") ].

(** [params or {}]. *)
Definition params_or_empty (params : option (list (string * string)))
  : list (string * string) :=
  match params with
  | Some (p :: ps) => p :: ps
  | _ => []
  end.

Definition get_api_response (endpoint auth method : string)
  (params : option (list (string * string))) : result value :=
  client <- get_httpx_client ;;
  let headers := request_headers auth in
  let url := BaseUrl.get_url endpoint in
  try_except
    (response <-
       (if String.eqb method "GET" then
          client (mk_request "GET" url headers None
                    (Some (params_or_empty params)) None None None)
        else
          client (mk_request method url headers None None None None None)) ;;
     if py_truthy (VStr (text response)) then json response
     else Ok (VDict []))
    (fun e =>
       Ok (VDict [("status", VStr "error"); ("message", VStr (str_of_exn e))])).

Definition get_quotes (symbol exchange auth : string) : result value :=
  try_except
    (let params := [("symbol", symbol); ("exchange", exchange)] in
     response <- get_api_response "/quotes" auth "GET" (Some params) ;;
     Ok response)
    (fun _ => Ok (VDict [("status", VStr "error")])).

Definition get_history (symbol exchange interval start_date end_date auth : string)
  : result value :=
  try_except
    (let params :=
       [ ("symbol", symbol);
         ("exchange", exchange);
         ("interval", interval);
         ("start_date", start_date);
         ("end_date", end_date) ] in
     response <- get_api_response "/history" auth "GET" (Some params) ;;
     Ok response)
    (fun _ => Ok (VDict [("status", VStr "error"); ("candles", VList [])])).

Definition get_depth (symbol exchange auth : string) : result value :=
  try_except
    (let params := [("symbol", symbol); ("exchange", exchange)] in
     response <- get_api_response "/depth" auth "GET" (Some params) ;;
     Ok response)
    (fun _ => Ok (VDict [("status", VStr "error")])).

End Gateway.

End DataApi.

(** ** [api/auth_api.py] *)

Module AuthApi.

Definition AUTH_BASE_URL : string := "https://developer.hdfcsec.com".

Definition five_seconds : spec_float :=
  Eval cbv in binary_normalize binary64_prec binary64_emax 5 0 false.

Section Auth.

(** The process environment behind [os.getenv]. *)
Variable environ : string -> option string.

Variable get_httpx_client : result http_client.

Definition os_getenv (key default : string) : string :=
  match environ key with
  | Some v => v
  | None => default
  end.

Definition generate_auth_url (state : string) : result string :=
  let api_key := os_getenv "BROKER_API_KEY" "" in
  if negb (py_truthy (VStr api_key)) then
    Raise (ValueError "BROKER_API_KEY environment variable not set")
  else
    let redirect_uri :=
      os_getenv "BROKER_REDIRECT_URI" "http://localhost:8000/auth/callback" in
    Ok (AUTH_BASE_URL ++ "/oauth/authorize"
        ++ "?client_id=" ++ api_key
        ++ "&redirect_uri=" ++ redirect_uri
        ++ "&response_type=code"
        ++ "&state=" ++ state
        ++ "&scope=trading placement").

(** [client.post(token_url, data=payload, auth=HTTPBasicAuth(key, secret))]
    and the reading of its answer, shared by the two token calls. *)
Definition post_token (client : http_client)
  (payload : list (string * string)) (api_key api_secret : string)
  : result value :=
  response <-
    client (mk_request "POST" (AUTH_BASE_URL ++ "/oauth/token") [] None None
              (Some payload) (Some (api_key, api_secret)) None) ;;
  if status_code response =? 200 then json response
  else Ok VNone.

Definition get_access_token (authorization_code : string) : result value :=
  try_except
    (let api_key := os_getenv "BROKER_API_KEY" "" in
     let api_secret := os_getenv "BROKER_API_SECRET" "" in
     let redirect_uri :=
       os_getenv "BROKER_REDIRECT_URI" "http://localhost:8000/auth/callback" in
     if negb (py_truthy (VStr api_key)) || negb (py_truthy (VStr api_secret))
     then Ok VNone
     else
       client <- get_httpx_client ;;
       let payload :=
         [ ("grant_type", "authorization_code");
           ("code", authorization_code);
           ("redirect_uri", redirect_uri);
           ("client_id", api_key);
           ("client_secret", api_secret) ] in
       post_token client payload api_key api_secret)
    (fun _ => Ok VNone).

Definition refresh_access_token (refresh_token : string) : result value :=
  try_except
    (let api_key := os_getenv "BROKER_API_KEY" "" in
     let api_secret := os_getenv "BROKER_API_SECRET" "" in
     if negb (py_truthy (VStr api_key)) || negb (py_truthy (VStr api_secret))
     then Ok VNone
     else
       client <- get_httpx_client ;;
       let payload :=
         [ ("grant_type", "refresh_token");
           ("refresh_token", refresh_token);
           ("client_id", api_key);
           ("client_secret", api_secret) ] in
       post_token client payload api_key api_secret)
    (fun _ => Ok VNone).

Definition validate_token (access_token : string) : result bool :=
  try_except
    (client <- get_httpx_client ;;
     let headers :=
       [ ("Authorization", "Bearer " ++ access_token);
         ("Content-Type", "application/json") ] in
     response <-
       client (mk_request "GET" (AUTH_BASE_URL ++ "/oapi/v1/account/profile")
                 headers None None None None (Some five_seconds)) ;;
     Ok (status_code response =? 200))
    (fun _ => Ok false).

(** A credential is missing when its variable is unset or empty. *)
Definition missing (key : string) : Prop :=
  environ key = None \/ environ key = Some "".

End Auth.

End AuthApi.

(** ** Concrete collaborators and inputs used in the examples *)

Module Fixtures.

(** The examples never hand a string to [int()] or [float()]. *)
Definition int_of_str0 : string -> option Z := fun _ => None.
Definition float_of_str0 : string -> option spec_float := fun _ => None.

(** A resolver that knows one instrument: platform symbol INFY on NSE is
    the broker's INFY-EQ. *)
Definition br_symbol_of (symbol exchange : value) : result value :=
  if py_eq symbol (VStr "INFY") && py_eq exchange (VStr "NSE")
  then Ok (VStr "INFY-EQ") else Ok VNone.

Definition oa_symbol_of (br_symbol exchange : value) : result value :=
  if py_eq br_symbol (VStr "INFY-EQ") && py_eq exchange (VStr "NSE")
  then Ok (VStr "INFY") else Ok VNone.

Definition resolver_down (symbol exchange : value) : result value :=
  Raise (RuntimeError "database is locked").

(** The payload is opaque to the clients below. *)
Definition dumps0 (v : value) : result string := Ok "<order>".

(** A broker that answers every request alike.  [text] stands for the raw
    body, of which the package only tests emptiness; [json] is its parse. *)
Definition answering (code : Z) (body : string) (parsed : result value)
  : http_client :=
  fun _ => Ok (mk_response code body parsed).

Definition no_json : result value :=
  Raise (ValueError "Expecting value: line 1 column 1 (char 0)").

(** A transport that fails on every request. *)
Definition client_down : http_client :=
  fun _ => Raise (TransportError "connection refused").

(** The broker accepts with an empty body; the broker refuses with an
    empty body. *)
Definition empty_ok_client : http_client := answering 200 "" no_json.
Definition not_found_client : http_client := answering 404 "" no_json.

(** A resolver for a broker whose symbols are the platform's. *)
Definition same_symbol (symbol exchange : value) : result value := Ok symbol.

Definition no_environ : string -> option string := fun _ => None.

Definition infy_order : value :=
  VDict [ ("symbol", VStr "INFY");
          ("exchange", VStr "NSE");
          ("price", VInt 1500);
          ("quantity", VInt 1);
          ("side", VStr "BUY");
          ("order_type", VStr "LIMIT");
          ("product", VStr "INTRADAY") ].

(** An order with an unknown order_type, a null side, a numeric validity
    and no product. *)
Definition sparse_order : dict :=
  [ ("symbol", VStr "INFY");
    ("exchange", VStr "NSE");
    ("quantity", VInt 1);
    ("order_type", VStr "BRACKET");
    ("side", VNone);
    ("validity", VInt 7) ].

(** An order without an order_type, and the same order with a list in
    that place. *)
Definition bare_order : dict :=
  [ ("symbol", VStr "INFY");
    ("exchange", VStr "NSE");
    ("quantity", VInt 1) ].

Definition list_typed_order : dict :=
  (bare_order ++ [ ("order_type", VList []) ])%list.

(** One open position, as the broker reports it. *)
Definition infy_position : value :=
  VDict [ ("symbol", VStr "INFY-EQ");
          ("exchange", VStr "NSE");
          ("quantity", VInt 10);
          ("product", VStr "MIS");
          ("average_price", VInt 1500);
          ("pnl", VInt 25);
          ("pnl_percentage", VInt 1) ].

Definition positions_body : value :=
  VDict [ ("positions", VList [infy_position]) ].

Definition positions_client : http_client :=
  answering 200 "{positions: [...]}" (Ok positions_body).

(** The same position in platform form, as [map_hdfc_position] renders it. *)
Definition infy_position_platform : value :=
  VDict [ ("symbol", VStr "INFY");
          ("exchange", VStr "NSE");
          ("quantity", VInt 10);
          ("product", VStr "MIS");
          ("price", VInt 1500);
          ("pnl", VInt 25);
          ("pnl_percentage", VInt 1) ].

(** What [map_hdfc_order_response] makes of [{status: s}] when the resolver
    knows no symbol. *)
Definition blank_order (s : string) : value :=
  VDict [ ("order_id", VStr "");
          ("symbol", VStr "");
          ("exchange", VStr "");
          ("side", VStr "");
          ("quantity", VInt 0);
          ("price", VInt 0);
          ("order_type", VStr "MARKET");
          ("product", VStr "MIS");
          ("order_status", VStr s);
          ("filled_quantity", VInt 0);
          ("pending_quantity", VInt 0);
          ("average_price", VInt 0);
          ("timestamp", VStr "") ].

End Fixtures.

(** ** Vocabulary of the statements *)

(** The entry of a dictionary under a key, or a default: what
    [d.get(key, default)] returns. *)
Definition field_or (d : dict) (key : string) (default : value) : value :=
  match assoc_get key d with
  | Some v => v
  | None => default
  end.




(** The record carries a ['status'] entry that is ['success'] or
    ['error']. *)
Definition has_status (v : value) : Prop :=
  exists d s, v = VDict d /\ assoc_get "status" d = Some (VStr s) /\
              (s = "success" \/ s = "error").

(** The verbs that the order gateway knows. *)
Definition supported (method : string) : Prop :=
  In method ["GET"; "POST"; "PUT"; "DELETE"].

(** The client raises on every request. *)
Definition transport_fails (client : http_client) (e : exn) : Prop :=
  forall req, client req = Raise e.

(** The broker answers every request with status 200 or 201 and an empty
    body. *)
Definition answers_empty_success (client : http_client) : Prop :=
  forall req, exists resp,
    client req = Ok resp /\
    (status_code resp = 200 \/ status_code resp = 201) /\
    text resp = "".

(** The broker answers every request with a status other than 200 and 201
    and an empty body. *)
Definition answers_empty_failure (client : http_client) : Prop :=
  forall req, exists resp,
    client req = Ok resp /\
    status_code resp <> 200 /\ status_code resp <> 201 /\
    text resp = "".

(** ** Further vocabulary and inputs *)


Definition BROKER_SIDES : list string := ["BUY"; "SELL"].
Definition BROKER_ORDER_TYPES : list string := ["MKT"; "LMT"; "SL"; "SLL"].
Definition BROKER_PRODUCTS : list string := ["MIS"; "CNC"; "NRML"].
Definition BROKER_VALIDITIES : list string := ["DAY"; "IOC"; "GTC"].
Definition PLATFORM_ORDER_TYPES : list string :=
  ["MARKET"; "LIMIT"; "STOP_LOSS"; "STOP_LOSS_LIMIT"].

(** The entry under [key] is one of the given strings. *)
Definition entry_in (d : dict) (key : string) (allowed : list string) : Prop :=
  exists s, assoc_get key d = Some (VStr s) /\ In s allowed.

(** The keys of a dictionary, in insertion order. *)
Definition keys (d : dict) : list string := map fst d.

Definition ORDER_KEYS : list string :=
  [ "order_id"; "symbol"; "exchange"; "side"; "quantity"; "price";
    "order_type"; "product"; "order_status"; "filled_quantity";
    "pending_quantity"; "average_price"; "timestamp" ].

Definition TRADE_KEYS : list string :=
  [ "trade_id"; "order_id"; "symbol"; "exchange"; "side"; "quantity";
    "price"; "timestamp" ].

Definition POSITION_KEYS : list string :=
  [ "symbol"; "exchange"; "quantity"; "product"; "price"; "pnl";
    "pnl_percentage" ].

Definition HOLDING_KEYS : list string :=
  [ "symbol"; "exchange"; "quantity"; "price"; "value"; "pnl" ].

(** The test of the loop in [get_open_position], on a position that is a
    dictionary. *)
Definition position_matches (br_symbol : value) (exchange : string)
  (position : value) : bool :=
  match position with
  | VDict d =>
      py_eq (field_or d "tradingsymbol" VNone) br_symbol &&
      py_eq (field_or d "exchange" VNone) (VStr exchange)
  | _ => false
  end.

Definition is_dict (v : value) : bool :=
  match v with
  | VDict _ => true
  | _ => false
  end.

(** A value that a listing cannot use: not a record, a record whose status
    is error, or a record that holds nothing iterable under the key. *)
Definition unusable_listing (key : string) (v : value) : Prop :=
  (forall body, v <> VDict body) \/
  (exists body,
     v = VDict body /\
     (py_eq (field_or body "status" VNone) (VStr "error") = true \/
      raises (py_iter (field_or body key (VList []))))).

Module Cases.

(** An order with a price, a zero stop price and no disclosed quantity. *)
Definition priced_order : dict :=
  [ ("symbol", VStr "INFY");
    ("exchange", VStr "NSE");
    ("price", VInt 1500);
    ("stop_price", VInt 0);
    ("quantity", VInt 1);
    ("side", VStr "SELL");
    ("order_type", VStr "LIMIT");
    ("product", VStr "DELIVERY");
    ("validity", VStr "IOC") ].

(** An order as the broker reports it. *)
Definition broker_order : dict :=
  [ ("order_id", VStr "A1");
    ("symbol", VStr "INFY-EQ");
    ("exchange", VStr "NSE");
    ("side", VStr "SELL");
    ("quantity", VInt 5);
    ("order_type", VStr "SL");
    ("product", VStr "CNC");
    ("validity", VStr "IOC");
    ("status", VStr "OPEN") ].

(** Two raw positions that carry the broker's own keys. *)
Definition raw_positions : list value :=
  [ VDict [("tradingsymbol", VStr "TCS-EQ"); ("exchange", VStr "NSE")];
    VDict [("tradingsymbol", VStr "INFY-EQ"); ("exchange", VStr "BSE")];
    VDict [("tradingsymbol", VStr "INFY-EQ"); ("exchange", VStr "NSE");
           ("quantity", VInt 3)] ].

(** A listing body with two orders, one of them not a record. *)
Definition orders_body : value :=
  VDict [ ("orders", VList [VDict broker_order; VStr "busy"]) ].

Definition orders_client : http_client :=
  Fixtures.answering 200 "{orders: [...]}" (Ok orders_body).


Definition configured_environ (key : string) : option string :=
  if String.eqb key "BROKER_API_KEY" then Some "id-1"
  else if String.eqb key "BROKER_API_SECRET" then Some "s3cret"
  else None.

Definition token_body : value :=
  VDict [("access_token", VStr "at"); ("refresh_token", VStr "rt")].

Definition token_client : http_client :=
  Fixtures.answering 200 "{access_token: ...}" (Ok token_body).

(** A broker that answers with a JSON array, and one that answers 500 with
    a message. *)
Definition array_client : http_client :=
  Fixtures.answering 200 "[]" (Ok (VList [])).

Definition server_error : response :=
  mk_response 500 "{message: ...}" (Ok (VDict [("message", VStr "boom")])).

Definition failing_client : http_client := fun _ => Ok server_error.

Definition raw_positions_client : http_client :=
  Fixtures.answering 200 "{positions: [...]}"
    (Ok (VDict [("positions", VList raw_positions)])).

Definition odd_positions : list value :=
  [ VStr "busy";
    VDict [("tradingsymbol", VStr "INFY-EQ"); ("exchange", VStr "NSE")] ].

Definition odd_positions_client : http_client :=
  Fixtures.answering 200 "{positions: [...]}"
    (Ok (VDict [("positions", VList odd_positions)])).

End Cases.

(** * Properties *)

(** ** The error monad *)

Lemma bind_Ok_inv {A B : Type} (c : result A) (k : A -> result B) (b : B) :
  bind c k = Ok b -> exists a, c = Ok a /\ k a = Ok b.
Proof.
  destruct c as [a | e]; simpl; intros H.
  - exists a. split; [reflexivity | exact H].
  - discriminate H.
Qed.

Lemma try_except_total {A : Type} (body : result A) (handler : exn -> result A) :
  (forall e, returns (handler e)) -> returns (try_except body handler).
Proof.
  intros Hh. destruct body as [a | e]; simpl.
  - exists a. reflexivity.
  - apply Hh.
Qed.

Lemma try_except_reraise {A : Type} (body : result A) :
  try_except body (fun e => Raise e) = body.
Proof. destruct body; reflexivity. Qed.

Lemma try_except_raise {A : Type} (body : result A) (handler : exn -> result A) e :
  body = Raise e -> try_except body handler = handler e.
Proof. intros ->. reflexivity. Qed.

Lemma returns_Ok {A : Type} (a : A) : returns (Ok a).
Proof. exists a. reflexivity. Qed.

Lemma mapM_total {A B : Type} (f : A -> result B) (l : list A) :
  (forall x, returns (f x)) -> returns (mapM f l).
Proof.
  intros Hf. induction l as [| x l IH]; simpl.
  - apply returns_Ok.
  - destruct (Hf x) as [y ->]. destruct IH as [ys ->]. simpl. apply returns_Ok.
Qed.

#[local] Hint Resolve returns_Ok : core.

(** Inverts a hypothesis [x <- c ;; k = Ok r] into its two halves. *)
Ltac bind_inv H :=
  let a := fresh "a" in
  let Hc := fresh "Hc" in
  apply bind_Ok_inv in H; destruct H as [a [Hc H]].

(** ** Dictionaries and tables *)

Lemma assoc_get_set_other {A : Type} (k k' : string) (v : A) (d : list (string * A)) :
  k <> k' -> assoc_get k (assoc_set k' v d) = assoc_get k d.
Proof.
  intros Hne. induction d as [| [k0 v0] d IH]; simpl.
  - destruct (String.eqb_spec k k'); [contradiction | reflexivity].
  - destruct (String.eqb_spec k' k0) as [-> | Hk0]; simpl.
    + destruct (String.eqb_spec k k0); [contradiction | reflexivity].
    + destruct (String.eqb_spec k k0); [reflexivity | exact IH].
Qed.

Lemma table_get_str tbl key default r :
  table_get tbl key default = Ok r -> exists s, r = VStr s.
Proof.
  destruct key; simpl; intros H; inversion H; eauto.
Qed.


Lemma table_get_unhashable tbl key default :
  hashable key = false -> raises (table_get tbl key default).
Proof.
  destruct key; simpl; intros H; try discriminate H; eexists; reflexivity.
Qed.

(** ** [transform_data]: the reverse mappers *)

Section ReverseMappers.

Import TransformData.

Variable get_oa_symbol : value -> value -> result value.

Lemma map_hdfc_order_response_total record :
  returns (map_hdfc_order_response get_oa_symbol record).
Proof. apply try_except_total. intros e. apply returns_Ok. Qed.

Lemma map_hdfc_trade_response_total record :
  returns (map_hdfc_trade_response get_oa_symbol record).
Proof. apply try_except_total. intros e. apply returns_Ok. Qed.

Lemma map_hdfc_position_total record :
  returns (map_hdfc_position get_oa_symbol record).
Proof. apply try_except_total. intros e. apply returns_Ok. Qed.

Lemma map_hdfc_holding_total record :
  returns (map_hdfc_holding get_oa_symbol record).
Proof. apply try_except_total. intros e. apply returns_Ok. Qed.

(** A record that is not a dictionary has no [get]: the very first step
    raises. *)
Lemma map_hdfc_order_response_body_not_dict record :
  (forall d, record <> VDict d) ->
  raises (map_hdfc_order_response_body get_oa_symbol record).
Proof.
  intros Hnd. destruct record; try (eexists; reflexivity).
  exfalso. eapply Hnd. reflexivity.
Qed.

(** C8: whenever a step of the reverse mapping of an order, a trade, a
    position or a holding raises, the mapper returns the broker record it
    was given, unchanged; and it returns a value in every case. *)
Theorem C8_reverse_mapping_returns_input (record : value) :
  (raises (map_hdfc_order_response_body get_oa_symbol record) ->
   map_hdfc_order_response get_oa_symbol record = Ok record) /\
  (raises (map_hdfc_trade_response_body get_oa_symbol record) ->
   map_hdfc_trade_response get_oa_symbol record = Ok record) /\
  (raises (map_hdfc_position_body get_oa_symbol record) ->
   map_hdfc_position get_oa_symbol record = Ok record) /\
  (raises (map_hdfc_holding_body get_oa_symbol record) ->
   map_hdfc_holding get_oa_symbol record = Ok record) /\
  returns (map_hdfc_order_response get_oa_symbol record) /\
  returns (map_hdfc_trade_response get_oa_symbol record) /\
  returns (map_hdfc_position get_oa_symbol record) /\
  returns (map_hdfc_holding get_oa_symbol record).
Proof.
  split; [| split; [| split; [| split; [| split; [| split; [| split]]]]]].
  - intros [e He]. unfold map_hdfc_order_response.
    rewrite (try_except_raise _ _ e He). reflexivity.
  - intros [e He]. unfold map_hdfc_trade_response.
    rewrite (try_except_raise _ _ e He). reflexivity.
  - intros [e He]. unfold map_hdfc_position.
    rewrite (try_except_raise _ _ e He). reflexivity.
  - intros [e He]. unfold map_hdfc_holding.
    rewrite (try_except_raise _ _ e He). reflexivity.
  - apply map_hdfc_order_response_total.
  - apply map_hdfc_trade_response_total.
  - apply map_hdfc_position_total.
  - apply map_hdfc_holding_total.
Qed.

End ReverseMappers.

Lemma C8_reverse_mapping_witness :
  let record := Fixtures.infy_position in
  TransformData.map_hdfc_order_response Fixtures.resolver_down record = Ok record /\
  TransformData.map_hdfc_trade_response Fixtures.resolver_down record = Ok record /\
  TransformData.map_hdfc_position Fixtures.resolver_down record = Ok record /\
  TransformData.map_hdfc_holding Fixtures.resolver_down record = Ok record.
Proof.
  intros record.
  destruct (C8_reverse_mapping_returns_input Fixtures.resolver_down record)
    as (Horder & Htrade & Hposition & Hholding & _).
  split; [| split; [| split]].
  - apply Horder. eexists. reflexivity.
  - apply Htrade. eexists. reflexivity.
  - apply Hposition. eexists. reflexivity.
  - apply Hholding. eexists. reflexivity.
Defined.

(** The mapper also gives the record back when the resolver works but the
    record itself is unusable: a non-dictionary, or an unhashable entry. *)
Example map_hdfc_order_response_unhashable :
  let record := VDict [("order_id", VStr "7"); ("order_type", VList [])] in
  TransformData.map_hdfc_order_response Fixtures.oa_symbol_of record = Ok record /\
  TransformData.map_hdfc_order_response Fixtures.oa_symbol_of (VStr "busy")
  = Ok (VStr "busy").
Proof. split; reflexivity. Qed.

(** ** [auth_api]: the token calls *)

Section TokenCalls.

Import AuthApi.

Variable environ : string -> option string.
Variable get_httpx_client : result http_client.

Lemma os_getenv_missing key :
  missing environ key -> os_getenv environ key "" = "".
Proof.
  unfold missing, os_getenv. intros [-> | ->]; reflexivity.
Qed.

Lemma get_access_token_total code :
  returns (get_access_token environ get_httpx_client code).
Proof. apply try_except_total. intros e. apply returns_Ok. Qed.

Lemma refresh_access_token_total token :
  returns (refresh_access_token environ get_httpx_client token).
Proof. apply try_except_total. intros e. apply returns_Ok. Qed.

Lemma get_access_token_unconfigured code :
  missing environ "BROKER_API_KEY" \/ missing environ "BROKER_API_SECRET" ->
  get_access_token environ get_httpx_client code = Ok VNone.
Proof.
  intros [Hk | Hs]; unfold get_access_token.
  - rewrite (os_getenv_missing _ Hk). reflexivity.
  - rewrite (os_getenv_missing _ Hs).
    destruct (py_truthy (VStr (os_getenv environ "BROKER_API_KEY" "")));
      reflexivity.
Qed.

Lemma refresh_access_token_unconfigured token :
  missing environ "BROKER_API_KEY" \/ missing environ "BROKER_API_SECRET" ->
  refresh_access_token environ get_httpx_client token = Ok VNone.
Proof.
  intros [Hk | Hs]; unfold refresh_access_token.
  - rewrite (os_getenv_missing _ Hk). reflexivity.
  - rewrite (os_getenv_missing _ Hs).
    destruct (py_truthy (VStr (os_getenv environ "BROKER_API_KEY" "")));
      reflexivity.
Qed.

(** C9: for every environment, client, authorization code and refresh
    token, [get_access_token] and [refresh_access_token] return a value and
    never raise; when the client id or the client secret is missing (unset
    or empty) the value they return is [None]. *)
Theorem C9_token_calls_absent_without_credentials (code token : string) :
  returns (get_access_token environ get_httpx_client code) /\
  returns (refresh_access_token environ get_httpx_client token) /\
  (missing environ "BROKER_API_KEY" \/ missing environ "BROKER_API_SECRET" ->
   get_access_token environ get_httpx_client code = Ok VNone /\
   refresh_access_token environ get_httpx_client token = Ok VNone).
Proof.
  split; [apply get_access_token_total |].
  split; [apply refresh_access_token_total |].
  intros Hmissing. split.
  - apply get_access_token_unconfigured, Hmissing.
  - apply refresh_access_token_unconfigured, Hmissing.
Qed.

(** With both credentials configured the outcome is the parsed body on a
    200 and [None] on every other status, on an unparseable body and on a
    transport failure. *)
Lemma get_access_token_configured code key secret client :
  environ "BROKER_API_KEY" = Some key -> key <> "" ->
  environ "BROKER_API_SECRET" = Some secret -> secret <> "" ->
  get_httpx_client = Ok client ->
  exists req,
    get_access_token environ get_httpx_client code =
    match client req with
    | Ok resp =>
        if status_code resp =? 200
        then match json resp with Ok body => Ok body | Raise _ => Ok VNone end
        else Ok VNone
    | Raise _ => Ok VNone
    end.
Proof.
  intros Hk Hkne Hs Hsne Hc. unfold get_access_token, os_getenv.
  rewrite Hk, Hs, Hc. simpl.
  destruct (String.eqb_spec key ""); [contradiction |].
  destruct (String.eqb_spec secret ""); [contradiction |].
  simpl. unfold post_token.
  match goal with |- context [client ?r] => exists r end.
  destruct (client _) as [resp | e]; simpl; [| reflexivity].
  destruct (status_code resp =? 200); [| reflexivity].
  destruct (json resp); reflexivity.
Qed.

End TokenCalls.

Lemma C9_token_calls_witness :
  AuthApi.get_access_token Fixtures.no_environ (Ok Fixtures.client_down) "code"
  = Ok VNone /\
  AuthApi.refresh_access_token Fixtures.no_environ (Ok Fixtures.client_down) "token"
  = Ok VNone.
Proof.
  apply (C9_token_calls_absent_without_credentials
           Fixtures.no_environ (Ok Fixtures.client_down) "code" "token").
  left. left. reflexivity.
Defined.

(** ** [transform_data]: the forward mapper and the round trips *)

Lemma py_get_dict d key default :
  py_get (VDict d) key default = Ok (field_or d key default).
Proof. reflexivity. Qed.

Lemma py_get_Ok_inv obj key default v :
  py_get obj key default = Ok v ->
  exists d, obj = VDict d /\ v = field_or d key default.
Proof.
  destruct obj; simpl; intros H; try discriminate H.
  inversion H. eexists. split; reflexivity.
Qed.

Section ForwardMapper.

Import TransformData.

Variable int_of_str : string -> option Z.
Variable float_of_str : string -> option spec_float.
Variable get_br_symbol : value -> value -> result value.
Variable get_oa_symbol : value -> value -> result value.

Lemma copy_if_truthy_other order key conv hd hd' :
  copy_if_truthy order key conv hd = Ok hd' ->
  forall k, k <> key -> assoc_get k hd' = assoc_get k hd.
Proof.
  unfold copy_if_truthy. intros H k Hk.
  bind_inv H. destruct (py_truthy a).
  - bind_inv H. bind_inv H. inversion H; subst.
    apply assoc_get_set_other, Hk.
  - inversion H; subst. reflexivity.
Qed.


(** What a successful forward mapping has computed: each enumerated field
    of the result is the table lookup of the order's field. *)
Lemma map_order_to_hdfc_inv order h :
  map_order_to_hdfc int_of_str float_of_str get_br_symbol order = Ok h ->
  exists o hd side order_type product validity,
    order = VDict o /\ h = VDict hd /\
    table_get SIDE_MAP (field_or o "side" (VStr "BUY")) "BUY" = Ok side /\
    table_get ORDER_TYPE_MAP (field_or o "order_type" (VStr "MARKET")) "MKT"
    = Ok order_type /\
    table_get PRODUCT_MAP (field_or o "product" (VStr "MIS")) "MIS" = Ok product /\
    table_get VALIDITY_MAP (field_or o "validity" (VStr "DAY")) "DAY" = Ok validity /\
    assoc_get "side" hd = Some side /\
    assoc_get "order_type" hd = Some order_type /\
    assoc_get "product" hd = Some product /\
    assoc_get "validity" hd = Some validity /\
    assoc_get "exchange" hd = Some (field_or o "exchange" (VStr "")).
Proof.
  unfold map_order_to_hdfc. rewrite try_except_reraise.
  unfold map_order_to_hdfc_body. intros H.
  bind_inv H. apply py_get_Ok_inv in Hc. destruct Hc as [o [-> ->]].
  rewrite !py_get_dict in H. simpl bind in H.
  bind_inv H. rename a into br. clear Hc.
  bind_inv H. rename a into side, Hc into Hside.
  bind_inv H. clear Hc. rename a into quantity.
  bind_inv H. rename a into order_type, Hc into Hot.
  bind_inv H. rename a into product, Hc into Hproduct.
  bind_inv H. rename a into validity, Hc into Hvalidity.
  bind_inv H. rename a into hd1, Hc into H1.
  bind_inv H. rename a into hd2, Hc into H2.
  bind_inv H. rename a into hd3, Hc into H3.
  inversion H; subst h; clear H.
  exists o, hd3, side, order_type, product, validity.
  assert (Hkeep : forall k, k <> "price" -> k <> "stop_price" ->
                            k <> "disclosed_quantity" ->
                            assoc_get k hd3 = assoc_get k
                              [ ("symbol", if py_truthy br then br
                                           else field_or o "symbol" (VStr ""));
                                ("exchange", field_or o "exchange" (VStr ""));
                                ("side", side); ("quantity", quantity);
                                ("order_type", order_type); ("product", product);
                                ("validity", validity) ]).
  { intros k Hp Hs Hd.
    rewrite (copy_if_truthy_other _ _ _ _ _ H3 k Hd).
    rewrite (copy_if_truthy_other _ _ _ _ _ H2 k Hs).
    apply (copy_if_truthy_other _ _ _ _ _ H1 k Hp). }
  repeat split; try assumption;
    rewrite Hkeep by discriminate; reflexivity.
Qed.

(** On a dictionary whose resolver call returns and whose [order_type] and
    [product] entries are hashable, the reverse mapping of an order takes
    the normal path. *)
Lemma map_hdfc_order_response_dict hd order_type product :
  returns (get_oa_symbol (field_or hd "symbol" (VStr ""))
                         (field_or hd "exchange" (VStr ""))) ->
  table_get ORDER_TYPE_REVERSE_MAP (field_or hd "order_type" (VStr "MKT")) "MARKET"
  = Ok order_type ->
  table_get PRODUCT_REVERSE_MAP (field_or hd "product" (VStr "MIS")) "MIS"
  = Ok product ->
  exists r,
    map_hdfc_order_response get_oa_symbol (VDict hd) = Ok (VDict r) /\
    assoc_get "order_type" r = Some order_type /\
    assoc_get "product" r = Some product /\
    assoc_get "order_status" r = Some (field_or hd "status" (VStr "")) /\
    assoc_get "status" r = None.
Proof.
  intros [oa Hoa] Hot Hproduct.
  unfold map_hdfc_order_response, map_hdfc_order_response_body, resolve_oa_symbol.
  rewrite !py_get_dict. simpl bind. rewrite Hoa. simpl bind.
  rewrite Hot. simpl bind. rewrite Hproduct. simpl.
  eexists. split; [reflexivity |]. repeat split; reflexivity.
Qed.

Lemma order_type_tables_inverse t :
  In t ["MARKET"; "LIMIT"; "STOP_LOSS"; "STOP_LOSS_LIMIT"] ->
  exists b,
    table_get ORDER_TYPE_MAP (VStr t) "MKT" = Ok (VStr b) /\
    In b ["MKT"; "LMT"; "SL"; "SLL"] /\
    table_get ORDER_TYPE_REVERSE_MAP (VStr b) "MARKET" = Ok (VStr t).
Proof.
  simpl. intros [<- | [<- | [<- | [<- | []]]]]; eexists;
    (split; [reflexivity | split; [| reflexivity]]); simpl; tauto.
Qed.

Lemma order_type_tables_inverse_broker b :
  In b ["MKT"; "LMT"; "SL"; "SLL"] ->
  exists t,
    table_get ORDER_TYPE_REVERSE_MAP (VStr b) "MARKET" = Ok (VStr t) /\
    In t ["MARKET"; "LIMIT"; "STOP_LOSS"; "STOP_LOSS_LIMIT"] /\
    table_get ORDER_TYPE_MAP (VStr t) "MKT" = Ok (VStr b).
Proof.
  simpl. intros [<- | [<- | [<- | [<- | []]]]]; eexists;
    (split; [reflexivity | split; [| reflexivity]]); simpl; tauto.
Qed.

End ForwardMapper.

Section RoundTrips.

Import TransformData.

Variable int_of_str : string -> option Z.
Variable float_of_str : string -> option spec_float.
Variable get_br_symbol : value -> value -> result value.
Variable get_oa_symbol : value -> value -> result value.

(** When the resolver raises on the symbol and exchange of a dictionary,
    the order mapper hands the dictionary back. *)
Lemma map_hdfc_order_response_resolver_raises hd :
  raises (get_oa_symbol (field_or hd "symbol" (VStr ""))
                        (field_or hd "exchange" (VStr ""))) ->
  map_hdfc_order_response get_oa_symbol (VDict hd) = Ok (VDict hd).
Proof.
  intros [e He].
  unfold map_hdfc_order_response, map_hdfc_order_response_body, resolve_oa_symbol.
  rewrite !py_get_dict. cbn [bind]. rewrite He. reflexivity.
Qed.

(** C5 (as amended): for every order whose order_type is MARKET, LIMIT,
    STOP_LOSS or STOP_LOSS_LIMIT and which [map_order_to_hdfc] accepts, the
    broker form carries one of the codes MKT, LMT, SL, SLL, which differs
    from the platform name.  Mapping the broker form back with
    [map_hdfc_order_response] yields a record whose order_type is the
    original one whenever the resolver answers the lookup of the broker
    form's symbol and exchange; when that lookup raises, the broker form
    itself comes back, with the code in place of the name. *)
Theorem C5_order_type_round_trip (order h : value) (t : string) :
  In t ["MARKET"; "LIMIT"; "STOP_LOSS"; "STOP_LOSS_LIMIT"] ->
  py_get order "order_type" VNone = Ok (VStr t) ->
  map_order_to_hdfc int_of_str float_of_str get_br_symbol order = Ok h ->
  exists b symbol exchange,
    py_get h "order_type" VNone = Ok (VStr b) /\
    In b ["MKT"; "LMT"; "SL"; "SLL"] /\
    b <> t /\
    py_get h "symbol" (VStr "") = Ok symbol /\
    py_get h "exchange" (VStr "") = Ok exchange /\
    (returns (get_oa_symbol symbol exchange) ->
     exists r,
       map_hdfc_order_response get_oa_symbol h = Ok r /\
       py_get r "order_type" VNone = Ok (VStr t)) /\
    (raises (get_oa_symbol symbol exchange) ->
     map_hdfc_order_response get_oa_symbol h = Ok h).
Proof.
  intros Ht Hfield Hfwd.
  destruct (map_order_to_hdfc_inv _ _ _ _ _ Hfwd)
    as (o & hd & side & order_type & product & validity & -> & -> & _
        & Hot & Hproduct & _ & _ & Hhot & Hhproduct & _ & _).
  rewrite py_get_dict in Hfield. unfold field_or in Hfield, Hot.
  destruct (assoc_get "order_type" o) as [v |]; [| discriminate Hfield].
  inversion Hfield; subst v; clear Hfield.
  destruct (order_type_tables_inverse t Ht) as (b & Hb & Hbin & Hrev).
  rewrite Hb in Hot. inversion Hot; subst order_type; clear Hot.
  destruct (table_get_str _ _ _ _ Hproduct) as [p ->].
  exists b, (field_or hd "symbol" (VStr "")), (field_or hd "exchange" (VStr "")).
  rewrite !py_get_dict.
  split; [unfold field_or; rewrite Hhot; reflexivity |].
  split; [exact Hbin |].
  split.
  { simpl in Ht, Hbin. intros Heq. subst b.
    destruct Ht as [<- | [<- | [<- | [<- | []]]]];
      repeat (destruct Hbin as [Hbin | Hbin]; [discriminate Hbin |]);
      exact Hbin. }
  split; [reflexivity |]. split; [reflexivity |].
  split.
  - intros Hreturns.
    destruct (map_hdfc_order_response_dict get_oa_symbol hd (VStr t)
                (VStr (match assoc_get p PRODUCT_REVERSE_MAP with
                       | Some x => x | None => "MIS" end)))
      as (r & Hr & Hrot & _).
    + exact Hreturns.
    + unfold field_or. rewrite Hhot. exact Hrev.
    + unfold field_or. rewrite Hhproduct. reflexivity.
    + exists (VDict r). split; [exact Hr |].
      rewrite py_get_dict. unfold field_or. rewrite Hrot. reflexivity.
  - apply map_hdfc_order_response_resolver_raises.
Qed.

(** C6: for an order whose product is MIS, CNC or NRML the forward mapping
    followed by the reverse mapping gives the same product back; for the
    aliases INTRADAY, DELIVERY and MARGIN the forward mapping gives MIS, CNC
    and NRML respectively, and the reverse mapping keeps that broker code,
    which is not the alias.  The order is one that the forward mapper
    accepts; the resolver may answer the reverse lookup or raise. *)
Theorem C6_product_round_trip (order h : value) (p : string) :
  py_get order "product" VNone = Ok (VStr p) ->
  map_order_to_hdfc int_of_str float_of_str get_br_symbol order = Ok h ->
  exists r,
    map_hdfc_order_response get_oa_symbol h = Ok r /\
    (In p ["MIS"; "CNC"; "NRML"] ->
     py_get h "product" VNone = Ok (VStr p) /\
     py_get r "product" VNone = Ok (VStr p)) /\
    (forall b,
       In (p, b) [("INTRADAY", "MIS"); ("DELIVERY", "CNC"); ("MARGIN", "NRML")] ->
       py_get h "product" VNone = Ok (VStr b) /\
       py_get r "product" VNone = Ok (VStr b) /\
       b <> p).
Proof.
  intros Hfield Hfwd.
  destruct (map_order_to_hdfc_inv _ _ _ _ _ Hfwd)
    as (o & hd & side & order_type & product & validity & -> & -> & _
        & Hot & Hproduct & _ & _ & Hhot & Hhproduct & _ & _).
  rewrite py_get_dict in Hfield. unfold field_or in Hfield, Hproduct.
  destruct (assoc_get "product" o) as [v |]; [| discriminate Hfield].
  inversion Hfield; subst v; clear Hfield.
  simpl in Hproduct. inversion Hproduct; subst product; clear Hproduct.
  destruct (table_get_str _ _ _ _ Hot) as [b0 ->].
  assert (Hcases :
            exists r,
              map_hdfc_order_response get_oa_symbol (VDict hd) = Ok (VDict r) /\
              assoc_get "product" r
              = Some (VStr (match assoc_get
                                    (match assoc_get p PRODUCT_MAP with
                                     | Some x => x | None => "MIS" end)
                                    PRODUCT_REVERSE_MAP with
                            | Some x => x | None => "MIS" end))).
  { destruct (get_oa_symbol (field_or hd "symbol" (VStr ""))
                            (field_or hd "exchange" (VStr "")))
      as [oa | e] eqn:Hoa.
    - destruct (map_hdfc_order_response_dict get_oa_symbol hd
                  (VStr (match assoc_get b0 ORDER_TYPE_REVERSE_MAP with
                         | Some x => x | None => "MARKET" end))
                  (VStr (match assoc_get
                                 (match assoc_get p PRODUCT_MAP with
                                  | Some x => x | None => "MIS" end)
                                 PRODUCT_REVERSE_MAP with
                         | Some x => x | None => "MIS" end)))
        as (r & Hr & _ & Hrproduct & _).
      + rewrite Hoa. apply returns_Ok.
      + unfold field_or. rewrite Hhot. reflexivity.
      + unfold field_or. rewrite Hhproduct. reflexivity.
      + exists r. split; [exact Hr | exact Hrproduct].
    - exists hd. split.
      + apply map_hdfc_order_response_resolver_raises.
        rewrite Hoa. eexists. reflexivity.
      + rewrite Hhproduct.
        cbn [assoc_get PRODUCT_MAP].
        repeat (destruct (String.eqb p _); [reflexivity |]).
        reflexivity. }
  destruct Hcases as (r & Hr & Hrproduct).
  exists (VDict r). split; [exact Hr |].
  rewrite !py_get_dict. unfold field_or. rewrite Hhproduct, Hrproduct.
  split.
  - simpl. intros [<- | [<- | [<- | []]]]; split; reflexivity.
  - intros b. simpl.
    intros [Heq | [Heq | [Heq | []]]]; inversion Heq; subst;
      (split; [reflexivity | split; [reflexivity | discriminate]]).
Qed.

End RoundTrips.

Lemma C5_order_type_round_trip_witness :
  exists h r,
    TransformData.map_order_to_hdfc Fixtures.int_of_str0 Fixtures.float_of_str0
      Fixtures.br_symbol_of Fixtures.infy_order = Ok h /\
    TransformData.map_hdfc_order_response Fixtures.oa_symbol_of h = Ok r /\
    py_get r "order_type" VNone = Ok (VStr "LIMIT").
Proof.
  eexists.
  destruct (C5_order_type_round_trip
              Fixtures.int_of_str0 Fixtures.float_of_str0
              Fixtures.br_symbol_of Fixtures.oa_symbol_of
              Fixtures.infy_order _ "LIMIT"
              ltac:(simpl; tauto) eq_refl eq_refl)
    as (b & symbol & exchange & _ & _ & _ & _ & _ & Hreturns & _).
  destruct Hreturns as (r & Hr & Hot).
  - unfold Fixtures.oa_symbol_of. destruct (_ && _); apply returns_Ok.
  - exists r. split; [reflexivity | split; [exact Hr | exact Hot]].
Defined.

(** With a resolver that raises, the round trip of a LIMIT order ends with
    the broker's code LMT in place of LIMIT. *)
Lemma C5_resolver_failure_counterexample :
  py_get Fixtures.infy_order "order_type" VNone = Ok (VStr "LIMIT") /\
  (h <- TransformData.map_order_to_hdfc Fixtures.int_of_str0 Fixtures.float_of_str0
          Fixtures.br_symbol_of Fixtures.infy_order ;;
   r <- TransformData.map_hdfc_order_response Fixtures.resolver_down h ;;
   py_get r "order_type" VNone)
  = Ok (VStr "LMT").
Proof. split; reflexivity. Qed.

Lemma C6_product_round_trip_witness :
  exists h r,
    TransformData.map_order_to_hdfc Fixtures.int_of_str0 Fixtures.float_of_str0
      Fixtures.br_symbol_of Fixtures.infy_order = Ok h /\
    TransformData.map_hdfc_order_response Fixtures.oa_symbol_of h = Ok r /\
    py_get h "product" VNone = Ok (VStr "MIS") /\
    py_get r "product" VNone = Ok (VStr "MIS").
Proof.
  eexists.
  destruct (C6_product_round_trip
              Fixtures.int_of_str0 Fixtures.float_of_str0
              Fixtures.br_symbol_of Fixtures.oa_symbol_of
              Fixtures.infy_order _ "INTRADAY" eq_refl eq_refl)
    as (r & Hr & _ & Halias).
  destruct (Halias "MIS" ltac:(simpl; tauto)) as (Hh & Hrp & _).
  exists r. split; [reflexivity | split; [exact Hr | split; [exact Hh | exact Hrp]]].
Defined.

(** ** [transform_data]: defaults of the forward mapper *)

Section ForwardDefaults.

Import TransformData.

Variable int_of_str : string -> option Z.
Variable float_of_str : string -> option spec_float.
Variable get_br_symbol : value -> value -> result value.






End ForwardDefaults.



(** ** [order_api] *)

Lemma has_status_error_envelope key : has_status (OrderApi.error_envelope key).
Proof.
  exists [("status", VStr "error"); (key, VList [])], "error".
  split; [reflexivity | split; [reflexivity | right; reflexivity]].
Qed.

Lemma has_status_success_envelope key items :
  has_status (OrderApi.success_envelope key items).
Proof.
  exists [("status", VStr "success"); (key, VList items)], "success".
  split; [reflexivity | split; [reflexivity | left; reflexivity]].
Qed.

Lemma has_status_error_with_message e : has_status (OrderApi.error_with_message e).
Proof.
  eexists _, "error".
  split; [reflexivity | split; [reflexivity | right; reflexivity]].
Qed.

Lemma not_has_status_empty : ~ has_status (VDict []).
Proof.
  intros (d & s & Hd & Hs & _). inversion Hd; subst d. discriminate Hs.
Qed.

Lemma supported_GET : supported "GET".
Proof. unfold supported. simpl. tauto. Qed.

Lemma supported_POST : supported "POST".
Proof. unfold supported. simpl. tauto. Qed.

Lemma supported_PUT : supported "PUT".
Proof. unfold supported. simpl. tauto. Qed.

Lemma supported_DELETE : supported "DELETE".
Proof. unfold supported. simpl. tauto. Qed.

Section OrderGateway.

Import TransformData OrderApi.

Variable int_of_str : string -> option Z.
Variable float_of_str : string -> option spec_float.
Variable get_br_symbol : value -> value -> result value.
Variable get_oa_symbol : value -> value -> result value.
Variable json_dumps : value -> result string.
Variable get_httpx_client : result http_client.

#[local] Abbreviation get_api_response := (OrderApi.get_api_response get_httpx_client).
#[local] Abbreviation list_resource := (OrderApi.list_resource get_httpx_client).
#[local] Abbreviation place_order :=
  (OrderApi.place_order int_of_str float_of_str get_br_symbol get_oa_symbol
     json_dumps get_httpx_client).
#[local] Abbreviation modify_order :=
  (OrderApi.modify_order int_of_str float_of_str get_br_symbol get_oa_symbol
     json_dumps get_httpx_client).
#[local] Abbreviation cancel_order := (OrderApi.cancel_order get_httpx_client).
#[local] Abbreviation get_order := (OrderApi.get_order get_oa_symbol get_httpx_client).
#[local] Abbreviation get_order_book := (OrderApi.get_order_book get_oa_symbol get_httpx_client).
#[local] Abbreviation get_trade_book := (OrderApi.get_trade_book get_oa_symbol get_httpx_client).
#[local] Abbreviation get_positions := (OrderApi.get_positions get_oa_symbol get_httpx_client).
#[local] Abbreviation get_holdings := (OrderApi.get_holdings get_oa_symbol get_httpx_client).
#[local] Abbreviation get_open_position :=
  (OrderApi.get_open_position get_br_symbol get_oa_symbol get_httpx_client).

(** *** Every listing carries a status *)

Lemma list_resource_envelope endpoint key transform auth :
  list_resource endpoint key transform auth = Ok (error_envelope key) \/
  exists items, list_resource endpoint key transform auth
                = Ok (success_envelope key items).
Proof.
  unfold OrderApi.list_resource.
  destruct (get_api_response endpoint auth "GET" "") as [resp | err]; simpl;
    [| left; reflexivity].
  destruct (py_get resp "status" VNone) as [status | err]; simpl;
    [| left; reflexivity].
  destruct (py_eq status (VStr "error")); [left; reflexivity |].
  destruct (py_get resp key (VList [])) as [items | err]; simpl;
    [| left; reflexivity].
  destruct (py_iter items) as [elements | err]; simpl; [| left; reflexivity].
  destruct (mapM transform elements) as [transformed | err]; simpl;
    [right; eexists; reflexivity | left; reflexivity].
Qed.

Lemma list_resource_has_status endpoint key transform auth :
  exists v, list_resource endpoint key transform auth = Ok v /\ has_status v.
Proof.
  destruct (list_resource_envelope endpoint key transform auth)
    as [-> | [items ->]]; eexists; (split; [reflexivity |]).
  - apply has_status_error_envelope.
  - apply has_status_success_envelope.
Qed.

(** *** When the client raises *)

Section TransportFailure.

Variable client : http_client.
Variable e : exn.
Hypothesis client_obtained : get_httpx_client = Ok client.
Hypothesis client_fails : transport_fails client e.

Lemma get_api_response_transport_failure endpoint auth method payload :
  supported method ->
  get_api_response endpoint auth method payload = Ok (error_with_message e).
Proof.
  unfold supported, OrderApi.get_api_response, send. rewrite client_obtained.
  simpl. intros [<- | [<- | [<- | [<- | []]]]]; simpl;
    rewrite client_fails; reflexivity.
Qed.

Lemma get_api_response_unsupported endpoint auth method payload :
  ~ supported method ->
  get_api_response endpoint auth method payload
  = Ok (error_with_message (ValueError ("Unsupported method: " ++ method))).
Proof.
  unfold OrderApi.get_api_response. rewrite client_obtained.
  simpl. intros Hns.
  destruct (String.eqb_spec method "GET") as [-> | _];
    [exfalso; apply Hns, supported_GET |].
  destruct (String.eqb_spec method "POST") as [-> | _];
    [exfalso; apply Hns, supported_POST |].
  destruct (String.eqb_spec method "PUT") as [-> | _];
    [exfalso; apply Hns, supported_PUT |].
  destruct (String.eqb_spec method "DELETE") as [-> | _];
    [exfalso; apply Hns, supported_DELETE |].
  reflexivity.
Qed.

Lemma cancel_order_transport_failure order_id auth :
  cancel_order order_id auth = Ok (error_with_message e).
Proof.
  unfold OrderApi.cancel_order.
  rewrite (get_api_response_transport_failure _ _ "DELETE")
    by apply supported_DELETE.
  reflexivity.
Qed.

Lemma list_resource_transport_failure endpoint key transform auth :
  list_resource endpoint key transform auth = Ok (error_envelope key).
Proof.
  unfold OrderApi.list_resource.
  rewrite (get_api_response_transport_failure _ _ "GET")
    by apply supported_GET.
  reflexivity.
Qed.

End TransportFailure.

(** *** When the shared client cannot be obtained, or the order cannot be
    prepared *)

Lemma get_api_response_without_client err endpoint auth method payload :
  get_httpx_client = Raise err ->
  get_api_response endpoint auth method payload = Raise err.
Proof. unfold OrderApi.get_api_response. intros ->. reflexivity. Qed.

Lemma place_order_unmappable order auth err :
  map_order_to_hdfc int_of_str float_of_str get_br_symbol order = Raise err ->
  place_order order auth = Ok (error_with_message err).
Proof. unfold OrderApi.place_order. intros ->. reflexivity. Qed.

Lemma modify_order_unmappable order_id order auth err :
  map_order_to_hdfc int_of_str float_of_str get_br_symbol order = Raise err ->
  modify_order order_id order auth = Ok (error_with_message err).
Proof. unfold OrderApi.modify_order. intros ->. reflexivity. Qed.

Lemma order_calls_without_client err order_id order auth :
  get_httpx_client = Raise err ->
  cancel_order order_id auth = Ok (error_with_message err) /\
  get_order order_id auth = Ok (error_with_message err) /\
  (exists err', place_order order auth = Ok (error_with_message err')) /\
  (exists err', modify_order order_id order auth = Ok (error_with_message err')).
Proof.
  intros Hc.
  unfold OrderApi.cancel_order, OrderApi.get_order, OrderApi.place_order,
    OrderApi.modify_order.
  rewrite !(get_api_response_without_client err) by exact Hc.
  split; [reflexivity | split; [reflexivity |]].
  split.
  - destruct (map_order_to_hdfc _ _ _ order); simpl; [| eexists; reflexivity].
    destruct (json_dumps _); simpl.
    + rewrite (get_api_response_without_client err) by exact Hc.
      eexists; reflexivity.
    + eexists; reflexivity.
  - destruct (map_order_to_hdfc _ _ _ order); simpl; [| eexists; reflexivity].
    destruct (json_dumps _); simpl.
    + rewrite (get_api_response_without_client err) by exact Hc.
      eexists; reflexivity.
    + eexists; reflexivity.
Qed.

(** None of the exposed calls lets an exception out. *)
Lemma order_gateway_total order_id order auth tradingsymbol exchange producttype :
  returns (place_order order auth) /\
  returns (modify_order order_id order auth) /\
  returns (cancel_order order_id auth) /\
  returns (get_order order_id auth) /\
  returns (get_order_book auth) /\
  returns (get_trade_book auth) /\
  returns (get_positions auth) /\
  returns (get_holdings auth) /\
  returns (get_open_position tradingsymbol exchange producttype auth).
Proof.
  repeat split; apply try_except_total; intros err; apply returns_Ok.
Qed.

End OrderGateway.

Section OrderGatewayResponses.

Import TransformData OrderApi.

Variable int_of_str : string -> option Z.
Variable float_of_str : string -> option spec_float.
Variable get_br_symbol : value -> value -> result value.
Variable get_oa_symbol : value -> value -> result value.
Variable json_dumps : value -> result string.
Variable get_httpx_client : result http_client.

#[local] Abbreviation get_api_response := (OrderApi.get_api_response get_httpx_client).
#[local] Abbreviation list_resource := (OrderApi.list_resource get_httpx_client).
#[local] Abbreviation place_order :=
  (OrderApi.place_order int_of_str float_of_str get_br_symbol get_oa_symbol
     json_dumps get_httpx_client).
#[local] Abbreviation modify_order :=
  (OrderApi.modify_order int_of_str float_of_str get_br_symbol get_oa_symbol
     json_dumps get_httpx_client).
#[local] Abbreviation cancel_order := (OrderApi.cancel_order get_httpx_client).
#[local] Abbreviation get_order := (OrderApi.get_order get_oa_symbol get_httpx_client).
#[local] Abbreviation get_order_book :=
  (OrderApi.get_order_book get_oa_symbol get_httpx_client).
#[local] Abbreviation get_trade_book :=
  (OrderApi.get_trade_book get_oa_symbol get_httpx_client).
#[local] Abbreviation get_positions :=
  (OrderApi.get_positions get_oa_symbol get_httpx_client).
#[local] Abbreviation get_holdings :=
  (OrderApi.get_holdings get_oa_symbol get_httpx_client).
#[local] Abbreviation get_open_position :=
  (OrderApi.get_open_position get_br_symbol get_oa_symbol get_httpx_client).

(** *** A 200 or 201 with an empty body *)

Lemma get_api_response_empty_success client endpoint auth method payload :
  get_httpx_client = Ok client ->
  answers_empty_success client ->
  supported method ->
  get_api_response endpoint auth method payload = Ok status_success.
Proof.
  intros Hc Hanswers Hmethod.
  unfold OrderApi.get_api_response, send. rewrite Hc. simpl.
  assert (Hany : forall req,
             try_except
               (response <- client req ;;
                if (status_code response =? 200) || (status_code response =? 201)
                then if py_truthy (VStr (text response)) then json response
                     else Ok status_success
                else error_response <-
                       (if py_truthy (VStr (text response)) then json response
                        else Ok (VDict [])) ;;
                     Ok error_response)
               (fun e => Ok (error_with_message e)) = Ok status_success).
  { intros req. destruct (Hanswers req) as (resp & -> & Hcode & Htext).
    simpl. rewrite Htext. destruct Hcode as [-> | ->]; reflexivity. }
  unfold supported in Hmethod. simpl in Hmethod.
  destruct Hmethod as [<- | [<- | [<- | [<- | []]]]]; simpl; apply Hany.
Qed.

Lemma try_except_map_hdfc_order_response response handler :
  try_except (map_hdfc_order_response get_oa_symbol response) handler
  = map_hdfc_order_response get_oa_symbol response.
Proof.
  destruct (map_hdfc_order_response_total get_oa_symbol response) as [v ->].
  reflexivity.
Qed.

Lemma list_resource_empty_success client endpoint key transform auth :
  get_httpx_client = Ok client ->
  answers_empty_success client ->
  key <> "status" ->
  list_resource endpoint key transform auth = Ok (success_envelope key []).
Proof.
  intros Hc Hanswers Hkey. unfold OrderApi.list_resource.
  rewrite (get_api_response_empty_success client endpoint auth "GET" "" Hc Hanswers)
    by apply supported_GET.
  simpl. destruct (String.eqb_spec key "status"); [contradiction |].
  reflexivity.
Qed.

(** C4 (as amended): when the broker answers 200 or 201 with an empty body,
    [get_api_response] yields [{status: success}] and [cancel_order] hands
    that record to the caller; [get_order], [place_order] and [modify_order]
    hand over what [map_hdfc_order_response] makes of it (a platform order
    whose order_status is success and which has no status entry, or the
    record itself when the symbol resolver fails); the four listings return
    [{status: success}] with an empty list under their key;
    [get_open_position] returns the empty record; and none of them raises. *)
Theorem C4_empty_success_body (client : http_client) :
  get_httpx_client = Ok client ->
  answers_empty_success client ->
  (forall endpoint auth method payload,
     supported method ->
     get_api_response endpoint auth method payload = Ok status_success) /\
  (forall order_id auth, cancel_order order_id auth = Ok status_success) /\
  (forall order_id auth,
     get_order order_id auth = map_hdfc_order_response get_oa_symbol status_success) /\
  (forall order auth h payload,
     map_order_to_hdfc int_of_str float_of_str get_br_symbol order = Ok h ->
     json_dumps h = Ok payload ->
     place_order order auth = map_hdfc_order_response get_oa_symbol status_success) /\
  (forall order_id order auth h payload,
     map_order_to_hdfc int_of_str float_of_str get_br_symbol order = Ok h ->
     json_dumps h = Ok payload ->
     modify_order order_id order auth
     = map_hdfc_order_response get_oa_symbol status_success) /\
  (returns (get_oa_symbol (VStr "") (VStr "")) ->
   exists r,
     map_hdfc_order_response get_oa_symbol status_success = Ok (VDict r) /\
     assoc_get "order_status" r = Some (VStr "success") /\
     assoc_get "status" r = None) /\
  (raises (get_oa_symbol (VStr "") (VStr "")) ->
   map_hdfc_order_response get_oa_symbol status_success = Ok status_success) /\
  (forall auth,
     get_order_book auth = Ok (success_envelope "orders" []) /\
     get_trade_book auth = Ok (success_envelope "trades" []) /\
     get_positions auth = Ok (success_envelope "positions" []) /\
     get_holdings auth = Ok (success_envelope "holdings" [])) /\
  (forall tradingsymbol exchange producttype auth,
     get_open_position tradingsymbol exchange producttype auth = Ok (VDict [])) /\
  (forall order_id order auth,
     returns (place_order order auth) /\
     returns (modify_order order_id order auth) /\
     returns (get_order order_id auth)).
Proof.
  intros Hc Hanswers.
  assert (Hresp : forall endpoint auth method payload,
             supported method ->
             get_api_response endpoint auth method payload = Ok status_success).
  { intros. apply (get_api_response_empty_success client); assumption. }
  assert (Hlist : forall endpoint key transform auth,
             key <> "status" ->
             list_resource endpoint key transform auth
             = Ok (success_envelope key [])).
  { intros. apply (list_resource_empty_success client); assumption. }
  split; [exact Hresp |].
  split.
  { intros order_id auth. unfold OrderApi.cancel_order.
    rewrite Hresp by apply supported_DELETE. reflexivity. }
  split.
  { intros order_id auth. unfold OrderApi.get_order.
    rewrite Hresp by apply supported_GET. simpl bind.
    apply try_except_map_hdfc_order_response. }
  split.
  { intros order auth h payload Hh Hp. unfold OrderApi.place_order.
    rewrite Hh. simpl bind. rewrite Hp. simpl bind.
    rewrite Hresp by apply supported_POST. simpl bind.
    apply try_except_map_hdfc_order_response. }
  split.
  { intros order_id order auth h payload Hh Hp. unfold OrderApi.modify_order.
    rewrite Hh. simpl bind. rewrite Hp. simpl bind.
    rewrite Hresp by apply supported_PUT. simpl bind.
    apply try_except_map_hdfc_order_response. }
  split.
  { intros Hresolver.
    destruct (map_hdfc_order_response_dict get_oa_symbol
                [("status", VStr "success")] (VStr "MARKET") (VStr "MIS")
                Hresolver eq_refl eq_refl)
      as (r & Hr & _ & _ & Hstatus & Hnone).
    exists r. split; [exact Hr | split; [exact Hstatus | exact Hnone]]. }
  split.
  { intros [err Herr].
    unfold map_hdfc_order_response, map_hdfc_order_response_body,
      resolve_oa_symbol, status_success.
    simpl. rewrite Herr. reflexivity. }
  split.
  { intros auth.
    unfold OrderApi.get_order_book, OrderApi.get_trade_book,
      OrderApi.get_positions, OrderApi.get_holdings.
    rewrite !Hlist by discriminate. repeat split. }
  split.
  { intros tradingsymbol exchange producttype auth.
    unfold OrderApi.get_open_position, OrderApi.get_positions.
    rewrite Hlist by discriminate. simpl.
    destruct (get_br_symbol _ _); reflexivity. }
  intros order_id order auth.
  destruct (order_gateway_total int_of_str float_of_str get_br_symbol
              get_oa_symbol json_dumps get_httpx_client order_id order auth
              "" "" "")
    as (Hplace & Hmodify & _ & Hget & _).
  split; [exact Hplace | split; [exact Hmodify | exact Hget]].
Qed.

(** *** [get_open_position] *)

(** A position that went through [map_hdfc_position] on the normal path has
    the platform symbol under ["symbol"] and no ["tradingsymbol"] entry. *)
Lemma mapped_position_no_tradingsymbol hdfc_pos position :
  map_hdfc_position_body get_oa_symbol hdfc_pos = Ok position ->
  py_get position "tradingsymbol" VNone = Ok VNone.
Proof.
  unfold map_hdfc_position_body. intros H.
  do 9 bind_inv H. inversion H. reflexivity.
Qed.

Lemma scan_positions_mapped br_symbol exchange positions :
  br_symbol <> VNone ->
  Forall (fun position =>
            exists hdfc_pos,
              map_hdfc_position_body get_oa_symbol hdfc_pos = Ok position)
         positions ->
  scan_positions br_symbol exchange positions = Ok (VDict []).
Proof.
  intros Hbr Hall. induction Hall as [| position rest [hdfc_pos Hp] _ IH]; simpl.
  - reflexivity.
  - rewrite (mapped_position_no_tradingsymbol _ _ Hp). simpl.
    destruct br_symbol; try exact IH. contradiction.
Qed.

(** Whenever the resolver knows the queried symbol and the positions were
    mapped on the normal path, the scan finds nothing, whatever the account
    holds. *)
Lemma get_open_position_finds_nothing
  tradingsymbol exchange producttype auth positions br_symbol :
  get_positions auth = Ok (success_envelope "positions" positions) ->
  Forall (fun position =>
            exists hdfc_pos,
              map_hdfc_position_body get_oa_symbol hdfc_pos = Ok position)
         positions ->
  get_br_symbol (VStr tradingsymbol) (VStr exchange) = Ok br_symbol ->
  br_symbol <> VNone ->
  get_open_position tradingsymbol exchange producttype auth = Ok (VDict []).
Proof.
  intros Hpositions Hall Hbr Hne. unfold OrderApi.get_open_position.
  rewrite Hpositions. simpl. rewrite Hbr. simpl.
  rewrite (scan_positions_mapped _ _ _ Hne Hall). reflexivity.
Qed.

Lemma scan_positions_outcome br_symbol exchange positions v :
  scan_positions br_symbol exchange positions = Ok v ->
  v = VDict [] \/ In v positions.
Proof.
  induction positions as [| position rest IH]; simpl.
  - intros H. inversion H. left. reflexivity.
  - destruct (py_get position "tradingsymbol" VNone) as [symbol_here | e];
      simpl; [| discriminate].
    destruct (py_eq symbol_here br_symbol).
    + destruct (py_get position "exchange" VNone) as [exchange_here | e];
        simpl; [| discriminate].
      destruct (py_eq exchange_here (VStr exchange)).
      * intros H. inversion H. right. left. reflexivity.
      * intros H. destruct (IH H) as [-> | Hin]; [left | right; right]; auto.
    + intros H. destruct (IH H) as [-> | Hin]; [left | right; right]; auto.
Qed.

(** [get_open_position] returns the empty record or one of the records in
    the list that [get_positions] returned; it never builds a status
    envelope. *)
Lemma get_open_position_outcome tradingsymbol exchange producttype auth :
  get_open_position tradingsymbol exchange producttype auth = Ok (VDict []) \/
  exists positions position,
    get_positions auth = Ok (success_envelope "positions" positions) /\
    In position positions /\
    get_open_position tradingsymbol exchange producttype auth = Ok position.
Proof.
  unfold OrderApi.get_open_position, OrderApi.get_positions.
  destruct (list_resource_envelope get_httpx_client "/positions" "positions"
              (map_hdfc_position get_oa_symbol) auth) as [-> | [items ->]]; simpl.
  - left. destruct (get_br_symbol _ _); reflexivity.
  - destruct (get_br_symbol _ _) as [br_symbol | e]; simpl; [| left; reflexivity].
    destruct (scan_positions br_symbol exchange items) as [v | e] eqn:Hscan;
      simpl; [| left; reflexivity].
    destruct (scan_positions_outcome _ _ _ _ Hscan) as [-> | Hin].
    + left. reflexivity.
    + right. exists items, v. repeat split; assumption.
Qed.

Lemma get_api_response_empty_failure client endpoint auth method payload :
  get_httpx_client = Ok client ->
  answers_empty_failure client ->
  supported method ->
  get_api_response endpoint auth method payload = Ok (VDict []).
Proof.
  intros Hc Hanswers Hmethod.
  unfold OrderApi.get_api_response, send. rewrite Hc. simpl.
  assert (Hany : forall req,
             try_except
               (response <- client req ;;
                if (status_code response =? 200) || (status_code response =? 201)
                then if py_truthy (VStr (text response)) then json response
                     else Ok status_success
                else error_response <-
                       (if py_truthy (VStr (text response)) then json response
                        else Ok (VDict [])) ;;
                     Ok error_response)
               (fun e => Ok (error_with_message e)) = Ok (VDict [])).
  { intros req. destruct (Hanswers req) as (resp & -> & H200 & H201 & Htext).
    simpl. rewrite Htext.
    destruct (Z.eqb_spec (status_code resp) 200); [contradiction |].
    destruct (Z.eqb_spec (status_code resp) 201); [contradiction |].
    reflexivity. }
  unfold supported in Hmethod. simpl in Hmethod.
  destruct Hmethod as [<- | [<- | [<- | [<- | []]]]]; simpl; apply Hany.
Qed.

Lemma cancel_order_empty_failure client order_id auth :
  get_httpx_client = Ok client ->
  answers_empty_failure client ->
  cancel_order order_id auth = Ok (VDict []).
Proof.
  intros Hc Hanswers. unfold OrderApi.cancel_order.
  rewrite (get_api_response_empty_failure client _ _ "DELETE" "" Hc Hanswers)
    by apply supported_DELETE.
  reflexivity.
Qed.

(** C10: two calls of [get_open_position] that differ only in the
    producttype argument return the same result. *)
Theorem C10_producttype_ignored
  (tradingsymbol exchange producttype producttype' auth : string) :
  get_open_position tradingsymbol exchange producttype auth
  = get_open_position tradingsymbol exchange producttype' auth.
Proof.
  unfold OrderApi.get_open_position. reflexivity.
Qed.

End OrderGatewayResponses.

Lemma oa_symbol_of_returns s e : returns (Fixtures.oa_symbol_of s e).
Proof.
  unfold Fixtures.oa_symbol_of. destruct (_ && _); apply returns_Ok.
Qed.

Lemma answering_empty_success code parsed :
  code = 200 \/ code = 201 ->
  answers_empty_success (Fixtures.answering code "" parsed).
Proof.
  intros Hcode req. eexists. split; [reflexivity |].
  split; [exact Hcode | reflexivity].
Qed.

Lemma C4_empty_success_witness :
  OrderApi.get_api_response (Ok Fixtures.empty_ok_client) "/orders" "tok" "POST" "<order>"
  = Ok OrderApi.status_success /\
  OrderApi.cancel_order (Ok Fixtures.empty_ok_client) "42" "tok"
  = Ok OrderApi.status_success /\
  OrderApi.place_order Fixtures.int_of_str0 Fixtures.float_of_str0
    Fixtures.br_symbol_of Fixtures.oa_symbol_of Fixtures.dumps0
    (Ok Fixtures.empty_ok_client) Fixtures.infy_order "tok"
  = TransformData.map_hdfc_order_response Fixtures.oa_symbol_of OrderApi.status_success /\
  (exists r,
     TransformData.map_hdfc_order_response Fixtures.oa_symbol_of OrderApi.status_success
     = Ok (VDict r) /\
     assoc_get "order_status" r = Some (VStr "success") /\
     assoc_get "status" r = None) /\
  TransformData.map_hdfc_order_response Fixtures.resolver_down OrderApi.status_success
  = Ok OrderApi.status_success /\
  OrderApi.get_order_book Fixtures.oa_symbol_of (Ok Fixtures.empty_ok_client) "tok"
  = Ok (OrderApi.success_envelope "orders" []) /\
  OrderApi.get_open_position Fixtures.br_symbol_of Fixtures.oa_symbol_of
    (Ok Fixtures.empty_ok_client) "INFY" "NSE" "MIS" "tok"
  = Ok (VDict []).
Proof.
  destruct (C4_empty_success_body
              Fixtures.int_of_str0 Fixtures.float_of_str0 Fixtures.br_symbol_of
              Fixtures.oa_symbol_of Fixtures.dumps0 (Ok Fixtures.empty_ok_client)
              Fixtures.empty_ok_client eq_refl
              (answering_empty_success 200 Fixtures.no_json (or_introl eq_refl)))
    as (Hresp & Hcancel & _ & Hplace & _ & Hmapped & _ & Hlists & Hopen & _).
  destruct (C4_empty_success_body
              Fixtures.int_of_str0 Fixtures.float_of_str0 Fixtures.br_symbol_of
              Fixtures.resolver_down Fixtures.dumps0 (Ok Fixtures.empty_ok_client)
              Fixtures.empty_ok_client eq_refl
              (answering_empty_success 200 Fixtures.no_json (or_introl eq_refl)))
    as (_ & _ & _ & _ & _ & _ & Hdown & _ & _ & _).
  split; [apply Hresp, supported_POST |].
  split; [apply Hcancel |].
  split; [eapply Hplace; reflexivity |].
  split; [apply Hmapped, oa_symbol_of_returns |].
  split; [apply Hdown; eexists; reflexivity |].
  split; [apply Hlists | apply Hopen].
Defined.

(** On a 200 with an empty body [place_order] does not hand [{status:
    success}] to the caller but a platform order without a status entry, and
    [get_open_position] hands over the empty record. *)
Lemma C4_not_status_success_counterexample :
  OrderApi.place_order Fixtures.int_of_str0 Fixtures.float_of_str0
    Fixtures.br_symbol_of Fixtures.oa_symbol_of Fixtures.dumps0
    (Ok Fixtures.empty_ok_client) Fixtures.infy_order "tok"
  = Ok (Fixtures.blank_order "success") /\
  Fixtures.blank_order "success" <> OrderApi.status_success /\
  ~ has_status (Fixtures.blank_order "success") /\
  OrderApi.get_open_position Fixtures.br_symbol_of Fixtures.oa_symbol_of
    (Ok Fixtures.empty_ok_client) "INFY" "NSE" "MIS" "tok"
  = Ok (VDict []) /\
  VDict [] <> OrderApi.status_success.
Proof.
  split; [reflexivity |].
  split; [discriminate |].
  split.
  { intros (d & s & Hd & Hs & _). inversion Hd; subst d. discriminate Hs. }
  split; [reflexivity | discriminate].
Qed.

(** C2: the account holds a position whose broker symbol is the resolved
    form of the queried symbol INFY and whose exchange is the queried NSE,
    yet [get_open_position] returns the empty record: the positions it scans
    are already in platform form and have no ["tradingsymbol"] entry. *)
Theorem C2_open_position_missed :
  Fixtures.br_symbol_of (VStr "INFY") (VStr "NSE") = Ok (VStr "INFY-EQ") /\
  py_get Fixtures.infy_position "symbol" VNone = Ok (VStr "INFY-EQ") /\
  py_get Fixtures.infy_position "exchange" VNone = Ok (VStr "NSE") /\
  OrderApi.get_positions Fixtures.oa_symbol_of (Ok Fixtures.positions_client) "tok"
  = Ok (OrderApi.success_envelope "positions" [Fixtures.infy_position_platform]) /\
  OrderApi.get_open_position Fixtures.br_symbol_of Fixtures.oa_symbol_of
    (Ok Fixtures.positions_client) "INFY" "NSE" "MIS" "tok"
  = Ok (VDict []).
Proof. repeat split. Qed.

(** The same happens when broker and platform symbols coincide, and a
    symbol that the resolver does not know (its answer is [None]) is matched
    by the first position on the queried exchange. *)
Example get_open_position_same_symbols :
  OrderApi.get_open_position Fixtures.same_symbol Fixtures.same_symbol
    (Ok Fixtures.positions_client) "INFY-EQ" "NSE" "MIS" "tok"
  = Ok (VDict []).
Proof. reflexivity. Qed.

Example get_open_position_unknown_symbol :
  Fixtures.br_symbol_of (VStr "TCS") (VStr "NSE") = Ok VNone /\
  OrderApi.get_open_position Fixtures.br_symbol_of Fixtures.oa_symbol_of
    (Ok Fixtures.positions_client) "TCS" "NSE" "MIS" "tok"
  = Ok Fixtures.infy_position_platform.
Proof. split; reflexivity. Qed.

(** ** [data_api] *)

Section DataGateway.

Import DataApi.

Variable get_httpx_client : result http_client.

#[local] Abbreviation data_response := (DataApi.get_api_response get_httpx_client).
#[local] Abbreviation get_quotes := (DataApi.get_quotes get_httpx_client).
#[local] Abbreviation get_history := (DataApi.get_history get_httpx_client).
#[local] Abbreviation get_depth := (DataApi.get_depth get_httpx_client).

Lemma data_response_transport_failure client e endpoint auth method params :
  get_httpx_client = Ok client ->
  transport_fails client e ->
  data_response endpoint auth method params = Ok (OrderApi.error_with_message e).
Proof.
  intros Hc Hfails. unfold DataApi.get_api_response. rewrite Hc. simpl.
  destruct (String.eqb method "GET"); rewrite Hfails; reflexivity.
Qed.

(** Once the client is at hand, the three calls pass on whatever
    [get_api_response] returns: their own handlers are not reached. *)
Lemma data_calls_pass_through client :
  get_httpx_client = Ok client ->
  (forall symbol exchange auth,
     get_quotes symbol exchange auth
     = data_response "/quotes" auth "GET"
         (Some [("symbol", symbol); ("exchange", exchange)])) /\
  (forall symbol exchange interval start_date end_date auth,
     get_history symbol exchange interval start_date end_date auth
     = data_response "/history" auth "GET"
         (Some [ ("symbol", symbol); ("exchange", exchange);
                 ("interval", interval); ("start_date", start_date);
                 ("end_date", end_date) ])) /\
  (forall symbol exchange auth,
     get_depth symbol exchange auth
     = data_response "/depth" auth "GET"
         (Some [("symbol", symbol); ("exchange", exchange)])).
Proof.
  intros Hc.
  assert (Hret : forall endpoint auth params,
             returns (data_response endpoint auth "GET" params)).
  { intros. unfold DataApi.get_api_response. rewrite Hc. simpl.
    apply try_except_total. intros e. apply returns_Ok. }
  unfold DataApi.get_quotes, DataApi.get_history, DataApi.get_depth.
  split; [| split]; intros.
  - destruct (Hret "/quotes" auth
                (Some [("symbol", symbol); ("exchange", exchange)])) as [v ->].
    reflexivity.
  - destruct (Hret "/history" auth
                (Some [ ("symbol", symbol); ("exchange", exchange);
                        ("interval", interval); ("start_date", start_date);
                        ("end_date", end_date) ])) as [v ->].
    reflexivity.
  - destruct (Hret "/depth" auth
                (Some [("symbol", symbol); ("exchange", exchange)])) as [v ->].
    reflexivity.
Qed.

Lemma data_calls_transport_failure client e :
  get_httpx_client = Ok client ->
  transport_fails client e ->
  (forall symbol exchange auth,
     get_quotes symbol exchange auth = Ok (OrderApi.error_with_message e)) /\
  (forall symbol exchange interval start_date end_date auth,
     get_history symbol exchange interval start_date end_date auth
     = Ok (OrderApi.error_with_message e)) /\
  (forall symbol exchange auth,
     get_depth symbol exchange auth = Ok (OrderApi.error_with_message e)).
Proof.
  intros Hc Hfails.
  destruct (data_calls_pass_through client Hc) as (Hq & Hh & Hd).
  split; [| split]; intros.
  - rewrite Hq. apply (data_response_transport_failure client); assumption.
  - rewrite Hh. apply (data_response_transport_failure client); assumption.
  - rewrite Hd. apply (data_response_transport_failure client); assumption.
Qed.

(** The handlers of the three calls are reached when the shared client
    cannot be obtained; only then does [get_history] supply the empty candle
    list. *)
Lemma data_calls_without_client err :
  get_httpx_client = Raise err ->
  (forall symbol exchange auth,
     get_quotes symbol exchange auth = Ok (VDict [("status", VStr "error")])) /\
  (forall symbol exchange interval start_date end_date auth,
     get_history symbol exchange interval start_date end_date auth
     = Ok (VDict [("status", VStr "error"); ("candles", VList [])])) /\
  (forall symbol exchange auth,
     get_depth symbol exchange auth = Ok (VDict [("status", VStr "error")])).
Proof.
  intros Hc.
  unfold DataApi.get_quotes, DataApi.get_history, DataApi.get_depth,
    DataApi.get_api_response.
  rewrite Hc. repeat split.
Qed.

End DataGateway.

(** C3: when the HTTP client raises, [get_history] returns the record
    [{status: error, message: ...}] built by [get_api_response]; it has no
    ["candles"] entry, so reading the candles off it fails. *)
Theorem C3_history_transport_failure_lacks_candles :
  let outcome :=
    VDict [("status", VStr "error"); ("message", VStr "connection refused")] in
  DataApi.get_history (Ok Fixtures.client_down)
    "INFY" "NSE" "1d" "2024-01-01" "2024-01-31" "tok" = Ok outcome /\
  py_get outcome "candles" VNone = Ok VNone /\
  py_subscript outcome "candles" = Raise (KeyError "'candles'").
Proof. repeat split. Qed.

(** ** Status on the failure paths of both gateways *)

Section FailurePaths.

Import TransformData.

Variable int_of_str : string -> option Z.
Variable float_of_str : string -> option spec_float.
Variable get_br_symbol : value -> value -> result value.
Variable get_oa_symbol : value -> value -> result value.
Variable json_dumps : value -> result string.
Variable get_httpx_client : result http_client.

#[local] Abbreviation place_order :=
  (OrderApi.place_order int_of_str float_of_str get_br_symbol get_oa_symbol
     json_dumps get_httpx_client).
#[local] Abbreviation modify_order :=
  (OrderApi.modify_order int_of_str float_of_str get_br_symbol get_oa_symbol
     json_dumps get_httpx_client).
#[local] Abbreviation cancel_order := (OrderApi.cancel_order get_httpx_client).
#[local] Abbreviation get_order := (OrderApi.get_order get_oa_symbol get_httpx_client).
#[local] Abbreviation get_order_book :=
  (OrderApi.get_order_book get_oa_symbol get_httpx_client).
#[local] Abbreviation get_trade_book :=
  (OrderApi.get_trade_book get_oa_symbol get_httpx_client).
#[local] Abbreviation get_positions :=
  (OrderApi.get_positions get_oa_symbol get_httpx_client).
#[local] Abbreviation get_holdings :=
  (OrderApi.get_holdings get_oa_symbol get_httpx_client).

(** C1 (as amended): the four listings return, for every broker response
    and every failure, a record whose status is success or error.  When the
    HTTP client raises, [get_api_response] of either gateway, [cancel_order],
    [get_quotes], [get_history] and [get_depth] return [{status: error,
    message}] with the text of the exception, and the listings return
    [{status: error}] with an empty list.  When the order cannot be mapped,
    or the shared client cannot be obtained, [place_order], [modify_order],
    [cancel_order] and [get_order] return [{status: error, message}], and the
    market data calls return [{status: error}] ([get_history] with an empty
    candle list).  A status is not promised elsewhere: a response other than
    200 and 201 with an empty body comes back from [get_api_response] and
    [cancel_order] as the empty record, and [get_open_position] returns the
    empty record or one of the listed positions. *)
Theorem C1_status_on_failure_paths (auth : string) :
  ((exists v, get_order_book auth = Ok v /\ has_status v) /\
   (exists v, get_trade_book auth = Ok v /\ has_status v) /\
   (exists v, get_positions auth = Ok v /\ has_status v) /\
   (exists v, get_holdings auth = Ok v /\ has_status v)) /\
  (forall client e,
     get_httpx_client = Ok client ->
     transport_fails client e ->
     (forall endpoint method payload,
        supported method ->
        OrderApi.get_api_response get_httpx_client endpoint auth method payload
        = Ok (OrderApi.error_with_message e)) /\
     (forall order_id,
        cancel_order order_id auth = Ok (OrderApi.error_with_message e)) /\
     (get_order_book auth = Ok (OrderApi.error_envelope "orders") /\
      get_trade_book auth = Ok (OrderApi.error_envelope "trades") /\
      get_positions auth = Ok (OrderApi.error_envelope "positions") /\
      get_holdings auth = Ok (OrderApi.error_envelope "holdings")) /\
     (forall endpoint method params,
        DataApi.get_api_response get_httpx_client endpoint auth method params
        = Ok (OrderApi.error_with_message e)) /\
     (forall symbol exchange,
        DataApi.get_quotes get_httpx_client symbol exchange auth
        = Ok (OrderApi.error_with_message e)) /\
     (forall symbol exchange interval start_date end_date,
        DataApi.get_history get_httpx_client symbol exchange interval
          start_date end_date auth
        = Ok (OrderApi.error_with_message e)) /\
     (forall symbol exchange,
        DataApi.get_depth get_httpx_client symbol exchange auth
        = Ok (OrderApi.error_with_message e))) /\
  (forall order err,
     map_order_to_hdfc int_of_str float_of_str get_br_symbol order = Raise err ->
     place_order order auth = Ok (OrderApi.error_with_message err) /\
     (forall order_id,
        modify_order order_id order auth = Ok (OrderApi.error_with_message err))) /\
  (forall err,
     get_httpx_client = Raise err ->
     (forall order_id order,
        cancel_order order_id auth = Ok (OrderApi.error_with_message err) /\
        get_order order_id auth = Ok (OrderApi.error_with_message err) /\
        (exists err', place_order order auth = Ok (OrderApi.error_with_message err')) /\
        (exists err',
           modify_order order_id order auth
           = Ok (OrderApi.error_with_message err'))) /\
     (forall symbol exchange,
        DataApi.get_quotes get_httpx_client symbol exchange auth
        = Ok (VDict [("status", VStr "error")])) /\
     (forall symbol exchange interval start_date end_date,
        DataApi.get_history get_httpx_client symbol exchange interval
          start_date end_date auth
        = Ok (VDict [("status", VStr "error"); ("candles", VList [])])) /\
     (forall symbol exchange,
        DataApi.get_depth get_httpx_client symbol exchange auth
        = Ok (VDict [("status", VStr "error")]))) /\
  (forall client,
     get_httpx_client = Ok client ->
     answers_empty_failure client ->
     (forall endpoint method payload,
        supported method ->
        OrderApi.get_api_response get_httpx_client endpoint auth method payload
        = Ok (VDict [])) /\
     (forall order_id, cancel_order order_id auth = Ok (VDict []))) /\
  (forall tradingsymbol exchange producttype,
     OrderApi.get_open_position get_br_symbol get_oa_symbol get_httpx_client
       tradingsymbol exchange producttype auth = Ok (VDict []) \/
     exists positions position,
       get_positions auth = Ok (OrderApi.success_envelope "positions" positions) /\
       In position positions /\
       OrderApi.get_open_position get_br_symbol get_oa_symbol get_httpx_client
         tradingsymbol exchange producttype auth = Ok position).
Proof.
  split.
  { unfold OrderApi.get_order_book, OrderApi.get_trade_book,
      OrderApi.get_positions, OrderApi.get_holdings.
    repeat split; apply list_resource_has_status. }
  split.
  { intros client e Hc Hfails.
    destruct (data_calls_transport_failure get_httpx_client client e Hc Hfails)
      as (Hq & Hh & Hd).
    split.
    { intros. apply (get_api_response_transport_failure _ client); assumption. }
    split.
    { intros. apply (cancel_order_transport_failure _ client); assumption. }
    split.
    { unfold OrderApi.get_order_book, OrderApi.get_trade_book,
        OrderApi.get_positions, OrderApi.get_holdings.
      repeat split;
        apply (list_resource_transport_failure _ client e); assumption. }
    split.
    { intros. apply (data_response_transport_failure _ client); assumption. }
    split; [intros; apply Hq |]. split; [intros; apply Hh | intros; apply Hd]. }
  split.
  { intros order err Hraise. split.
    - apply place_order_unmappable, Hraise.
    - intros order_id. apply modify_order_unmappable, Hraise. }
  split.
  { intros err Hc.
    destruct (data_calls_without_client get_httpx_client err Hc) as (Hq & Hh & Hd).
    split.
    { intros order_id order. apply order_calls_without_client, Hc. }
    split; [intros; apply Hq |]. split; [intros; apply Hh | intros; apply Hd]. }
  split.
  { intros client Hc Hanswers. split.
    - intros. apply (get_api_response_empty_failure _ client); assumption.
    - intros. apply (cancel_order_empty_failure _ client); assumption. }
  intros. apply get_open_position_outcome.
Qed.

End FailurePaths.

Lemma client_down_fails :
  transport_fails Fixtures.client_down (TransportError "connection refused").
Proof. intros req. reflexivity. Qed.

Lemma C1_status_on_failure_paths_witness :
  let failure := OrderApi.error_with_message (TransportError "connection refused") in
  has_status failure /\
  OrderApi.get_api_response (Ok Fixtures.client_down) "/orders" "tok" "GET" ""
  = Ok failure /\
  OrderApi.cancel_order (Ok Fixtures.client_down) "42" "tok" = Ok failure /\
  OrderApi.get_order_book Fixtures.oa_symbol_of (Ok Fixtures.client_down) "tok"
  = Ok (OrderApi.error_envelope "orders") /\
  DataApi.get_quotes (Ok Fixtures.client_down) "INFY" "NSE" "tok" = Ok failure /\
  (exists v,
     OrderApi.place_order Fixtures.int_of_str0 Fixtures.float_of_str0
       Fixtures.br_symbol_of Fixtures.oa_symbol_of Fixtures.dumps0
       (Ok Fixtures.client_down) (VDict Fixtures.list_typed_order) "tok" = Ok v /\
     has_status v) /\
  DataApi.get_history (Raise (RuntimeError "no client"))
    "INFY" "NSE" "1d" "2024-01-01" "2024-01-31" "tok"
  = Ok (VDict [("status", VStr "error"); ("candles", VList [])]).
Proof.
  intros failure.
  destruct (C1_status_on_failure_paths
              Fixtures.int_of_str0 Fixtures.float_of_str0 Fixtures.br_symbol_of
              Fixtures.oa_symbol_of Fixtures.dumps0 (Ok Fixtures.client_down) "tok")
    as (_ & Hfailure & Hunmappable & _ & _ & _).
  destruct (Hfailure Fixtures.client_down (TransportError "connection refused")
              eq_refl client_down_fails)
    as (Hresp & Hcancel & (Hbook & _) & _ & Hquotes & _).
  destruct (Hunmappable (VDict Fixtures.list_typed_order)
              (TypeError "unhashable type: 'list'") eq_refl) as [Hplace _].
  destruct (C1_status_on_failure_paths
              Fixtures.int_of_str0 Fixtures.float_of_str0 Fixtures.br_symbol_of
              Fixtures.oa_symbol_of Fixtures.dumps0
              (Raise (RuntimeError "no client")) "tok")
    as (_ & _ & _ & Hnoclient & _ & _).
  destruct (Hnoclient (RuntimeError "no client") eq_refl) as (_ & _ & Hhistory & _).
  split; [apply has_status_error_with_message |].
  split; [apply Hresp, supported_GET |].
  split; [apply Hcancel |].
  split; [exact Hbook |].
  split; [apply Hquotes |].
  split; [| apply Hhistory].
  eexists. split; [exact Hplace | apply has_status_error_with_message].
Defined.

(** A 404 with an empty body comes back from [cancel_order] as the empty
    record, and [get_open_position] answers a transport failure with the
    empty record: neither has a status entry. *)
Lemma C1_status_missing_counterexample :
  OrderApi.cancel_order (Ok Fixtures.not_found_client) "42" "tok" = Ok (VDict []) /\
  OrderApi.get_open_position Fixtures.br_symbol_of Fixtures.oa_symbol_of
    (Ok Fixtures.client_down) "INFY" "NSE" "MIS" "tok" = Ok (VDict []) /\
  ~ has_status (VDict []).
Proof.
  split; [reflexivity |]. split; [reflexivity |]. apply not_has_status_empty.
Qed.

(** On a transport failure [place_order] passes the error record through
    [map_hdfc_order_response]: the caller receives a platform order whose
    order_status is error, without status and without message. *)
Example place_order_transport_failure :
  OrderApi.place_order Fixtures.int_of_str0 Fixtures.float_of_str0
    Fixtures.br_symbol_of Fixtures.oa_symbol_of Fixtures.dumps0
    (Ok Fixtures.client_down) Fixtures.infy_order "tok"
  = Ok (Fixtures.blank_order "error").
Proof. reflexivity. Qed.

(** ** Which steps of the reverse mapping can raise *)

Section ReverseMappingSteps.

Import TransformData.

Variable get_oa_symbol : value -> value -> result value.

Lemma table_get_raises_iff tbl key default :
  raises (table_get tbl key default) <-> hashable key = false.
Proof.
  split.
  - intros [e He]. destruct key; simpl in *; try discriminate He; reflexivity.
  - apply table_get_unhashable.
Qed.

(** The order mapper leaves its normal path exactly when the record is not
    a dictionary, when the symbol resolver raises, or when the order_type or
    the product entry is unhashable. *)
Lemma map_hdfc_order_response_body_raises_iff record :
  raises (map_hdfc_order_response_body get_oa_symbol record) <->
  (forall d, record <> VDict d) \/
  (exists d,
     record = VDict d /\
     (raises (get_oa_symbol (field_or d "symbol" (VStr ""))
                            (field_or d "exchange" (VStr ""))) \/
      hashable (field_or d "order_type" (VStr "MKT")) = false \/
      hashable (field_or d "product" (VStr "MIS")) = false)).
Proof.
  destruct record as [| b | n | f | s | l | d];
    try (split; [intros _; left; intros d' Hd'; discriminate Hd'
                | intros _; eexists; reflexivity]).
  unfold map_hdfc_order_response_body, resolve_oa_symbol.
  rewrite !py_get_dict. simpl bind.
  split.
  - intros Hraises. right. exists d. split; [reflexivity |].
    destruct (get_oa_symbol _ _) as [oa | e]; [| left; eexists; reflexivity].
    right. simpl bind in Hraises.
    destruct (table_get ORDER_TYPE_REVERSE_MAP _ _) as [ot | e] eqn:Hot.
    + simpl bind in Hraises.
      destruct (table_get PRODUCT_REVERSE_MAP _ _) as [pr | e] eqn:Hpr.
      * destruct Hraises as [e He]. discriminate He.
      * right. apply (table_get_raises_iff PRODUCT_REVERSE_MAP _ "MIS").
        eexists. exact Hpr.
    + left. apply (table_get_raises_iff ORDER_TYPE_REVERSE_MAP _ "MARKET").
      eexists. exact Hot.
  - intros [Hnd | (d' & Hd' & Hcases)]; [exfalso; eapply Hnd; reflexivity |].
    inversion Hd'; subst d'; clear Hd'.
    destruct Hcases as [[e He] | [Hot | Hpr]].
    + rewrite He. eexists. reflexivity.
    + destruct (get_oa_symbol _ _) as [oa | e]; [| eexists; reflexivity].
      simpl bind.
      destruct (table_get_unhashable ORDER_TYPE_REVERSE_MAP _ "MARKET" Hot)
        as [e ->].
      eexists. reflexivity.
    + destruct (get_oa_symbol _ _) as [oa | e]; [| eexists; reflexivity].
      simpl bind.
      destruct (table_get ORDER_TYPE_REVERSE_MAP _ _) as [ot | e];
        [| eexists; reflexivity].
      simpl bind.
      destruct (table_get_unhashable PRODUCT_REVERSE_MAP _ "MIS" Hpr) as [e ->].
      eexists. reflexivity.
Qed.

(** The trade mapper has no table lookup: only a non-dictionary or the
    resolver can make it raise. *)
Lemma map_hdfc_trade_response_body_raises_iff record :
  raises (map_hdfc_trade_response_body get_oa_symbol record) <->
  (forall d, record <> VDict d) \/
  (exists d,
     record = VDict d /\
     raises (get_oa_symbol (field_or d "symbol" (VStr ""))
                           (field_or d "exchange" (VStr "")))).
Proof.
  destruct record as [| b | n | f | s | l | d];
    try (split; [intros _; left; intros d' Hd'; discriminate Hd'
                | intros _; eexists; reflexivity]).
  unfold map_hdfc_trade_response_body, resolve_oa_symbol.
  rewrite !py_get_dict. simpl bind.
  split.
  - intros Hraises. right. exists d. split; [reflexivity |].
    destruct (get_oa_symbol _ _) as [oa | e]; [| eexists; reflexivity].
    destruct Hraises as [e He]. discriminate He.
  - intros [Hnd | (d' & Hd' & [e He])]; [exfalso; eapply Hnd; reflexivity |].
    inversion Hd'; subst d'; clear Hd'.
    rewrite He. eexists. reflexivity.
Qed.

(** The position mapper looks the product up; the holding mapper has no
    table lookup. *)
Lemma map_hdfc_position_body_raises_iff record :
  raises (map_hdfc_position_body get_oa_symbol record) <->
  (forall d, record <> VDict d) \/
  (exists d,
     record = VDict d /\
     (raises (get_oa_symbol (field_or d "symbol" (VStr ""))
                            (field_or d "exchange" (VStr ""))) \/
      hashable (field_or d "product" (VStr "MIS")) = false)).
Proof.
  destruct record as [| b | n | f | s | l | d];
    try (split; [intros _; left; intros d' Hd'; discriminate Hd'
                | intros _; eexists; reflexivity]).
  unfold map_hdfc_position_body, resolve_oa_symbol.
  rewrite !py_get_dict. simpl bind.
  split.
  - intros Hraises. right. exists d. split; [reflexivity |].
    destruct (get_oa_symbol _ _) as [oa | e]; [| left; eexists; reflexivity].
    right. simpl bind in Hraises.
    destruct (table_get PRODUCT_REVERSE_MAP _ _) as [pr | e] eqn:Hpr.
    + destruct Hraises as [e He]. discriminate He.
    + apply (table_get_raises_iff PRODUCT_REVERSE_MAP _ "MIS").
      eexists. exact Hpr.
  - intros [Hnd | (d' & Hd' & Hcases)]; [exfalso; eapply Hnd; reflexivity |].
    inversion Hd'; subst d'; clear Hd'.
    destruct Hcases as [[e He] | Hpr].
    + rewrite He. eexists. reflexivity.
    + destruct (get_oa_symbol _ _) as [oa | e]; [| eexists; reflexivity].
      simpl bind.
      destruct (table_get_unhashable PRODUCT_REVERSE_MAP _ "MIS" Hpr) as [e ->].
      eexists. reflexivity.
Qed.

Lemma map_hdfc_holding_body_raises_iff record :
  raises (map_hdfc_holding_body get_oa_symbol record) <->
  (forall d, record <> VDict d) \/
  (exists d,
     record = VDict d /\
     raises (get_oa_symbol (field_or d "symbol" (VStr ""))
                           (field_or d "exchange" (VStr "")))).
Proof.
  destruct record as [| b | n | f | s | l | d];
    try (split; [intros _; left; intros d' Hd'; discriminate Hd'
                | intros _; eexists; reflexivity]).
  unfold map_hdfc_holding_body, resolve_oa_symbol.
  rewrite !py_get_dict. simpl bind.
  split.
  - intros Hraises. right. exists d. split; [reflexivity |].
    destruct (get_oa_symbol _ _) as [oa | e]; [| eexists; reflexivity].
    destruct Hraises as [e He]. discriminate He.
  - intros [Hnd | (d' & Hd' & [e He])]; [exfalso; eapply Hnd; reflexivity |].
    inversion Hd'; subst d'; clear Hd'.
    rewrite He. eexists. reflexivity.
Qed.

End ReverseMappingSteps.

(** * Further properties *)

(** ** Dictionaries, tables and builtins *)

Lemma assoc_get_set_same {A : Type} (k : string) (v : A) (d : list (string * A)) :
  assoc_get k (assoc_set k v d) = Some v.
Proof.
  induction d as [| [k0 v0] d IH]; simpl.
  - rewrite String.eqb_refl. reflexivity.
  - destruct (String.eqb_spec k k0) as [-> | Hne]; simpl.
    + rewrite String.eqb_refl. reflexivity.
    + destruct (String.eqb_spec k k0); [contradiction | exact IH].
Qed.

Lemma assoc_get_None_keys {A : Type} (k : string) (d : list (string * A)) :
  assoc_get k d = None <-> ~ In k (map fst d).
Proof.
  induction d as [| [k0 v0] d IH]; simpl.
  - split; [intros _ [] | reflexivity].
  - destruct (String.eqb_spec k k0) as [-> | Hne].
    + split; [discriminate | intros H; exfalso; apply H; left; reflexivity].
    + rewrite IH. split.
      * intros H [Heq | Hin]; [apply Hne; symmetry; exact Heq | exact (H Hin)].
      * intros H Hin. apply H. right. exact Hin.
Qed.

Lemma keys_assoc_set_new (k : string) (v : value) (d : dict) :
  assoc_get k d = None -> keys (assoc_set k v d) = (keys d ++ [k])%list.
Proof.
  unfold keys. induction d as [| [k0 v0] d IH]; simpl; [reflexivity |].
  destruct (String.eqb_spec k k0); [discriminate |].
  intros H. simpl. rewrite (IH H). reflexivity.
Qed.

Lemma table_get_range tbl key default r :
  table_get tbl key default = Ok r ->
  exists s, r = VStr s /\ (s = default \/ In s (map snd tbl)).
Proof.
  assert (Hin : forall k b, assoc_get k tbl = Some b -> In b (map snd tbl)).
  { intros k b. induction tbl as [| [k0 b0] tbl IH]; simpl; [discriminate |].
    destruct (String.eqb k k0).
    - intros H. inversion H. left. reflexivity.
    - intros H. right. exact (IH H). }
  destruct key; simpl; intros H; inversion H; eexists; split;
    try reflexivity; try (left; reflexivity).
  destruct (assoc_get s tbl) as [b |] eqn:Hb.
  - right. exact (Hin s b Hb).
  - left. reflexivity.
Qed.

Lemma py_int_is_int int_of_str v r :
  py_int int_of_str v = Ok r -> exists n, r = VInt n.
Proof.
  destruct v as [| b | n | f | s | l | d]; simpl; intros H;
    try discriminate H; try (inversion H; eauto; fail).
  - destruct f; inversion H; eauto.
  - destruct (int_of_str s); inversion H; eauto.
Qed.

Lemma py_float_is_float float_of_str v r :
  py_float float_of_str v = Ok r -> exists f, r = VFloat f.
Proof.
  assert (Hz : forall n r', float_of_Z n = Ok r' -> exists f, r' = VFloat f).
  { intros n r'. unfold float_of_Z.
    destruct (binary_normalize _ _ _ _ _); intros H; inversion H; eauto. }
  destruct v as [| b | n | f | s | l | d]; simpl; intros H;
    try discriminate H; eauto.
  - inversion H. eauto.
  - destruct (float_of_str s); inversion H; eauto.
Qed.

(** ** [map_order_to_hdfc]: what a mapped order holds *)

Section ForwardShape.

Import TransformData.

Variable int_of_str : string -> option Z.
Variable float_of_str : string -> option spec_float.
Variable get_br_symbol : value -> value -> result value.

Lemma copy_if_truthy_spec o key conv hd hd' :
  copy_if_truthy (VDict o) key conv hd = Ok hd' ->
  (py_truthy (field_or o key VNone) = false /\ hd' = hd) \/
  (py_truthy (field_or o key VNone) = true /\
   exists c, conv (field_or o key VNone) = Ok c /\ hd' = assoc_set key c hd).
Proof.
  unfold copy_if_truthy, field_or. simpl.
  destruct (assoc_get key o) as [v |]; simpl.
  - destruct (py_truthy v) eqn:Ht.
    + intros H. bind_inv H. inversion H; subst. right.
      split; [reflexivity |]. eexists. split; [exact Hc | reflexivity].
    + intros H. inversion H. left. split; reflexivity.
  - intros H. inversion H. left. split; reflexivity.
Qed.

(** The steps of a successful run, in the order of the source. *)
Lemma map_order_to_hdfc_shape o h :
  map_order_to_hdfc int_of_str float_of_str get_br_symbol (VDict o) = Ok h ->
  exists br side quantity order_type product validity hd1 hd2 hd3,
    get_br_symbol (field_or o "symbol" (VStr "")) (field_or o "exchange" (VStr ""))
    = Ok br /\
    table_get SIDE_MAP (field_or o "side" (VStr "BUY")) "BUY" = Ok side /\
    py_int int_of_str (field_or o "quantity" (VInt 0)) = Ok quantity /\
    table_get ORDER_TYPE_MAP (field_or o "order_type" (VStr "MARKET")) "MKT"
    = Ok order_type /\
    table_get PRODUCT_MAP (field_or o "product" (VStr "MIS")) "MIS" = Ok product /\
    table_get VALIDITY_MAP (field_or o "validity" (VStr "DAY")) "DAY" = Ok validity /\
    copy_if_truthy (VDict o) "price" (py_float float_of_str)
      [ ("symbol", if py_truthy br then br else field_or o "symbol" (VStr ""));
        ("exchange", field_or o "exchange" (VStr ""));
        ("side", side); ("quantity", quantity); ("order_type", order_type);
        ("product", product); ("validity", validity) ] = Ok hd1 /\
    copy_if_truthy (VDict o) "stop_price" (py_float float_of_str) hd1 = Ok hd2 /\
    copy_if_truthy (VDict o) "disclosed_quantity" (py_int int_of_str) hd2 = Ok hd3 /\
    h = VDict hd3.
Proof.
  unfold map_order_to_hdfc. rewrite try_except_reraise.
  unfold map_order_to_hdfc_body. rewrite !py_get_dict. simpl bind. intros H.
  bind_inv H. rename a into br, Hc into Hbr.
  bind_inv H. rename a into side, Hc into Hside.
  bind_inv H. rename a into quantity, Hc into Hq.
  bind_inv H. rename a into order_type, Hc into Hot.
  bind_inv H. rename a into product, Hc into Hproduct.
  bind_inv H. rename a into validity, Hc into Hvalidity.
  bind_inv H. rename a into hd1, Hc into H1.
  bind_inv H. rename a into hd2, Hc into H2.
  bind_inv H. rename a into hd3, Hc into H3.
  inversion H; subst h; clear H.
  exists br, side, quantity, order_type, product, validity, hd1, hd2, hd3.
  repeat (split; [assumption |]). reflexivity.
Qed.

Lemma map_order_to_hdfc_keys o hd :
  map_order_to_hdfc int_of_str float_of_str get_br_symbol (VDict o) = Ok (VDict hd) ->
  keys hd
  = ([ "symbol"; "exchange"; "side"; "quantity"; "order_type"; "product";
       "validity" ]
     ++ filter (fun key => py_truthy (field_or o key VNone))
          [ "price"; "stop_price"; "disclosed_quantity" ])%list.
Proof.
  intros Hfwd.
  destruct (map_order_to_hdfc_shape _ _ Hfwd)
    as (br & side & quantity & order_type & product & validity & hd1 & hd2 & hd3
        & _ & _ & _ & _ & _ & _ & H1 & H2 & H3 & Hh).
  inversion Hh; subst hd3; clear Hh.
  apply copy_if_truthy_spec in H1, H2, H3.
  destruct H1 as [[Hp ->] | [Hp (p & Hpc & ->)]];
    destruct H2 as [[Hs ->] | [Hs (sp & Hsc & ->)]];
    destruct H3 as [[Hd ->] | [Hd (dq & Hdc & ->)]];
    cbn [filter]; rewrite Hp, Hs, Hd; reflexivity.
Qed.

(** X1: a mapped order always carries symbol, exchange, side, quantity,
    order_type, product and validity, in this order, followed by exactly
    those of price, stop_price and disclosed_quantity that are truthy in the
    input; price and stop_price hold the input converted by [float()],
    disclosed_quantity the input converted by [int()]. *)
Theorem X1_optional_fields_only_when_truthy (o hd : dict) :
  map_order_to_hdfc int_of_str float_of_str get_br_symbol (VDict o) = Ok (VDict hd) ->
  keys hd
  = ([ "symbol"; "exchange"; "side"; "quantity"; "order_type"; "product";
       "validity" ]
     ++ filter (fun key => py_truthy (field_or o key VNone))
          [ "price"; "stop_price"; "disclosed_quantity" ])%list /\
  (forall key,
     In key ["price"; "stop_price"] ->
     py_truthy (field_or o key VNone) = true ->
     exists f,
       py_float float_of_str (field_or o key VNone) = Ok (VFloat f) /\
       assoc_get key hd = Some (VFloat f)) /\
  (py_truthy (field_or o "disclosed_quantity" VNone) = true ->
   exists n,
     py_int int_of_str (field_or o "disclosed_quantity" VNone) = Ok (VInt n) /\
     assoc_get "disclosed_quantity" hd = Some (VInt n)).
Proof.
  intros Hfwd.
  destruct (map_order_to_hdfc_shape _ _ Hfwd)
    as (br & side & quantity & order_type & product & validity & hd1 & hd2 & hd3
        & _ & _ & _ & _ & _ & _ & H1 & H2 & H3 & Hh).
  inversion Hh; subst hd3; clear Hh.
  apply copy_if_truthy_spec in H1, H2, H3.
  split; [| split].
  - apply map_order_to_hdfc_keys, Hfwd.
  - intros key Hkey Ht.
    destruct H1 as [[Hp ->] | [Hp (p & Hpc & ->)]];
      destruct H2 as [[Hs ->] | [Hs (sp & Hsc & ->)]];
      destruct H3 as [[Hd ->] | [Hd (dq & Hdc & ->)]];
      destruct Hkey as [<- | [<- | []]];
      try (rewrite Hp in Ht; discriminate Ht);
      try (rewrite Hs in Ht; discriminate Ht);
      match goal with
      | Hconv : py_float float_of_str (field_or o ?k VNone) = Ok _
        |- exists f, py_float float_of_str (field_or o ?k VNone) = _ /\ _ =>
          destruct (py_float_is_float _ _ _ Hconv) as [f Hf]; subst;
          exists f; split; [exact Hconv | reflexivity]
      end.
  - intros Ht.
    destruct H1 as [[Hp ->] | [Hp (p & Hpc & ->)]];
      destruct H2 as [[Hs ->] | [Hs (sp & Hsc & ->)]];
      destruct H3 as [[Hd ->] | [Hd (dq & Hdc & ->)]];
      try (rewrite Hd in Ht; discriminate Ht);
      destruct (py_int_is_int _ _ _ Hdc) as [n Hn]; subst;
      exists n; (split; [exact Hdc | reflexivity]).
Qed.

(** X2: whatever the input holds, a mapped order has a side in BUY/SELL, an
    order_type in MKT/LMT/SL/SLL, a product in MIS/CNC/NRML, a validity in
    DAY/IOC/GTC and an integer quantity. *)
Theorem X2_mapped_order_has_broker_codes (o hd : dict) :
  map_order_to_hdfc int_of_str float_of_str get_br_symbol (VDict o) = Ok (VDict hd) ->
  entry_in hd "side" BROKER_SIDES /\
  entry_in hd "order_type" BROKER_ORDER_TYPES /\
  entry_in hd "product" BROKER_PRODUCTS /\
  entry_in hd "validity" BROKER_VALIDITIES /\
  exists n, assoc_get "quantity" hd = Some (VInt n).
Proof.
  intros Hfwd.
  destruct (map_order_to_hdfc_shape _ _ Hfwd)
    as (br & side & quantity & order_type & product & validity & hd1 & hd2 & hd3
        & _ & Hside & Hq & Hot & Hproduct & Hvalidity & H1 & H2 & H3 & Hh).
  inversion Hh; subst hd3; clear Hh.
  assert (Hkeep : forall k, k <> "price" -> k <> "stop_price" ->
                            k <> "disclosed_quantity" ->
                            assoc_get k hd = assoc_get k
                              [ ("symbol", if py_truthy br then br
                                           else field_or o "symbol" (VStr ""));
                                ("exchange", field_or o "exchange" (VStr ""));
                                ("side", side); ("quantity", quantity);
                                ("order_type", order_type); ("product", product);
                                ("validity", validity) ]).
  { intros k Hp Hs Hd.
    rewrite (copy_if_truthy_other _ _ _ _ _ H3 k Hd).
    rewrite (copy_if_truthy_other _ _ _ _ _ H2 k Hs).
    apply (copy_if_truthy_other _ _ _ _ _ H1 k Hp). }
  unfold entry_in. rewrite !Hkeep by discriminate. simpl assoc_get.
  apply table_get_range in Hside, Hot, Hproduct, Hvalidity.
  destruct Hside as (s1 & -> & Hs1). destruct Hot as (s2 & -> & Hs2).
  destruct Hproduct as (s3 & -> & Hs3). destruct Hvalidity as (s4 & -> & Hs4).
  split; [exists s1; split; [reflexivity | simpl in *; intuition] |].
  split; [exists s2; split; [reflexivity | simpl in *; intuition] |].
  split; [exists s3; split; [reflexivity | simpl in *; intuition] |].
  split; [exists s4; split; [reflexivity | simpl in *; intuition] |].
  destruct (py_int_is_int _ _ _ Hq) as [n ->]. exists n. reflexivity.
Qed.

Lemma map_order_to_hdfc_symbol_entry (o hd : dict) :
  map_order_to_hdfc int_of_str float_of_str get_br_symbol (VDict o) = Ok (VDict hd) ->
  exists br,
    get_br_symbol (field_or o "symbol" (VStr "")) (field_or o "exchange" (VStr ""))
    = Ok br /\
    assoc_get "symbol" hd
    = Some (if py_truthy br then br else field_or o "symbol" (VStr "")) /\
    assoc_get "exchange" hd = Some (field_or o "exchange" (VStr "")).
Proof.
  intros Hfwd.
  destruct (map_order_to_hdfc_shape _ _ Hfwd)
    as (br & side & quantity & order_type & product & validity & hd1 & hd2 & hd3
        & Hbr & _ & _ & _ & _ & _ & H1 & H2 & H3 & Hh).
  inversion Hh; subst hd3; clear Hh.
  exists br. split; [exact Hbr |].
  split.
  - rewrite (copy_if_truthy_other _ _ _ _ _ H3) by discriminate.
    rewrite (copy_if_truthy_other _ _ _ _ _ H2) by discriminate.
    rewrite (copy_if_truthy_other _ _ _ _ _ H1) by discriminate.
    reflexivity.
  - rewrite (copy_if_truthy_other _ _ _ _ _ H3) by discriminate.
    rewrite (copy_if_truthy_other _ _ _ _ _ H2) by discriminate.
    rewrite (copy_if_truthy_other _ _ _ _ _ H1) by discriminate.
    reflexivity.
Qed.

(** X3: the symbol of a mapped order is the resolver's answer when that is
    truthy and the input symbol otherwise (a missing symbol counts as the
    empty string); the exchange is copied as it is. *)
Theorem X3_forward_symbol_fallback (o hd : dict) :
  map_order_to_hdfc int_of_str float_of_str get_br_symbol (VDict o) = Ok (VDict hd) ->
  exists br,
    get_br_symbol (field_or o "symbol" (VStr "")) (field_or o "exchange" (VStr ""))
    = Ok br /\
    assoc_get "symbol" hd
    = Some (if py_truthy br then br else field_or o "symbol" (VStr "")) /\
    assoc_get "exchange" hd = Some (field_or o "exchange" (VStr "")).
Proof. apply map_order_to_hdfc_symbol_entry. Qed.

End ForwardShape.

(** ** The reverse mappers: what a mapped record holds *)

Section ReverseShape.

Import TransformData.

Variable int_of_str : string -> option Z.
Variable float_of_str : string -> option spec_float.
Variable get_br_symbol : value -> value -> result value.
Variable get_oa_symbol : value -> value -> result value.

Lemma resolve_oa_symbol_inv br_symbol exchange symbol :
  resolve_oa_symbol get_oa_symbol br_symbol exchange = Ok symbol ->
  exists oa,
    get_oa_symbol br_symbol exchange = Ok oa /\
    symbol = if py_truthy oa then oa else br_symbol.
Proof.
  unfold resolve_oa_symbol. intros H. bind_inv H. inversion H.
  exists a. split; [exact Hc | reflexivity].
Qed.

(** The normal path of the order mapper, spelled out. *)
Lemma map_hdfc_order_response_body_inv record r :
  map_hdfc_order_response_body get_oa_symbol record = Ok r ->
  exists d oa order_type product,
    record = VDict d /\
    get_oa_symbol (field_or d "symbol" (VStr "")) (field_or d "exchange" (VStr ""))
    = Ok oa /\
    table_get ORDER_TYPE_REVERSE_MAP (field_or d "order_type" (VStr "MKT")) "MARKET"
    = Ok order_type /\
    table_get PRODUCT_REVERSE_MAP (field_or d "product" (VStr "MIS")) "MIS"
    = Ok product /\
    r = VDict
          [ ("order_id", field_or d "order_id" (VStr ""));
            ("symbol", if py_truthy oa then oa else field_or d "symbol" (VStr ""));
            ("exchange", field_or d "exchange" (VStr ""));
            ("side", field_or d "side" (VStr ""));
            ("quantity", field_or d "quantity" (VInt 0));
            ("price", field_or d "price" (VInt 0));
            ("order_type", order_type);
            ("product", product);
            ("order_status", field_or d "status" (VStr ""));
            ("filled_quantity", field_or d "filled_quantity" (VInt 0));
            ("pending_quantity", field_or d "pending_quantity" (VInt 0));
            ("average_price", field_or d "average_price" (VInt 0));
            ("timestamp", field_or d "created_at" (VStr "")) ].
Proof.
  unfold map_hdfc_order_response_body. intros H.
  bind_inv H. apply py_get_Ok_inv in Hc. destruct Hc as [d [-> ->]].
  rewrite !py_get_dict in H. simpl bind in H.
  bind_inv H. apply resolve_oa_symbol_inv in Hc. destruct Hc as (oa & Hoa & ->).
  bind_inv H. rename a into order_type, Hc into Hot.
  bind_inv H. rename a into product, Hc into Hproduct.
  inversion H; subst r; clear H.
  exists d, oa, order_type, product.
  repeat (split; [first [reflexivity | assumption] |]). reflexivity.
Qed.

(** X4: each reverse mapper returns either the very record it was given or
    a dictionary with the fixed keys of its platform schema, whatever keys
    the broker record had; a mapped order has an order_type among MARKET,
    LIMIT, STOP_LOSS, STOP_LOSS_LIMIT, and a mapped order or position has a
    product among MIS, CNC, NRML. *)
Theorem X4_reverse_mappers_fixed_schema (record : value) :
  (exists out,
     map_hdfc_order_response get_oa_symbol record = Ok out /\
     (out = record \/
      exists d, out = VDict d /\ keys d = ORDER_KEYS /\
                entry_in d "order_type" PLATFORM_ORDER_TYPES /\
                entry_in d "product" BROKER_PRODUCTS)) /\
  (exists out,
     map_hdfc_trade_response get_oa_symbol record = Ok out /\
     (out = record \/ exists d, out = VDict d /\ keys d = TRADE_KEYS)) /\
  (exists out,
     map_hdfc_position get_oa_symbol record = Ok out /\
     (out = record \/
      exists d, out = VDict d /\ keys d = POSITION_KEYS /\
                entry_in d "product" BROKER_PRODUCTS)) /\
  (exists out,
     map_hdfc_holding get_oa_symbol record = Ok out /\
     (out = record \/ exists d, out = VDict d /\ keys d = HOLDING_KEYS)).
Proof.
  split; [| split; [| split]].
  - unfold map_hdfc_order_response.
    destruct (map_hdfc_order_response_body get_oa_symbol record) as [r | e] eqn:Hb;
      simpl; eexists; (split; [reflexivity |]); [| left; reflexivity].
    destruct (map_hdfc_order_response_body_inv _ _ Hb)
      as (d & oa & order_type & product & _ & _ & Hot & Hproduct & ->).
    right. eexists. split; [reflexivity |]. split; [reflexivity |].
    apply table_get_range in Hot, Hproduct.
    destruct Hot as (s1 & -> & Hs1). destruct Hproduct as (s2 & -> & Hs2).
    split; eexists; (split; [reflexivity |]); simpl in *; intuition.
  - unfold map_hdfc_trade_response.
    destruct (map_hdfc_trade_response_body get_oa_symbol record) as [r | e] eqn:Hb;
      simpl; eexists; (split; [reflexivity |]); [| left; reflexivity].
    unfold map_hdfc_trade_response_body in Hb.
    do 9 bind_inv Hb. inversion Hb. right. eexists. split; reflexivity.
  - unfold map_hdfc_position.
    destruct (map_hdfc_position_body get_oa_symbol record) as [r | e] eqn:Hb;
      simpl; eexists; (split; [reflexivity |]); [| left; reflexivity].
    unfold map_hdfc_position_body in Hb.
    do 5 bind_inv Hb.
    apply bind_Ok_inv in Hb. destruct Hb as [product [Hproduct Hb]].
    do 3 bind_inv Hb. inversion Hb.
    right. eexists. split; [reflexivity |]. split; [reflexivity |].
    apply table_get_range in Hproduct. destruct Hproduct as (s & -> & Hs).
    eexists. split; [reflexivity |]. simpl in *; intuition.
  - unfold map_hdfc_holding.
    destruct (map_hdfc_holding_body get_oa_symbol record) as [r | e] eqn:Hb;
      simpl; eexists; (split; [reflexivity |]); [| left; reflexivity].
    unfold map_hdfc_holding_body in Hb.
    do 7 bind_inv Hb. inversion Hb. right. eexists. split; reflexivity.
Qed.

(** X5: on its normal path the order mapper puts under symbol the
    resolver's answer when that is truthy and the broker symbol otherwise,
    copies exchange and side as they are, moves the broker's status to
    order_status and created_at to timestamp, and fills every missing
    numeric entry with 0 and every missing text entry with the empty
    string. *)
Theorem X5_reverse_symbol_fallback_and_defaults (d out : dict) :
  map_hdfc_order_response_body get_oa_symbol (VDict d) = Ok (VDict out) ->
  exists oa,
    get_oa_symbol (field_or d "symbol" (VStr "")) (field_or d "exchange" (VStr ""))
    = Ok oa /\
    assoc_get "symbol" out
    = Some (if py_truthy oa then oa else field_or d "symbol" (VStr "")) /\
    assoc_get "exchange" out = Some (field_or d "exchange" (VStr "")) /\
    assoc_get "side" out = Some (field_or d "side" (VStr "")) /\
    assoc_get "order_status" out = Some (field_or d "status" (VStr "")) /\
    assoc_get "timestamp" out = Some (field_or d "created_at" (VStr "")) /\
    (forall key,
       In key ["quantity"; "price"; "filled_quantity"; "pending_quantity";
               "average_price"] ->
       assoc_get key out = Some (field_or d key (VInt 0))) /\
    assoc_get "order_id" out = Some (field_or d "order_id" (VStr "")).
Proof.
  intros Hb.
  destruct (map_hdfc_order_response_body_inv _ _ Hb)
    as (d' & oa & order_type & product & Hd & Hoa & _ & _ & Hout).
  inversion Hd; subst d'; clear Hd. inversion Hout; subst out; clear Hout.
  exists oa. split; [exact Hoa |].
  repeat (split; [reflexivity |]).
  split; [| reflexivity].
  intros key [<- | [<- | [<- | [<- | [<- | []]]]]]; reflexivity.
Qed.

(** X6: sending a broker order through [map_hdfc_order_response] and the
    result through [map_order_to_hdfc] gives back its order_type, product
    and side when they are broker codes, but always validity DAY and never a
    stop_price or a disclosed_quantity: the platform form does not carry
    these three. *)
Theorem X6_broker_round_trip_loses_validity (d hd : dict) (r : value) :
  map_hdfc_order_response_body get_oa_symbol (VDict d) = Ok r ->
  map_order_to_hdfc int_of_str float_of_str get_br_symbol r = Ok (VDict hd) ->
  (forall c, In c BROKER_ORDER_TYPES ->
             assoc_get "order_type" d = Some (VStr c) ->
             assoc_get "order_type" hd = Some (VStr c)) /\
  (forall c, In c BROKER_PRODUCTS ->
             assoc_get "product" d = Some (VStr c) ->
             assoc_get "product" hd = Some (VStr c)) /\
  (forall c, In c BROKER_SIDES ->
             assoc_get "side" d = Some (VStr c) ->
             assoc_get "side" hd = Some (VStr c)) /\
  assoc_get "validity" hd = Some (VStr "DAY") /\
  assoc_get "stop_price" hd = None /\
  assoc_get "disclosed_quantity" hd = None.
Proof.
  intros Hb Hfwd.
  destruct (map_hdfc_order_response_body_inv _ _ Hb)
    as (d' & oa & order_type & product & Hd & Hoa & Hot & Hproduct & ->).
  inversion Hd; subst d'; clear Hd.
  pose proof (map_order_to_hdfc_keys _ _ _ _ _ Hfwd) as Hkeys.
  destruct (map_order_to_hdfc_inv _ _ _ _ _ Hfwd)
    as (o' & hd' & side' & order_type' & product' & validity' & Ho & Hh & Hside'
        & Hot' & Hproduct' & Hvalidity' & Hhside & Hhot & Hhproduct & Hhvalidity & _).
  inversion Hh; subst hd'; clear Hh. inversion Ho; subst o'; clear Ho.
  unfold field_or in Hside', Hot', Hproduct', Hvalidity'.
  simpl assoc_get in Hside', Hot', Hproduct', Hvalidity'.
  rewrite Hhside, Hhot, Hhproduct, Hhvalidity.
  split; [| split; [| split; [| split; [| split]]]].
  - intros c Hc Hd. unfold field_or in Hot. rewrite Hd in Hot.
    simpl in Hc. destruct Hc as [<- | [<- | [<- | [<- | []]]]];
      simpl in Hot; inversion Hot; subst order_type;
      simpl in Hot'; inversion Hot'; reflexivity.
  - intros c Hc Hd. unfold field_or in Hproduct. rewrite Hd in Hproduct.
    simpl in Hc. destruct Hc as [<- | [<- | [<- | []]]];
      simpl in Hproduct; inversion Hproduct; subst product;
      simpl in Hproduct'; inversion Hproduct'; reflexivity.
  - intros c Hc Hd. unfold field_or in Hside'. rewrite Hd in Hside'.
    simpl in Hc. destruct Hc as [<- | [<- | []]];
      simpl in Hside'; inversion Hside'; reflexivity.
  - simpl in Hvalidity'. inversion Hvalidity'. reflexivity.
  - apply assoc_get_None_keys. fold (keys hd). rewrite Hkeys.
    intros Hin. apply in_app_or in Hin. destruct Hin as [Hin | Hin].
    + simpl in Hin.
      repeat (destruct Hin as [Hin | Hin]; [discriminate Hin |]). exact Hin.
    + apply filter_In in Hin. destruct Hin as [_ Ht]. discriminate Ht.
  - apply assoc_get_None_keys. fold (keys hd). rewrite Hkeys.
    intros Hin. apply in_app_or in Hin. destruct Hin as [Hin | Hin].
    + simpl in Hin.
      repeat (destruct Hin as [Hin | Hin]; [discriminate Hin |]). exact Hin.
    + apply filter_In in Hin. destruct Hin as [_ Ht]. discriminate Ht.
Qed.

End ReverseShape.

(** ** The reversed order-type table *)

Lemma fold_invert_not_in (tbl acc : list (string * string)) v :
  ~ In v (map snd tbl) ->
  assoc_get v (fold_left (fun acc kv => assoc_set (snd kv) (fst kv) acc) tbl acc)
  = assoc_get v acc.
Proof.
  revert acc. induction tbl as [| [k0 v0] tbl IH]; simpl; intros acc Hnot.
  - reflexivity.
  - rewrite IH by (intros Hin; apply Hnot; right; exact Hin).
    apply assoc_get_set_other. intros Heq. apply Hnot. left. symmetry. exact Heq.
Qed.

Lemma fold_invert_sound (tbl acc : list (string * string)) k v :
  assoc_get v (fold_left (fun acc kv => assoc_set (snd kv) (fst kv) acc) tbl acc)
  = Some k ->
  In (k, v) tbl \/ assoc_get v acc = Some k.
Proof.
  revert acc. induction tbl as [| [k0 v0] tbl IH]; simpl; intros acc H.
  - right. exact H.
  - destruct (IH _ H) as [Hin | Hacc]; [left; right; exact Hin |].
    destruct (String.eqb_spec v v0) as [-> | Hne].
    + rewrite assoc_get_set_same in Hacc. inversion Hacc. left. left. reflexivity.
    + rewrite assoc_get_set_other in Hacc by exact Hne. right. exact Hacc.
Qed.

(** X7: a table reversed by the comprehension [{v: k for k, v in ...}]
    holds only pairs of the original table, turned around; and when no two
    keys of the original share a value, every pair of it can be looked up
    backwards. *)
Theorem X7_invert_table_is_inverse (tbl : list (string * string)) :
  (forall k v, assoc_get v (invert_table tbl) = Some k -> In (k, v) tbl) /\
  (NoDup (map snd tbl) ->
   forall k v, In (k, v) tbl -> assoc_get v (invert_table tbl) = Some k).
Proof.
  unfold invert_table. split.
  - intros k v H. destruct (fold_invert_sound _ _ _ _ H) as [Hin | Hacc];
      [exact Hin | discriminate Hacc].
  - generalize (@nil (string * string)) as acc.
    induction tbl as [| [k0 v0] tbl IH]; simpl; intros acc Hnd k v Hin.
    + contradiction.
    + inversion Hnd as [| x l Hnot Hnd']; subst.
      destruct Hin as [Heq | Hin].
      * inversion Heq; subst. rewrite fold_invert_not_in by exact Hnot.
        apply assoc_get_set_same.
      * apply IH; assumption.
Qed.

(** ** The listings *)

Lemma mapM_Forall2 {A B : Type} (f : A -> result B) (l : list A) (out : list B) :
  mapM f l = Ok out -> Forall2 (fun x y => f x = Ok y) l out.
Proof.
  revert out. induction l as [| x l IH]; simpl; intros out H.
  - inversion H. constructor.
  - bind_inv H. bind_inv H. inversion H; subst. constructor; auto.
Qed.

Section Listings.

Import TransformData OrderApi.

Variable get_oa_symbol : value -> value -> result value.
Variable get_httpx_client : result http_client.

(** What a listing does with the value that [get_api_response] hands it. *)
Lemma list_resource_on_response endpoint key transform auth v :
  OrderApi.get_api_response get_httpx_client endpoint auth "GET" "" = Ok v ->
  (forall x, returns (transform x)) ->
  (forall body items,
     v = VDict body ->
     py_eq (field_or body "status" VNone) (VStr "error") = false ->
     py_iter (field_or body key (VList [])) = Ok items ->
     exists out,
       list_resource get_httpx_client endpoint key transform auth
       = Ok (success_envelope key out) /\
       Forall2 (fun x y => transform x = Ok y) items out) /\
  ((forall body, v <> VDict body) \/
   (exists body,
      v = VDict body /\
      (py_eq (field_or body "status" VNone) (VStr "error") = true \/
       raises (py_iter (field_or body key (VList []))))) ->
   list_resource get_httpx_client endpoint key transform auth
   = Ok (error_envelope key)).
Proof.
  intros Hresp Htotal. unfold list_resource. rewrite Hresp. simpl bind.
  split.
  - intros body items -> Hstatus Hitems. rewrite !py_get_dict. simpl bind.
    rewrite Hstatus, Hitems. simpl bind.
    destruct (mapM_total transform items Htotal) as [out Hout].
    rewrite Hout. simpl. exists out. split; [reflexivity |].
    apply mapM_Forall2, Hout.
  - intros [Hnd | (body & -> & [Hstatus | [e He]])].
    + destruct v; try reflexivity. exfalso. eapply Hnd. reflexivity.
    + rewrite !py_get_dict. simpl bind. rewrite Hstatus. reflexivity.
    + rewrite !py_get_dict. simpl bind.
      destruct (py_eq _ _); [reflexivity |]. rewrite He. reflexivity.
Qed.

(** X8: when the body that [get_api_response] returns is a record whose
    status is not error, each listing answers [{status: success}] with one
    entry per element of the sequence under its key, in the same order, each
    being the outcome of its mapper on that element; an element the mapper
    cannot translate is listed as it came and does not fail the listing.  A
    missing key counts as the empty list. *)
Theorem X8_listing_maps_every_element (auth : string) (body : dict) :
  py_eq (field_or body "status" VNone) (VStr "error") = false ->
  (forall items,
     OrderApi.get_api_response get_httpx_client "/orders" auth "GET" ""
     = Ok (VDict body) ->
     py_iter (field_or body "orders" (VList [])) = Ok items ->
     exists out,
       get_order_book get_oa_symbol get_httpx_client auth
       = Ok (success_envelope "orders" out) /\
       Forall2 (fun x y => map_hdfc_order_response get_oa_symbol x = Ok y)
               items out) /\
  (forall items,
     OrderApi.get_api_response get_httpx_client "/trades/book" auth "GET" ""
     = Ok (VDict body) ->
     py_iter (field_or body "trades" (VList [])) = Ok items ->
     exists out,
       get_trade_book get_oa_symbol get_httpx_client auth
       = Ok (success_envelope "trades" out) /\
       Forall2 (fun x y => map_hdfc_trade_response get_oa_symbol x = Ok y)
               items out) /\
  (forall items,
     OrderApi.get_api_response get_httpx_client "/positions" auth "GET" ""
     = Ok (VDict body) ->
     py_iter (field_or body "positions" (VList [])) = Ok items ->
     exists out,
       get_positions get_oa_symbol get_httpx_client auth
       = Ok (success_envelope "positions" out) /\
       Forall2 (fun x y => map_hdfc_position get_oa_symbol x = Ok y) items out) /\
  (forall items,
     OrderApi.get_api_response get_httpx_client "/holdings" auth "GET" ""
     = Ok (VDict body) ->
     py_iter (field_or body "holdings" (VList [])) = Ok items ->
     exists out,
       get_holdings get_oa_symbol get_httpx_client auth
       = Ok (success_envelope "holdings" out) /\
       Forall2 (fun x y => map_hdfc_holding get_oa_symbol x = Ok y) items out).
Proof.
  intros Hstatus.
  split; [| split; [| split]]; intros items Hresp Hitems.
  - destruct (list_resource_on_response _ "orders" _ _ _ Hresp
                (map_hdfc_order_response_total get_oa_symbol)) as [Hok _].
    exact (Hok body items eq_refl Hstatus Hitems).
  - destruct (list_resource_on_response _ "trades" _ _ _ Hresp
                (map_hdfc_trade_response_total get_oa_symbol)) as [Hok _].
    exact (Hok body items eq_refl Hstatus Hitems).
  - destruct (list_resource_on_response _ "positions" _ _ _ Hresp
                (map_hdfc_position_total get_oa_symbol)) as [Hok _].
    exact (Hok body items eq_refl Hstatus Hitems).
  - destruct (list_resource_on_response _ "holdings" _ _ _ Hresp
                (map_hdfc_holding_total get_oa_symbol)) as [Hok _].
    exact (Hok body items eq_refl Hstatus Hitems).
Qed.

(** X9: a listing answers [{status: error}] with an empty list whenever
    the value that [get_api_response] returns is not a record (a JSON array,
    string, number or null), is a record whose status is error (whatever it
    lists), or holds under the listing's key something that cannot be
    iterated (null, a number, a boolean). *)
Theorem X9_listing_error_envelope (auth : string) (v : value) :
  (OrderApi.get_api_response get_httpx_client "/orders" auth "GET" "" = Ok v ->
   unusable_listing "orders" v ->
   get_order_book get_oa_symbol get_httpx_client auth
   = Ok (error_envelope "orders")) /\
  (OrderApi.get_api_response get_httpx_client "/trades/book" auth "GET" "" = Ok v ->
   unusable_listing "trades" v ->
   get_trade_book get_oa_symbol get_httpx_client auth
   = Ok (error_envelope "trades")) /\
  (OrderApi.get_api_response get_httpx_client "/positions" auth "GET" "" = Ok v ->
   unusable_listing "positions" v ->
   get_positions get_oa_symbol get_httpx_client auth
   = Ok (error_envelope "positions")) /\
  (OrderApi.get_api_response get_httpx_client "/holdings" auth "GET" "" = Ok v ->
   unusable_listing "holdings" v ->
   get_holdings get_oa_symbol get_httpx_client auth
   = Ok (error_envelope "holdings")).
Proof.
  split; [| split; [| split]]; intros Hresp Hcases.
  - destruct (list_resource_on_response _ "orders" _ _ _ Hresp
                (map_hdfc_order_response_total get_oa_symbol)) as [_ Herr].
    exact (Herr Hcases).
  - destruct (list_resource_on_response _ "trades" _ _ _ Hresp
                (map_hdfc_trade_response_total get_oa_symbol)) as [_ Herr].
    exact (Herr Hcases).
  - destruct (list_resource_on_response _ "positions" _ _ _ Hresp
                (map_hdfc_position_total get_oa_symbol)) as [_ Herr].
    exact (Herr Hcases).
  - destruct (list_resource_on_response _ "holdings" _ _ _ Hresp
                (map_hdfc_holding_total get_oa_symbol)) as [_ Herr].
    exact (Herr Hcases).
Qed.

End Listings.

(** ** What decides the outcome of a request *)

Section Outcomes.

Import OrderApi.

Variable get_httpx_client : result http_client.
Variable client : http_client.
Variable resp : response.

Hypothesis client_obtained : get_httpx_client = Ok client.
Hypothesis client_answers : forall req, client req = Ok resp.

(** X10: in the order gateway a response with a non-empty body is answered
    with its parsed body, whatever its HTTP status: a 4xx or 5xx whose body
    parses is returned exactly like a 200, and a body that does not parse
    gives [{status: error, message}] on every status. *)
Theorem X10_order_response_body_decides (endpoint auth method payload : string) :
  supported method ->
  text resp <> "" ->
  OrderApi.get_api_response get_httpx_client endpoint auth method payload
  = match json resp with
    | Ok v => Ok v
    | Raise e => Ok (error_with_message e)
    end.
Proof.
  intros Hmethod Htext.
  unfold OrderApi.get_api_response, send. rewrite client_obtained. simpl.
  assert (Hany : forall req,
             try_except
               (response <- client req ;;
                if (status_code response =? 200) || (status_code response =? 201)
                then if py_truthy (VStr (text response)) then json response
                     else Ok status_success
                else error_response <-
                       (if py_truthy (VStr (text response)) then json response
                        else Ok (VDict [])) ;;
                     Ok error_response)
               (fun e => Ok (error_with_message e))
             = match json resp with
               | Ok v => Ok v
               | Raise e => Ok (error_with_message e)
               end).
  { intros req. rewrite client_answers. simpl.
    destruct (String.eqb_spec (text resp) ""); [contradiction |]. simpl.
    destruct ((status_code resp =? 200) || (status_code resp =? 201));
      destruct (json resp); reflexivity. }
  unfold supported in Hmethod. simpl in Hmethod.
  destruct Hmethod as [<- | [<- | [<- | [<- | []]]]]; simpl; apply Hany.
Qed.

(** X11: the market data gateway never looks at the HTTP status: for every
    verb and every status an empty body gives the empty record, a body that
    parses is handed over as parsed, and one that does not parse gives
    [{status: error, message}]; [get_quotes], [get_history] and [get_depth]
    return that outcome unchanged. *)
Theorem X11_market_data_passes_body_through
  (endpoint auth method symbol exchange interval start_date end_date : string)
  (params : option (list (string * string))) :
  let outcome :=
    if String.eqb (text resp) "" then Ok (VDict [])
    else match json resp with
         | Ok v => Ok v
         | Raise e => Ok (error_with_message e)
         end in
  DataApi.get_api_response get_httpx_client endpoint auth method params = outcome /\
  DataApi.get_quotes get_httpx_client symbol exchange auth = outcome /\
  DataApi.get_history get_httpx_client symbol exchange interval start_date
    end_date auth = outcome /\
  DataApi.get_depth get_httpx_client symbol exchange auth = outcome.
Proof.
  intros outcome.
  assert (Hresp : forall endpoint' method' params',
             DataApi.get_api_response get_httpx_client endpoint' auth method' params'
             = outcome).
  { intros. unfold DataApi.get_api_response. rewrite client_obtained. simpl.
    destruct (String.eqb method' "GET"); rewrite client_answers; simpl;
      unfold outcome; destruct (String.eqb (text resp) ""); simpl;
      try reflexivity; destruct (json resp); reflexivity. }
  destruct (data_calls_pass_through get_httpx_client client client_obtained)
    as (Hq & Hh & Hd).
  split; [apply Hresp |].
  split; [rewrite Hq; apply Hresp |].
  split; [rewrite Hh; apply Hresp | rewrite Hd; apply Hresp].
Qed.

End Outcomes.

(** ** What goes on the wire *)

Section Requests.

Import TransformData OrderApi.

Variable int_of_str : string -> option Z.
Variable float_of_str : string -> option spec_float.
Variable get_br_symbol : value -> value -> result value.
Variable get_oa_symbol : value -> value -> result value.
Variable json_dumps : value -> result string.

(** Two clients that answer one request alike. *)
Variable c1 c2 : http_client.





End Requests.

(** ** [auth_api]: the authorization URL, the token calls, the validity probe *)

Section AuthFlow.

Import AuthApi.

Variable environ : string -> option string.
Variable get_httpx_client : result http_client.

(** X15: [generate_auth_url] raises exactly when BROKER_API_KEY is unset or
    empty, and then with a ValueError; otherwise it returns the authorize
    URL with the client id, the redirect URI (the local callback when
    BROKER_REDIRECT_URI is unset), response_type code, the caller's state
    and the scope, each inserted as it is. *)
Theorem X15_auth_url_needs_client_id (state : string) :
  (raises (generate_auth_url environ state) <-> missing environ "BROKER_API_KEY") /\
  (missing environ "BROKER_API_KEY" ->
   generate_auth_url environ state
   = Raise (ValueError "BROKER_API_KEY environment variable not set")) /\
  (forall key,
     environ "BROKER_API_KEY" = Some key -> key <> "" ->
     generate_auth_url environ state
     = Ok ("https://developer.hdfcsec.com/oauth/authorize?client_id=" ++ key
           ++ "&redirect_uri="
           ++ match environ "BROKER_REDIRECT_URI" with
              | Some uri => uri
              | None => "http://localhost:8000/auth/callback"
              end
           ++ "&response_type=code&state=" ++ state
           ++ "&scope=trading placement")).
Proof.
  assert (Hmissing : missing environ "BROKER_API_KEY" ->
                     generate_auth_url environ state
                     = Raise (ValueError "BROKER_API_KEY environment variable not set")).
  { intros Hm. unfold generate_auth_url.
    rewrite (os_getenv_missing environ _ Hm). reflexivity. }
  assert (Hset : forall key,
             environ "BROKER_API_KEY" = Some key -> key <> "" ->
             generate_auth_url environ state
             = Ok ("https://developer.hdfcsec.com/oauth/authorize?client_id=" ++ key
                   ++ "&redirect_uri="
                   ++ match environ "BROKER_REDIRECT_URI" with
                      | Some uri => uri
                      | None => "http://localhost:8000/auth/callback"
                      end
                   ++ "&response_type=code&state=" ++ state
                   ++ "&scope=trading placement")).
  { intros key Hk Hne. unfold generate_auth_url, os_getenv. rewrite Hk. simpl.
    destruct (String.eqb_spec key ""); [contradiction |]. simpl.
    reflexivity. }
  split; [| split; [exact Hmissing | exact Hset]].
  split.
  - intros [e He]. unfold missing.
    destruct (environ "BROKER_API_KEY") as [key |] eqn:Hk; [| left; reflexivity].
    destruct (String.eqb_spec key "") as [-> | Hne]; [right; reflexivity |].
    rewrite (Hset key eq_refl Hne) in He. discriminate He.
  - intros Hm. rewrite (Hmissing Hm). eexists. reflexivity.
Qed.

(** X16: with both credentials configured, each token call depends on the
    client only through one POST to /oauth/token on the authorization host,
    sent without headers, with the form fields of its grant and with the
    client id and secret as HTTP Basic credentials; it returns the parsed
    body when the answer has status 200 and the body parses, and [None] in
    every other case. *)
Theorem X16_token_calls_with_credentials
  (key secret code token : string) (client : http_client) :
  environ "BROKER_API_KEY" = Some key -> key <> "" ->
  environ "BROKER_API_SECRET" = Some secret -> secret <> "" ->
  get_httpx_client = Ok client ->
  let outcome (form : list (string * string)) :=
    match client (mk_request "POST" "https://developer.hdfcsec.com/oauth/token"
                    [] None None (Some form) (Some (key, secret)) None) with
    | Ok resp =>
        if status_code resp =? 200
        then match json resp with Ok body => Ok body | Raise _ => Ok VNone end
        else Ok VNone
    | Raise _ => Ok VNone
    end in
  get_access_token environ get_httpx_client code
  = outcome [ ("grant_type", "authorization_code");
              ("code", code);
              ("redirect_uri",
               match environ "BROKER_REDIRECT_URI" with
               | Some uri => uri
               | None => "http://localhost:8000/auth/callback"
               end);
              ("client_id", key);
              ("client_secret", secret) ] /\
  refresh_access_token environ get_httpx_client token
  = outcome [ ("grant_type", "refresh_token");
              ("refresh_token", token);
              ("client_id", key);
              ("client_secret", secret) ].
Proof.
  intros Hk Hkne Hs Hsne Hc outcome.
  unfold get_access_token, refresh_access_token, os_getenv, outcome.
  rewrite Hk, Hs, Hc. simpl.
  destruct (String.eqb_spec key ""); [contradiction |].
  destruct (String.eqb_spec secret ""); [contradiction |].
  simpl. unfold post_token. simpl.
  split.
  - destruct (client _) as [resp | e]; simpl; [| reflexivity].
    destruct (status_code resp =? 200); [| reflexivity].
    destruct (json resp); reflexivity.
  - destruct (client _) as [resp | e]; simpl; [| reflexivity].
    destruct (status_code resp =? 200); [| reflexivity].
    destruct (json resp); reflexivity.
Qed.

(** X17: [validate_token] answers true exactly when the shared client is
    at hand and the GET of /oapi/v1/account/profile, sent with the bearer
    token and a timeout of five seconds, is answered with status 200; in
    every other case (no client, transport failure, other status) it answers
    false, and it never raises. *)
Theorem X17_validate_token_true_iff_200 (access_token : string) :
  let probe :=
    mk_request "GET" "https://developer.hdfcsec.com/oapi/v1/account/profile"
      [ ("Authorization", "Bearer " ++ access_token);
        ("Content-Type", "application/json") ]
      None None None None (Some five_seconds) in
  (validate_token get_httpx_client access_token = Ok true <->
   exists client resp,
     get_httpx_client = Ok client /\ client probe = Ok resp /\
     status_code resp = 200) /\
  (validate_token get_httpx_client access_token = Ok true \/
   validate_token get_httpx_client access_token = Ok false).
Proof.
  intros probe.
  assert (Hv : validate_token get_httpx_client access_token
               = match get_httpx_client with
                 | Ok client =>
                     match client probe with
                     | Ok resp => Ok (status_code resp =? 200)
                     | Raise _ => Ok false
                     end
                 | Raise _ => Ok false
                 end).
  { unfold validate_token, probe. destruct get_httpx_client as [client | e];
      [| reflexivity].
    simpl. destruct (client _); reflexivity. }
  rewrite Hv. clear Hv.
  destruct get_httpx_client as [client | e].
  - destruct (client probe) as [resp | e] eqn:Hresp.
    + destruct (Z.eqb_spec (status_code resp) 200) as [H200 | Hne].
      * split; [| left; reflexivity].
        split; [intros _; exists client, resp; auto | reflexivity].
      * split; [| right; reflexivity].
        split; [discriminate |].
        intros (client' & resp' & Hc & Hr & H200).
        inversion Hc; subst client'. rewrite Hresp in Hr.
        inversion Hr; subst resp'. contradiction.
    + split; [| right; reflexivity].
      split; [discriminate |].
      intros (client' & resp' & Hc & Hr & _).
      inversion Hc; subst client'. rewrite Hresp in Hr. discriminate Hr.
  - split; [| right; reflexivity].
    split; [discriminate |].
    intros (client' & resp' & Hc & _). discriminate Hc.
Qed.

End AuthFlow.

(** ** [get_open_position]: the scan *)

Section OpenPosition.

Import TransformData OrderApi.

Variable get_br_symbol : value -> value -> result value.
Variable get_oa_symbol : value -> value -> result value.
Variable get_httpx_client : result http_client.

Lemma scan_positions_find br_symbol exchange positions :
  Forall (fun position => is_dict position = true) positions ->
  scan_positions br_symbol exchange positions
  = Ok (match find (position_matches br_symbol exchange) positions with
        | Some position => position
        | None => VDict []
        end).
Proof.
  intros Hall. induction Hall as [| position rest Hdict _ IH]; simpl.
  - reflexivity.
  - destruct position; try discriminate Hdict.
    simpl. unfold field_or.
    destruct (py_eq _ br_symbol); simpl; [| exact IH].
    destruct (py_eq _ (VStr exchange)); [reflexivity | exact IH].
Qed.

(** X18: when the listed positions are records, [get_open_position]
    returns the first of them whose tradingsymbol entry equals the resolved
    broker symbol and whose exchange entry equals the queried exchange, and
    the empty record when there is none; a missing entry compares as
    [None]. *)
Theorem X18_open_position_is_first_match
  (tradingsymbol exchange producttype auth : string)
  (positions : list value) (br_symbol : value) :
  get_positions get_oa_symbol get_httpx_client auth
  = Ok (success_envelope "positions" positions) ->
  get_br_symbol (VStr tradingsymbol) (VStr exchange) = Ok br_symbol ->
  Forall (fun position => is_dict position = true) positions ->
  get_open_position get_br_symbol get_oa_symbol get_httpx_client
    tradingsymbol exchange producttype auth
  = Ok (match find (position_matches br_symbol exchange) positions with
        | Some position => position
        | None => VDict []
        end).
Proof.
  intros Hpositions Hbr Hall. unfold get_open_position.
  rewrite Hpositions. simpl. rewrite Hbr. simpl.
  rewrite (scan_positions_find _ _ _ Hall). reflexivity.
Qed.

(** X19: a listed position that is not a record ends the scan: when such
    an element comes before any match, [get_open_position] returns the empty
    record even if a matching position follows. *)
Theorem X19_open_position_stops_at_non_record
  (tradingsymbol exchange producttype auth : string)
  (before after : list value) (odd br_symbol : value) :
  get_positions get_oa_symbol get_httpx_client auth
  = Ok (success_envelope "positions" (before ++ odd :: after)%list) ->
  get_br_symbol (VStr tradingsymbol) (VStr exchange) = Ok br_symbol ->
  Forall (fun position => is_dict position = true) before ->
  find (position_matches br_symbol exchange) before = None ->
  is_dict odd = false ->
  get_open_position get_br_symbol get_oa_symbol get_httpx_client
    tradingsymbol exchange producttype auth
  = Ok (VDict []).
Proof.
  intros Hpositions Hbr Hall Hnone Hodd. unfold get_open_position.
  rewrite Hpositions. simpl. rewrite Hbr. simpl.
  assert (Hscan : raises (scan_positions br_symbol exchange
                            (before ++ odd :: after)%list)).
  { clear Hpositions. induction Hall as [| position rest Hdict _ IH]; simpl.
    - destruct odd; try discriminate Hodd; eexists; reflexivity.
    - destruct position; try discriminate Hdict.
      simpl in Hnone. unfold field_or in Hnone. simpl.
      destruct (py_eq _ br_symbol); simpl in *.
      + destruct (py_eq _ (VStr exchange)); [discriminate Hnone |].
        apply IH, Hnone.
      + apply IH, Hnone. }
  destruct Hscan as [e ->]. reflexivity.
Qed.

End OpenPosition.

(** ** An unknown verb *)

(** X20: asked for a verb other than GET, POST, PUT and DELETE, the order
    gateway's [get_api_response] sends nothing: whatever the client would
    answer, it returns [{status: error, message}] naming the verb. *)
Theorem X20_unsupported_method_not_sent
  (client : http_client) (endpoint auth method payload : string) :
  ~ supported method ->
  OrderApi.get_api_response (Ok client) endpoint auth method payload
  = Ok (VDict [ ("status", VStr "error");
                ("message", VStr ("Unsupported method: " ++ method)) ]).
Proof.
  intros Hns. unfold OrderApi.get_api_response. simpl.
  destruct (String.eqb_spec method "GET") as [-> | _];
    [exfalso; apply Hns, supported_GET |].
  destruct (String.eqb_spec method "POST") as [-> | _];
    [exfalso; apply Hns, supported_POST |].
  destruct (String.eqb_spec method "PUT") as [-> | _];
    [exfalso; apply Hns, supported_PUT |].
  destruct (String.eqb_spec method "DELETE") as [-> | _];
    [exfalso; apply Hns, supported_DELETE |].
  reflexivity.
Qed.

(** ** The further properties at work *)

Lemma X1_optional_fields_witness :
  exists hd,
    TransformData.map_order_to_hdfc Fixtures.int_of_str0 Fixtures.float_of_str0
      Fixtures.br_symbol_of (VDict Cases.priced_order) = Ok (VDict hd) /\
    keys hd = [ "symbol"; "exchange"; "side"; "quantity"; "order_type";
                "product"; "validity"; "price" ] /\
    exists f, assoc_get "price" hd = Some (VFloat f).
Proof.
  eexists. split; [reflexivity |].
  match goal with
  | |- keys ?hd = _ /\ _ =>
      destruct (X1_optional_fields_only_when_truthy
                  Fixtures.int_of_str0 Fixtures.float_of_str0
                  Fixtures.br_symbol_of Cases.priced_order hd eq_refl)
        as (Hkeys & Hfloat & _)
  end.
  split; [exact Hkeys |].
  destruct (Hfloat "price" (or_introl eq_refl) eq_refl) as (f & _ & Hf).
  exists f. exact Hf.
Defined.

Lemma X2_broker_codes_witness :
  exists hd,
    TransformData.map_order_to_hdfc Fixtures.int_of_str0 Fixtures.float_of_str0
      Fixtures.br_symbol_of (VDict Fixtures.sparse_order) = Ok (VDict hd) /\
    entry_in hd "side" BROKER_SIDES /\
    entry_in hd "order_type" BROKER_ORDER_TYPES /\
    entry_in hd "product" BROKER_PRODUCTS /\
    entry_in hd "validity" BROKER_VALIDITIES.
Proof.
  eexists. split; [reflexivity |].
  match goal with
  | |- entry_in ?hd _ _ /\ _ =>
      destruct (X2_mapped_order_has_broker_codes
                  Fixtures.int_of_str0 Fixtures.float_of_str0
                  Fixtures.br_symbol_of Fixtures.sparse_order hd eq_refl)
        as (Hside & Hot & Hproduct & Hvalidity & _)
  end.
  split; [exact Hside | split; [exact Hot | split; [exact Hproduct | exact Hvalidity]]].
Defined.

Lemma X3_forward_symbol_witness :
  exists hd,
    TransformData.map_order_to_hdfc Fixtures.int_of_str0 Fixtures.float_of_str0
      Fixtures.br_symbol_of (VDict Cases.priced_order) = Ok (VDict hd) /\
    assoc_get "symbol" hd = Some (VStr "INFY-EQ") /\
    assoc_get "exchange" hd = Some (VStr "NSE").
Proof.
  eexists. split; [reflexivity |].
  match goal with
  | |- assoc_get _ ?hd = _ /\ _ =>
      destruct (X3_forward_symbol_fallback
                  Fixtures.int_of_str0 Fixtures.float_of_str0
                  Fixtures.br_symbol_of Cases.priced_order hd eq_refl)
        as (br & Hbr & Hsymbol & Hexchange)
  end.
  inversion Hbr; subst br.
  split; [exact Hsymbol | exact Hexchange].
Defined.

Lemma X5_reverse_symbol_witness :
  exists out,
    TransformData.map_hdfc_order_response_body Fixtures.oa_symbol_of
      (VDict Cases.broker_order) = Ok (VDict out) /\
    assoc_get "symbol" out = Some (VStr "INFY") /\
    assoc_get "order_status" out = Some (VStr "OPEN") /\
    assoc_get "price" out = Some (VInt 0).
Proof.
  eexists. split; [reflexivity |].
  match goal with
  | |- assoc_get _ ?out = _ /\ _ =>
      destruct (X5_reverse_symbol_fallback_and_defaults
                  Fixtures.oa_symbol_of Cases.broker_order out eq_refl)
        as (oa & Hoa & Hsymbol & _ & _ & Hstatus & _ & Hnumbers & _)
  end.
  inversion Hoa; subst oa.
  split; [exact Hsymbol | split; [exact Hstatus |]].
  apply (Hnumbers "price"). simpl. tauto.
Defined.

Lemma X6_broker_round_trip_witness :
  exists r hd,
    TransformData.map_hdfc_order_response_body Fixtures.oa_symbol_of
      (VDict Cases.broker_order) = Ok r /\
    TransformData.map_order_to_hdfc Fixtures.int_of_str0 Fixtures.float_of_str0
      Fixtures.br_symbol_of r = Ok (VDict hd) /\
    assoc_get "order_type" hd = Some (VStr "SL") /\
    assoc_get "product" hd = Some (VStr "CNC") /\
    assoc_get "side" hd = Some (VStr "SELL") /\
    assoc_get "validity" hd = Some (VStr "DAY").
Proof.
  eexists. eexists. split; [reflexivity |]. split; [reflexivity |].
  match goal with
  | |- assoc_get _ ?hd = _ /\ _ =>
      destruct (X6_broker_round_trip_loses_validity
                  Fixtures.int_of_str0 Fixtures.float_of_str0
                  Fixtures.br_symbol_of Fixtures.oa_symbol_of
                  Cases.broker_order hd _ eq_refl eq_refl)
        as (Hot & Hproduct & Hside & Hvalidity & _)
  end.
  split; [apply Hot; [simpl; tauto | reflexivity] |].
  split; [apply Hproduct; [simpl; tauto | reflexivity] |].
  split; [apply Hside; [simpl; tauto | reflexivity] | exact Hvalidity].
Defined.

Lemma X7_invert_table_witness :
  assoc_get "SL" TransformData.ORDER_TYPE_REVERSE_MAP = Some "STOP_LOSS".
Proof.
  destruct (X7_invert_table_is_inverse TransformData.ORDER_TYPE_MAP) as [_ Hback].
  apply Hback.
  - repeat constructor; simpl; intros H;
      repeat (destruct H as [H | H]; [discriminate H |]); exact H.
  - simpl. tauto.
Defined.

Lemma X8_listing_witness :
  exists out,
    OrderApi.get_order_book Fixtures.oa_symbol_of (Ok Cases.orders_client) "tok"
    = Ok (OrderApi.success_envelope "orders" out) /\
    Forall2 (fun x y => TransformData.map_hdfc_order_response
                          Fixtures.oa_symbol_of x = Ok y)
            [VDict Cases.broker_order; VStr "busy"] out.
Proof.
  destruct (X8_listing_maps_every_element
              Fixtures.oa_symbol_of (Ok Cases.orders_client) "tok"
              [("orders", VList [VDict Cases.broker_order; VStr "busy"])]
              eq_refl) as (Horders & _).
  exact (Horders _ eq_refl eq_refl).
Defined.

Lemma X9_listing_error_witness :
  OrderApi.get_order_book Fixtures.oa_symbol_of (Ok Cases.array_client) "tok"
  = Ok (OrderApi.error_envelope "orders").
Proof.
  destruct (X9_listing_error_envelope
              Fixtures.oa_symbol_of (Ok Cases.array_client) "tok" (VList []))
    as (Horders & _).
  apply Horders; [reflexivity |].
  left. intros body Hbody. discriminate Hbody.
Defined.

Lemma X10_order_response_witness :
  OrderApi.get_api_response (Ok Cases.failing_client) "/orders/42" "tok" "DELETE" ""
  = Ok (VDict [("message", VStr "boom")]).
Proof.
  apply (X10_order_response_body_decides
           (Ok Cases.failing_client) Cases.failing_client Cases.server_error
           eq_refl (fun req => eq_refl) "/orders/42" "tok" "DELETE" ""
           supported_DELETE).
  discriminate.
Defined.

Lemma X11_market_data_witness :
  DataApi.get_quotes (Ok Cases.failing_client) "INFY" "NSE" "tok"
  = Ok (VDict [("message", VStr "boom")]).
Proof.
  destruct (X11_market_data_passes_body_through
              (Ok Cases.failing_client) Cases.failing_client Cases.server_error
              eq_refl (fun req => eq_refl)
              "/quotes" "tok" "GET" "INFY" "NSE" "1d" "2024-01-01" "2024-01-31"
              None) as (_ & Hquotes & _).
  exact Hquotes.
Defined.




Lemma X15_auth_url_witness :
  AuthApi.generate_auth_url Fixtures.no_environ "xyz"
  = Raise (ValueError "BROKER_API_KEY environment variable not set") /\
  AuthApi.generate_auth_url Cases.configured_environ "xyz"
  = Ok ("https://developer.hdfcsec.com/oauth/authorize?client_id=id-1"
        ++ "&redirect_uri=http://localhost:8000/auth/callback"
        ++ "&response_type=code&state=xyz&scope=trading placement").
Proof.
  split.
  - destruct (X15_auth_url_needs_client_id Fixtures.no_environ "xyz")
      as (_ & Hmissing & _).
    apply Hmissing. left. reflexivity.
  - destruct (X15_auth_url_needs_client_id Cases.configured_environ "xyz")
      as (_ & _ & Hset).
    apply (Hset "id-1"); [reflexivity | discriminate].
Defined.

Lemma X16_token_calls_witness :
  AuthApi.get_access_token Cases.configured_environ (Ok Cases.token_client) "code"
  = Ok Cases.token_body /\
  AuthApi.refresh_access_token Cases.configured_environ (Ok Cases.token_client) "rt"
  = Ok Cases.token_body.
Proof.
  apply (X16_token_calls_with_credentials
           Cases.configured_environ (Ok Cases.token_client)
           "id-1" "s3cret" "code" "rt" Cases.token_client);
    first [reflexivity | discriminate].
Defined.

Lemma X18_open_position_witness :
  OrderApi.get_open_position Fixtures.br_symbol_of Fixtures.resolver_down
    (Ok Cases.raw_positions_client) "INFY" "NSE" "MIS" "tok"
  = Ok (VDict [("tradingsymbol", VStr "INFY-EQ"); ("exchange", VStr "NSE");
               ("quantity", VInt 3)]).
Proof.
  apply (X18_open_position_is_first_match
           Fixtures.br_symbol_of Fixtures.resolver_down
           (Ok Cases.raw_positions_client) "INFY" "NSE" "MIS" "tok"
           Cases.raw_positions (VStr "INFY-EQ") eq_refl eq_refl).
  repeat constructor.
Defined.

Lemma X19_open_position_witness :
  OrderApi.get_open_position Fixtures.br_symbol_of Fixtures.resolver_down
    (Ok Cases.odd_positions_client) "INFY" "NSE" "MIS" "tok"
  = Ok (VDict []).
Proof.
  apply (X19_open_position_stops_at_non_record
           Fixtures.br_symbol_of Fixtures.resolver_down
           (Ok Cases.odd_positions_client) "INFY" "NSE" "MIS" "tok"
           []
           [VDict [("tradingsymbol", VStr "INFY-EQ"); ("exchange", VStr "NSE")]]
           (VStr "busy") (VStr "INFY-EQ") eq_refl eq_refl).
  - constructor.
  - reflexivity.
  - reflexivity.
Defined.

Lemma X20_unsupported_method_witness :
  OrderApi.get_api_response (Ok Fixtures.empty_ok_client) "/orders" "tok" "PATCH" "{}"
  = Ok (VDict [ ("status", VStr "error");
                ("message", VStr "Unsupported method: PATCH") ]).
Proof.
  apply (X20_unsupported_method_not_sent
           Fixtures.empty_ok_client "/orders" "tok" "PATCH" "{}").
  unfold supported. simpl. intros H.
  repeat (destruct H as [H | H]; [discriminate H |]). exact H.
Defined.

(** ** More on the order calls *)

Section OrderCallsMore.

Import TransformData OrderApi.

Variable int_of_str : string -> option Z.
Variable float_of_str : string -> option spec_float.
Variable get_br_symbol : value -> value -> result value.
Variable get_oa_symbol : value -> value -> result value.
Variable json_dumps : value -> result string.
Variable get_httpx_client : result http_client.

(** The normal path of the order mapper on a dictionary, as an equation. *)
Lemma map_hdfc_order_response_on_dict d oa order_type product :
  get_oa_symbol (field_or d "symbol" (VStr "")) (field_or d "exchange" (VStr ""))
  = Ok oa ->
  table_get ORDER_TYPE_REVERSE_MAP (field_or d "order_type" (VStr "MKT")) "MARKET"
  = Ok order_type ->
  table_get PRODUCT_REVERSE_MAP (field_or d "product" (VStr "MIS")) "MIS"
  = Ok product ->
  map_hdfc_order_response get_oa_symbol (VDict d)
  = Ok (VDict
          [ ("order_id", field_or d "order_id" (VStr ""));
            ("symbol", if py_truthy oa then oa else field_or d "symbol" (VStr ""));
            ("exchange", field_or d "exchange" (VStr ""));
            ("side", field_or d "side" (VStr ""));
            ("quantity", field_or d "quantity" (VInt 0));
            ("price", field_or d "price" (VInt 0));
            ("order_type", order_type);
            ("product", product);
            ("order_status", field_or d "status" (VStr ""));
            ("filled_quantity", field_or d "filled_quantity" (VInt 0));
            ("pending_quantity", field_or d "pending_quantity" (VInt 0));
            ("average_price", field_or d "average_price" (VInt 0));
            ("timestamp", field_or d "created_at" (VStr "")) ]).
Proof.
  intros Hoa Hot Hproduct.
  unfold map_hdfc_order_response, map_hdfc_order_response_body, resolve_oa_symbol.
  rewrite !py_get_dict. cbn [bind]. rewrite Hoa. cbn [bind].
  rewrite Hot. cbn [bind]. rewrite Hproduct. reflexivity.
Qed.

(** X21: when the HTTP client raises while an order is placed, modified or
    fetched, and the resolver answers the lookup of the empty symbol, the
    caller receives a platform order whose order_status is error and which
    has neither a status nor a message entry: the text of the failure is not
    passed on. *)
Theorem X21_transport_failure_becomes_order_status
  (client : http_client) (e : exn) (order_id auth : string) (order : value) :
  get_httpx_client = Ok client ->
  transport_fails client e ->
  returns (get_oa_symbol (VStr "") (VStr "")) ->
  exists r,
    get_order get_oa_symbol get_httpx_client order_id auth = Ok (VDict r) /\
    (forall h payload,
       map_order_to_hdfc int_of_str float_of_str get_br_symbol order = Ok h ->
       json_dumps h = Ok payload ->
       place_order int_of_str float_of_str get_br_symbol get_oa_symbol json_dumps
         get_httpx_client order auth = Ok (VDict r) /\
       modify_order int_of_str float_of_str get_br_symbol get_oa_symbol json_dumps
         get_httpx_client order_id order auth = Ok (VDict r)) /\
    assoc_get "order_status" r = Some (VStr "error") /\
    assoc_get "status" r = None /\
    assoc_get "message" r = None.
Proof.
  intros Hc Hfails [oa Hoa].
  pose proof (map_hdfc_order_response_on_dict
                [("status", VStr "error"); ("message", VStr (str_of_exn e))]
                oa (VStr "MARKET") (VStr "MIS") Hoa eq_refl eq_refl) as Hmapped.
  fold (error_with_message e) in Hmapped.
  eexists. split; [| split; [| split; [| split]]].
  - unfold get_order.
    rewrite (get_api_response_transport_failure _ client e Hc Hfails _ _ "GET" ""
               supported_GET).
    cbn [bind]. rewrite Hmapped. reflexivity.
  - intros h payload Hh Hp. split.
    + unfold place_order. rewrite Hh. cbn [bind]. rewrite Hp. cbn [bind].
      rewrite (get_api_response_transport_failure _ client e Hc Hfails _ _ "POST"
                 payload supported_POST).
      cbn [bind]. rewrite Hmapped. reflexivity.
    + unfold modify_order. rewrite Hh. cbn [bind]. rewrite Hp. cbn [bind].
      rewrite (get_api_response_transport_failure _ client e Hc Hfails _ _ "PUT"
                 payload supported_PUT).
      cbn [bind]. rewrite Hmapped. reflexivity.
  - reflexivity.
  - reflexivity.
  - reflexivity.
Qed.

(** X22: mapping an order to the broker form and back returns its symbol
    and exchange unchanged in two cases: when neither resolver knows the
    symbol (both lookups come back empty), and when the reverse lookup of
    the broker symbol gives the original, non-empty symbol. *)
Theorem X22_symbol_round_trip (o hd : dict) (br : value) :
  let symbol := field_or o "symbol" (VStr "") in
  let exchange := field_or o "exchange" (VStr "") in
  map_order_to_hdfc int_of_str float_of_str get_br_symbol (VDict o) = Ok (VDict hd) ->
  get_br_symbol symbol exchange = Ok br ->
  (py_truthy br = false /\
   exists oa, get_oa_symbol symbol exchange = Ok oa /\ py_truthy oa = false) \/
  (py_truthy br = true /\ get_oa_symbol br exchange = Ok symbol /\
   py_truthy symbol = true) ->
  exists r,
    map_hdfc_order_response get_oa_symbol (VDict hd) = Ok (VDict r) /\
    assoc_get "symbol" r = Some symbol /\
    assoc_get "exchange" r = Some exchange.
Proof.
  intros symbol exchange Hfwd Hbr Hcases.
  destruct (map_order_to_hdfc_inv _ _ _ _ _ Hfwd)
    as (o' & hd' & side & order_type & product & validity & Ho & Hh & _
        & Hot & Hproduct & _ & _ & Hhot & Hhproduct & _ & Hhexchange).
  inversion Ho; subst o'. inversion Hh; subst hd'. clear Ho Hh.
  destruct (map_order_to_hdfc_symbol_entry _ _ _ _ _ Hfwd)
    as (br' & Hbr' & Hhsymbol & _).
  fold symbol exchange in Hbr', Hhsymbol, Hhexchange.
  rewrite Hbr in Hbr'. inversion Hbr'; subst br'. clear Hbr'.
  destruct (table_get_str _ _ _ _ Hot) as [b ->].
  destruct (table_get_str _ _ _ _ Hproduct) as [p ->].
  assert (Hsym : field_or hd "symbol" (VStr "")
                 = if py_truthy br then br else symbol).
  { unfold field_or at 1. rewrite Hhsymbol. reflexivity. }
  assert (Hex : field_or hd "exchange" (VStr "") = exchange).
  { unfold field_or at 1. rewrite Hhexchange. reflexivity. }
  assert (Hrev : forall oa,
             get_oa_symbol (if py_truthy br then br else symbol) exchange = Ok oa ->
             exists r,
               map_hdfc_order_response get_oa_symbol (VDict hd) = Ok (VDict r) /\
               assoc_get "symbol" r
               = Some (if py_truthy oa then oa
                       else if py_truthy br then br else symbol) /\
               assoc_get "exchange" r = Some exchange).
  { intros oa Hoa. eexists. split.
    - apply (map_hdfc_order_response_on_dict hd oa).
      + rewrite Hsym, Hex. exact Hoa.
      + unfold field_or. rewrite Hhot. reflexivity.
      + unfold field_or. rewrite Hhproduct. reflexivity.
    - simpl. rewrite Hsym, Hex. split; reflexivity. }
  destruct Hcases as [(Hbrf & oa & Hoa & Hoaf) | (Hbrt & Hoa & Hst)].
  - rewrite Hbrf in Hrev. destruct (Hrev oa Hoa) as (r & Hr & Hrs & Hre).
    rewrite Hoaf in Hrs. exists r. auto.
  - rewrite Hbrt in Hrev. destruct (Hrev symbol Hoa) as (r & Hr & Hrs & Hre).
    rewrite Hst in Hrs. exists r. auto.
Qed.

End OrderCallsMore.

Lemma X21_transport_failure_witness :
  exists r,
    OrderApi.place_order Fixtures.int_of_str0 Fixtures.float_of_str0
      Fixtures.br_symbol_of Fixtures.oa_symbol_of Fixtures.dumps0
      (Ok Fixtures.client_down) Fixtures.infy_order "tok" = Ok (VDict r) /\
    assoc_get "order_status" r = Some (VStr "error") /\
    assoc_get "message" r = None.
Proof.
  destruct (X21_transport_failure_becomes_order_status
              Fixtures.int_of_str0 Fixtures.float_of_str0 Fixtures.br_symbol_of
              Fixtures.oa_symbol_of Fixtures.dumps0 (Ok Fixtures.client_down)
              Fixtures.client_down (TransportError "connection refused")
              "42" "tok" Fixtures.infy_order eq_refl client_down_fails
              (oa_symbol_of_returns (VStr "") (VStr "")))
    as (r & _ & Hcalls & Hstatus & _ & Hmessage).
  destruct (Hcalls _ _ eq_refl eq_refl) as [Hplace _].
  exists r. split; [exact Hplace | split; [exact Hstatus | exact Hmessage]].
Defined.

Lemma X22_symbol_round_trip_witness :
  exists hd r,
    TransformData.map_order_to_hdfc Fixtures.int_of_str0 Fixtures.float_of_str0
      Fixtures.br_symbol_of (VDict Cases.priced_order) = Ok (VDict hd) /\
    TransformData.map_hdfc_order_response Fixtures.oa_symbol_of (VDict hd)
    = Ok (VDict r) /\
    assoc_get "symbol" r = Some (VStr "INFY") /\
    assoc_get "exchange" r = Some (VStr "NSE").
Proof.
  eexists.
  match goal with
  | |- exists r, _ = Ok (VDict ?hd) /\ _ =>
      destruct (X22_symbol_round_trip
                  Fixtures.int_of_str0 Fixtures.float_of_str0
                  Fixtures.br_symbol_of Fixtures.oa_symbol_of
                  Cases.priced_order hd (VStr "INFY-EQ") eq_refl eq_refl
                  (or_intror (conj eq_refl (conj eq_refl eq_refl))))
        as (r & Hr & Hsymbol & Hexchange)
  end.
  exists r. split; [reflexivity |].
  split; [exact Hr | split; [exact Hsymbol | exact Hexchange]].
Defined.

(** X23: whenever the resolver answers the queried symbol with anything
    but [None] and every listed position went through [map_hdfc_position] on
    its normal path, [get_open_position] returns the empty record, whatever
    the account holds: a translated position has no tradingsymbol entry to
    compare with. *)
Theorem X23_open_position_empty_on_translated_positions
  (get_br_symbol get_oa_symbol : value -> value -> result value)
  (get_httpx_client : result http_client)
  (tradingsymbol exchange producttype auth : string)
  (positions : list value) (br_symbol : value) :
  OrderApi.get_positions get_oa_symbol get_httpx_client auth
  = Ok (OrderApi.success_envelope "positions" positions) ->
  Forall (fun position =>
            exists hdfc_pos,
              TransformData.map_hdfc_position_body get_oa_symbol hdfc_pos
              = Ok position)
         positions ->
  get_br_symbol (VStr tradingsymbol) (VStr exchange) = Ok br_symbol ->
  br_symbol <> VNone ->
  OrderApi.get_open_position get_br_symbol get_oa_symbol get_httpx_client
    tradingsymbol exchange producttype auth
  = Ok (VDict []).
Proof.
  intros Hpositions Hall Hbr Hne.
  unfold OrderApi.get_open_position.
  rewrite Hpositions. simpl. rewrite Hbr. simpl.
  rewrite (scan_positions_mapped get_oa_symbol _ _ _ Hne Hall). reflexivity.
Qed.

Lemma X23_open_position_witness :
  OrderApi.get_open_position Fixtures.br_symbol_of Fixtures.oa_symbol_of
    (Ok Fixtures.positions_client) "INFY" "NSE" "CNC" "tok"
  = Ok (VDict []).
Proof.
  apply (X23_open_position_empty_on_translated_positions
           Fixtures.br_symbol_of Fixtures.oa_symbol_of
           (Ok Fixtures.positions_client) "INFY" "NSE" "CNC" "tok"
           [Fixtures.infy_position_platform] (VStr "INFY-EQ") eq_refl).
  - constructor; [| constructor]. exists Fixtures.infy_position. reflexivity.
  - reflexivity.
  - discriminate.
Defined.

(** X24: the body of a reverse mapper raises, so that the mapper gives the
    broker record back untranslated, exactly when the record is not a
    dictionary, when the symbol resolver raises on its symbol and exchange,
    or when an entry that is looked up in a table is a list or a dictionary
    (order_type and product for orders, product for positions); in every
    other case it translates. *)
Theorem X24_reverse_mappers_fall_back_exactly_when
  (get_oa_symbol : value -> value -> result value) (record : value) :
  let resolver_raises :=
    exists d,
      record = VDict d /\
      raises (get_oa_symbol (field_or d "symbol" (VStr ""))
                            (field_or d "exchange" (VStr ""))) in
  let unhashable (key default : string) :=
    exists d,
      record = VDict d /\
      hashable (field_or d key (VStr default)) = false in
  let not_a_record := forall d, record <> VDict d in
  (raises (TransformData.map_hdfc_order_response_body get_oa_symbol record) <->
   not_a_record \/ resolver_raises \/ unhashable "order_type" "MKT"
   \/ unhashable "product" "MIS") /\
  (raises (TransformData.map_hdfc_trade_response_body get_oa_symbol record) <->
   not_a_record \/ resolver_raises) /\
  (raises (TransformData.map_hdfc_position_body get_oa_symbol record) <->
   not_a_record \/ resolver_raises \/ unhashable "product" "MIS") /\
  (raises (TransformData.map_hdfc_holding_body get_oa_symbol record) <->
   not_a_record \/ resolver_raises).
Proof.
  intros resolver_raises unhashable not_a_record.
  unfold resolver_raises, unhashable, not_a_record.
  split; [| split; [| split]].
  - rewrite map_hdfc_order_response_body_raises_iff. split.
    + intros [H | (d & Hd & [H | [H | H]])]; [left; exact H | | |].
      * right. left. exists d. auto.
      * right. right. left. exists d. auto.
      * right. right. right. exists d. auto.
    + intros [H | [(d & Hd & H) | [(d & Hd & H) | (d & Hd & H)]]];
        [left; exact H | | |]; right; exists d; auto.
  - rewrite map_hdfc_trade_response_body_raises_iff. reflexivity.
  - rewrite map_hdfc_position_body_raises_iff. split.
    + intros [H | (d & Hd & [H | H])]; [left; exact H | |].
      * right. left. exists d. auto.
      * right. right. exists d. auto.
    + intros [H | [(d & Hd & H) | (d & Hd & H)]];
        [left; exact H | |]; right; exists d; auto.
  - rewrite map_hdfc_holding_body_raises_iff. reflexivity.
Qed.
